(** * The assertion engine of promptfoo, embedded in Rocq

    The development follows the second module of [src/web/server.ts] (the
    assertion engine: [runAssertions], [runAssertion], [containsJSON],
    [matchesSimilarity], [matchesLlmRubric] and [assertionFromString]).

    Layout:
    - [JsNumber]: ECMAScript numbers as IEEE 754 binary64 values, with the
      decimal-to-binary conversion that number literals, [parseFloat] and
      [JSON.parse] share;
    - [JsString], [ParseFloat]: the string built-ins the engine calls
      ([startsWith], [slice], [trim]) and [parseFloat];
    - [JsValue], [Json]: run-time values, truthiness, and [JSON.parse];
    - [Regex]: the two regular expressions of the module, written out as
      matchers;
    - [Types], [Engine]: the data model and the engine itself, over an
      explicit world (state passing with exceptions) and a record of the
      collaborators it imports;
    - the vocabulary of the properties and a fixture (a world that keeps a
      journal of the calls it received);
    - the properties: the depth bound of the JSON parser and the matcher of
      [SIMILAR_REGEX] against the form the regex describes, then the
      runner, the matchers, the evaluator and the parser, and concrete runs
      on the fixture;
    - [Server]: what the callbacks of [init], the first module of the file,
      compute; further properties of all of these, with their runs, close
      the file. *)

From Stdlib Require Import ZArith List String Ascii Bool Lia.
From Stdlib Require Import Floats.SpecFloat.
Import ListNotations.

#[local] Set Warnings "-register-all".

Local Open Scope string_scope.
Local Open Scope Z_scope.

(* ===================================================================== *)
(** ** ECMAScript numbers *)
(* ===================================================================== *)

Module JsNumber.

(** A Number is an IEEE 754 binary64 value: 53 bits of precision, and
    infinities at exponent 1024.  [spec_float] keeps a single NaN, as
    ECMAScript does observably. *)
Definition number := spec_float.

Definition prec : Z := 53.
Definition emax : Z := 1024.

Definition NaN : number := S754_nan.
Definition Infinity : number := S754_infinity false.
Definition pos_zero : number := S754_zero false.

(** [x < y] on Numbers; false as soon as one side is NaN. *)
Definition lt (x y : number) : bool := SFltb x y.

(** IEEE equality: [+0] and [-0] are equal, NaN equals nothing. *)
Definition eqb (x y : number) : bool := SFeqb x y.

(** ToBoolean on a Number: [+0], [-0] and NaN are falsy. *)
Definition truthy (x : number) : bool :=
  match x with
  | S754_zero _ | S754_nan => false
  | _ => true
  end.

(** [x || d] where [x] is a Number. *)
Definition or_else (x d : number) : number := if truthy x then x else d.

Definition neg_if (s : bool) (x : number) : number :=
  if s then SFopp x else x.

(** The Number nearest to [m * 10^e] (ties to even), for [0 <= m]: the
    value of the decimal literal with digits [m] and decimal exponent [e].
    The quotient is rounded once, from the exact integers. *)
Definition of_decimal (m e : Z) : number :=
  match m with
  | Z0 => S754_zero false
  | Zneg _ => S754_nan
  | Zpos p =>
      match e with
      | Zneg k =>
          SFdiv prec emax (S754_finite false p 0)
                          (S754_finite false (Pos.pow 10 k) 0)
      | _ => binary_normalize prec emax (Zpos p * 10 ^ e) 0 false
      end
  end.

(** The literals the source file writes: [0.75] is [3 * 2^-2] exactly,
    [0.8] is rounded (its bits are [0x3FE999999999999A]). *)
Definition lit_0_75 : number := Eval vm_compute in of_decimal 75 (-2).
Definition lit_0_8 : number := Eval vm_compute in of_decimal 8 (-1).

End JsNumber.

(* ===================================================================== *)
(** ** ECMAScript strings *)
(* ===================================================================== *)

Module JsString.

(** Strings are sequences of code units; the model keeps one byte per
    unit, which covers every character the engine itself inspects. *)

Definition is_digit (c : ascii) : bool :=
  let n := N_of_ascii c in (48 <=? n)%N && (n <=? 57)%N.

Definition digit_value (c : ascii) : Z := Z.of_N (N_of_ascii c) - 48.

(** WhiteSpace and LineTerminator code units below 256: TAB, LF, VT, FF,
    CR, SP and NBSP. *)
Definition is_white (c : ascii) : bool :=
  let n := N_of_ascii c in
  (((9 <=? n)%N && (n <=? 13)%N) || (n =? 32)%N || (n =? 160)%N)%bool.

(** [s.startsWith(p)] *)
Fixpoint startsWith (s p : string) {struct p} : bool :=
  match p with
  | EmptyString => true
  | String c p' =>
      match s with
      | String d s' => (Ascii.eqb c d && startsWith s' p')%bool
      | EmptyString => false
      end
  end.

(** [s.slice(n)] for [0 <= n] *)
Fixpoint slice (n : nat) (s : string) : string :=
  match n, s with
  | O, _ => s
  | S n', String _ rest => slice n' rest
  | S _, EmptyString => EmptyString
  end.

Fixpoint trimStart (s : string) : string :=
  match s with
  | String c rest => if is_white c then trimStart rest else s
  | EmptyString => EmptyString
  end.

(** Drops the white space at the end of [s]. *)
Fixpoint trimEnd (s : string) : string :=
  match s with
  | EmptyString => EmptyString
  | String c rest =>
      match trimEnd rest with
      | EmptyString => if is_white c then EmptyString else String c EmptyString
      | kept => String c kept
      end
  end.

(** [s.trim()] *)
Definition trim (s : string) : string := trimEnd (trimStart s).

(** The longest run of decimal digits at the head of [s], as the integer
    it denotes continued from [acc], with how many digits were read and
    what follows them. *)
Fixpoint read_digits (s : string) (acc : Z) (count : nat) : Z * nat * string :=
  match s with
  | String c rest =>
      if is_digit c then read_digits rest (10 * acc + digit_value c) (S count)
      else (acc, count, s)
  | EmptyString => (acc, count, s)
  end.

End JsString.

(* ===================================================================== *)
(** ** parseFloat *)
(* ===================================================================== *)

Module ParseFloat.
Import JsNumber JsString.

(** The exponent part of a StrDecimalLiteral: [e] or [E], an optional
    sign, at least one digit.  Absent or malformed, it is not part of the
    literal and counts for zero. *)
Definition read_exponent (s : string) : Z :=
  match s with
  | String c rest =>
      if (Ascii.eqb c "e" || Ascii.eqb c "E")%bool then
        let '(neg, digits) :=
          match rest with
          | String "-" r => (true, r)
          | String "+" r => (false, r)
          | _ => (false, rest)
          end in
        let '(v, n, _) := read_digits digits 0 O in
        match n with
        | O => 0
        | _ => if neg then - v else v
        end
      else 0
  | EmptyString => 0
  end.

(** The unsigned part: [Infinity], or digits with an optional fraction
    and exponent, or a fraction alone.  The longest prefix that is a
    literal is used; if there is none the result is NaN. *)
Definition read_unsigned (s : string) : number :=
  if startsWith s "Infinity" then Infinity
  else
    let '(int_v, int_n, after_int) := read_digits s 0 O in
    match after_int with
    | String "." frac =>
        let '(all_v, frac_n, after_frac) := read_digits frac int_v O in
        match int_n, frac_n with
        | O, O => NaN
        | _, _ => of_decimal all_v (read_exponent after_frac - Z.of_nat frac_n)
        end
    | _ =>
        match int_n with
        | O => NaN
        | _ => of_decimal int_v (read_exponent after_int)
        end
    end.

(** [parseFloat(s)]: leading white space is skipped, then an optional
    sign. *)
Definition parseFloat (s : string) : number :=
  match trimStart s with
  | String "-" rest => neg_if true (read_unsigned rest)
  | String "+" rest => read_unsigned rest
  | t => read_unsigned t
  end.

End ParseFloat.

(* ===================================================================== *)
(** ** Run-time values *)
(* ===================================================================== *)

Module JsValue.
Import JsNumber.

(** The values the engine can hold in a [pass] or [reason] field: what a
    predicate returns and what [JSON.parse] builds.  An object is its own
    properties in insertion order. *)
Inductive jsval : Type :=
| JUndefined
| JNull
| JBool (b : bool)
| JNumber (n : number)
| JString (s : string)
| JArray (items : list jsval)
| JObject (props : list (string * jsval)).

(** ToBoolean *)
Definition truthy (v : jsval) : bool :=
  match v with
  | JUndefined | JNull => false
  | JBool b => b
  | JNumber n => JsNumber.truthy n
  | JString s => negb (String.eqb s EmptyString)
  | JArray _ | JObject _ => true
  end.

(** [typeof v === 'object' && v !== null]: the values a property can be
    assigned on. *)
Definition is_object (v : jsval) : bool :=
  match v with
  | JArray _ | JObject _ => true
  | _ => false
  end.

Fixpoint lookup (k : string) (props : list (string * jsval)) : option jsval :=
  match props with
  | [] => None
  | (k', v) :: rest => if String.eqb k k' then Some v else lookup k rest
  end.

(** Defining a property: an existing key keeps its place and takes the
    new value, a new key goes last. *)
Fixpoint define (k : string) (v : jsval) (props : list (string * jsval))
  : list (string * jsval) :=
  match props with
  | [] => [(k, v)]
  | (k', v') :: rest =>
      if String.eqb k k' then (k, v) :: rest else (k', v') :: define k v rest
  end.

(** [v.k] for a key [k] that no prototype defines (such as [pass] and
    [reason]) and that is not an array index or [length]. *)
Definition get (v : jsval) (k : string) : jsval :=
  match v with
  | JObject props =>
      match lookup k props with
      | Some x => x
      | None => JUndefined
      end
  | _ => JUndefined
  end.

(** A string or [undefined], as a value. *)
Definition of_optional_string (o : option string) : jsval :=
  match o with
  | Some s => JString s
  | None => JUndefined
  end.

End JsValue.

(* ===================================================================== *)
(** ** JSON.parse *)
(* ===================================================================== *)

Module Json.
Import JsNumber JsString JsValue.

Definition is_json_white (c : ascii) : bool :=
  let n := N_of_ascii c in
  ((n =? 32) || (n =? 9) || (n =? 10) || (n =? 13))%N%bool.

Fixpoint skip_white (s : string) : string :=
  match s with
  | String c rest => if is_json_white c then skip_white rest else s
  | EmptyString => EmptyString
  end.

Definition hex_value (c : ascii) : option N :=
  let n := N_of_ascii c in
  if ((48 <=? n) && (n <=? 57))%N%bool then Some (n - 48)%N
  else if ((97 <=? n) && (n <=? 102))%N%bool then Some (n - 87)%N
  else if ((65 <=? n) && (n <=? 70))%N%bool then Some (n - 55)%N
  else None.

Definition hex4 (a b c d : ascii) : option N :=
  match hex_value a, hex_value b, hex_value c, hex_value d with
  | Some x, Some y, Some z, Some w => Some (((x * 16 + y) * 16 + z) * 16 + w)%N
  | _, _, _, _ => None
  end.

(** One code unit as bytes: itself below 128, its UTF-8 form above. *)
Definition unit_bytes (u : N) : string :=
  if (u <? 128)%N then String (ascii_of_N u) EmptyString
  else if (u <? 2048)%N then
    String (ascii_of_N (192 + u / 64)) (String (ascii_of_N (128 + u mod 64)) EmptyString)
  else
    String (ascii_of_N (224 + u / 4096))
      (String (ascii_of_N (128 + (u / 64) mod 64))
         (String (ascii_of_N (128 + u mod 64)) EmptyString)).

(** The character an escape letter stands for. *)
Definition escape (e : ascii) : option ascii :=
  if Ascii.eqb e "034" then Some "034"%char
  else if Ascii.eqb e "\" then Some "\"%char
  else if Ascii.eqb e "/" then Some "/"%char
  else if Ascii.eqb e "b" then Some "008"%char
  else if Ascii.eqb e "f" then Some "012"%char
  else if Ascii.eqb e "n" then Some "010"%char
  else if Ascii.eqb e "r" then Some "013"%char
  else if Ascii.eqb e "t" then Some "009"%char
  else None.

(** The characters of a string literal after its opening quote, up to
    the closing one: the string denoted, and what follows. *)
Fixpoint string_body (s : string) : option (string * string) :=
  match s with
  | EmptyString => None
  | String c rest =>
      if Ascii.eqb c "034" then Some (EmptyString, rest)
      else if Ascii.eqb c "\" then
        match rest with
        | EmptyString => None
        | String e rest1 =>
            if Ascii.eqb e "u" then
              match rest1 with
              | String h1 (String h2 (String h3 (String h4 rest2))) =>
                  match hex4 h1 h2 h3 h4, string_body rest2 with
                  | Some u, Some (body, after) => Some (unit_bytes u ++ body, after)
                  | _, _ => None
                  end
              | _ => None
              end
            else
              match escape e, string_body rest1 with
              | Some x, Some (body, after) => Some (String x body, after)
              | _, _ => None
              end
        end
      else if (N_of_ascii c <? 32)%N then None
      else
        match string_body rest with
        | Some (body, after) => Some (String c body, after)
        | None => None
        end
  end.

(** An optional minus sign. *)
Definition minus_sign (s : string) : bool * string :=
  match s with
  | String c rest => if Ascii.eqb c "-" then (true, rest) else (false, s)
  | EmptyString => (false, s)
  end.

(** An integer part may not start with a zero that another digit follows. *)
Definition leading_zero (s : string) (digits : nat) : bool :=
  match s, digits with
  | String c _, S (S _) => Ascii.eqb c "0"
  | _, _ => false
  end.

(** An optional fraction after the integer part [int_v]: a dot and at
    least one digit.  The digits read so far, how many of them are after
    the dot, and what follows. *)
Definition fraction (s : string) (int_v : Z) : option (Z * nat * string) :=
  match s with
  | String c rest =>
      if Ascii.eqb c "." then
        let '(v, n, after) := read_digits rest int_v O in
        match n with
        | O => None
        | _ => Some (v, n, after)
        end
      else Some (int_v, O, s)
  | EmptyString => Some (int_v, O, s)
  end.

(** An optional sign, minus or plus. *)
Definition sign (s : string) : bool * string :=
  match s with
  | String c rest =>
      if Ascii.eqb c "-" then (true, rest)
      else if Ascii.eqb c "+" then (false, rest)
      else (false, s)
  | EmptyString => (false, s)
  end.

(** An optional exponent: [e] or [E], an optional sign, at least one
    digit. *)
Definition exponent (s : string) : option (Z * string) :=
  match s with
  | String c rest =>
      if (Ascii.eqb c "e" || Ascii.eqb c "E")%bool then
        let '(neg, digits) := sign rest in
        let '(v, n, after) := read_digits digits 0 O in
        match n with
        | O => None
        | _ => Some ((if neg then - v else v), after)
        end
      else Some (0, s)
  | EmptyString => Some (0, s)
  end.

(** A number: an optional minus, an integer part without a leading zero,
    an optional fraction and an optional exponent. *)
Definition number_literal (s : string) : option (number * string) :=
  let '(neg, s1) := minus_sign s in
  let '(int_v, int_n, after_int) := read_digits s1 0 O in
  match int_n with
  | O => None
  | _ =>
      if leading_zero s1 int_n then None
      else
        match fraction after_int int_v with
        | None => None
        | Some (m, frac_n, after_frac) =>
            match exponent after_frac with
            | None => None
            | Some (e, after) =>
                Some (neg_if neg (of_decimal m (e - Z.of_nat frac_n)), after)
            end
        end
  end.

(** [true], [false], [null] or a number. *)
Definition scalar (s : string) : option (jsval * string) :=
  if startsWith s "true" then Some (JBool true, slice 4 s)
  else if startsWith s "false" then Some (JBool false, slice 5 s)
  else if startsWith s "null" then Some (JNull, slice 4 s)
  else
    match number_literal s with
    | Some (n, after) => Some (JNumber n, after)
    | None => None
    end.

(** Whether [s] starts with the character [c], white space apart; what
    follows it if so. *)
Definition after_char (c : ascii) (s : string) : option string :=
  match skip_white s with
  | String d rest => if Ascii.eqb d c then Some rest else None
  | EmptyString => None
  end.

(** A parser: a result and what follows it, or nothing. *)
Definition parser (A : Type) : Type := string -> option (A * string).

(** A parser that reads at least one character when it succeeds. *)
Definition consumes (p : parser jsval) : Prop :=
  forall s v after,
    p s = Some (v, after) -> (String.length after < String.length s)%nat.

(** A value, given the parsers of the members and of the elements that may
    open it. *)
Definition value_step (members : list (string * jsval) -> parser jsval)
           (elements : list jsval -> parser jsval) : parser jsval :=
  fun s =>
    match after_char "{" s with
    | Some rest =>
        match after_char "}" rest with
        | Some after => Some (JObject [], after)
        | None => members [] rest
        end
    | None =>
        match after_char "[" s with
        | Some rest =>
            match after_char "]" rest with
            | Some after => Some (JArray [], after)
            | None => elements [] rest
            end
        | None =>
            match after_char "034" s with
            | Some rest =>
                match string_body rest with
                | Some (str, after) => Some (JString str, after)
                | None => None
                end
            | None => scalar (skip_white s)
            end
        end
    end.

(** The members of an object from a key on, up to the closing brace; [acc]
    holds the members read so far. *)
Definition members_step (value : parser jsval)
           (members : list (string * jsval) -> parser jsval)
           (acc : list (string * jsval)) : parser jsval :=
  fun s =>
    match after_char "034" s with
    | Some rest =>
        match string_body rest with
        | Some (key, after_key) =>
            match after_char ":" after_key with
            | Some after_colon =>
                match value after_colon with
                | Some (v, after_v) =>
                    match after_char "," after_v with
                    | Some more => members (define key v acc) more
                    | None =>
                        match after_char "}" after_v with
                        | Some after => Some (JObject (define key v acc), after)
                        | None => None
                        end
                    end
                | None => None
                end
            | None => None
            end
        | None => None
        end
    | None => None
    end.

(** The elements of an array from a value on, up to the closing bracket. *)
Definition elements_step (value : parser jsval)
           (elements : list jsval -> parser jsval)
           (acc : list jsval) : parser jsval :=
  fun s =>
    match value s with
    | Some (v, after_v) =>
        match after_char "," after_v with
        | Some more => elements (acc ++ [v])%list more
        | None =>
            match after_char "]" after_v with
            | Some after => Some (JArray (acc ++ [v])%list, after)
            | None => None
            end
        end
    | None => None
    end.

(** One JSON value at the head of [s] (after white space), and what
    follows it.  [depth] bounds the nesting of the calls: a value opens its
    members or elements after one character, members call for a value after
    the key and the colon, and elements call for a value at once; so a call
    is at most two levels down per character read, and [parse] starts with
    twice the length of the text and two more ([parse_depth_enough] below
    shows that no more is ever needed). *)
Fixpoint parse_value (depth : nat) : parser jsval :=
  match depth with
  | O => fun _ => None
  | S d => value_step (parse_members d) (parse_elements d)
  end

with parse_members (depth : nat) (acc : list (string * jsval)) : parser jsval :=
  match depth with
  | O => fun _ => None
  | S d => members_step (parse_value d) (parse_members d) acc
  end

with parse_elements (depth : nat) (acc : list jsval) : parser jsval :=
  match depth with
  | O => fun _ => None
  | S d => elements_step (parse_value d) (parse_elements d) acc
  end.

(** [JSON.parse(s)] without a reviver: the value, or [None] where
    JSON.parse throws a SyntaxError. *)
Definition parse (s : string) : option jsval :=
  match parse_value (2 * String.length s + 2) s with
  | Some (v, after) =>
      match skip_white after with
      | EmptyString => Some v
      | _ => None
      end
  | None => None
  end.

End Json.

(* ===================================================================== *)
(** ** The regular expressions of the module *)
(* ===================================================================== *)

Module Regex.
Import JsString.

(** The longest run of digits at the head of [s], and the rest. *)
Fixpoint span_digits (s : string) : string * string :=
  match s with
  | String c rest =>
      if is_digit c then
        let '(ds, after) := span_digits rest in (String c ds, after)
      else (EmptyString, s)
  | EmptyString => (EmptyString, EmptyString)
  end.

(** The text after the literal [p] at the head of [s], if [p] is there. *)
Definition expect (p s : string) : option string :=
  if startsWith s p then Some (slice (String.length p) s) else None.

(** [\d+] at the head of [s]: the digits, which are at least one, and the
    rest. *)
Definition some_digits (s : string) : option (string * string) :=
  let '(ds, after) := span_digits s in
  if String.eqb ds EmptyString then None else Some (ds, after).

(** [SIMILAR_REGEX = /similar(?::|\((\d+(\.\d+)?)\):)/] tried at the head
    of [s]: capture group 1 and the text after the match.  Both [\d+] are
    greedy and what must follow each (a dot or a closing parenthesis) is
    not a digit, so giving digits back never turns a failure into a
    match: the greedy attempt decides ([similar_at_complete] below: every
    text of the form the regex describes is matched whole). *)
Definition similar_at (s : string) : option (option string * string) :=
  match expect "similar" s with
  | None => None
  | Some r =>
      match expect ":" r with
      | Some after => Some (None, after)
      | None =>
          match expect "(" r with
          | None => None
          | Some r1 =>
              match some_digits r1 with
              | None => None
              | Some (ds, r2) =>
                  match expect "):" r2 with
                  | Some after => Some (Some ds, after)
                  | None =>
                      match expect "." r2 with
                      | None => None
                      | Some r3 =>
                          match some_digits r3 with
                          | None => None
                          | Some (fs, r4) =>
                              match expect "):" r4 with
                              | Some after => Some (Some (ds ++ "." ++ fs), after)
                              | None => None
                              end
                          end
                      end
                  end
              end
          end
      end
  end.

Definition starts_with_digit (s : string) : bool :=
  match s with
  | String c _ => is_digit c
  | EmptyString => false
  end.

(** A string of digits, at least one. *)
Fixpoint all_digits (s : string) : bool :=
  match s with
  | String c rest => (is_digit c && all_digits rest)%bool
  | EmptyString => true
  end.

Definition digits (s : string) : Prop :=
  s <> EmptyString /\ all_digits s = true.

(** The texts [SIMILAR_REGEX] describes, each with its capture group 1. *)
Inductive similar_form : string -> option string -> Prop :=
| form_plain : similar_form "similar:" None
| form_integer : forall ds,
    digits ds -> similar_form ("similar(" ++ ds ++ "):") (Some ds)
| form_decimal : forall ds fs,
    digits ds -> digits fs ->
    similar_form ("similar(" ++ ds ++ "." ++ fs ++ "):") (Some (ds ++ "." ++ fs)).

(** The result of [s.match(SIMILAR_REGEX)]: the regex is not anchored, so
    the leftmost position where it matches is taken. *)
Record similar_match := {
  before : string;           (* the text left of the match *)
  group1 : option string;    (* match[1] *)
  after : string             (* the text right of the match *)
}.

Fixpoint similar_search (s : string) : option similar_match :=
  match similar_at s with
  | Some (g, rest) => Some {| before := EmptyString; group1 := g; after := rest |}
  | None =>
      match s with
      | String c rest =>
          match similar_search rest with
          | Some m =>
              Some {| before := String c (before m);
                      group1 := group1 m;
                      after := after m |}
          | None => None
          end
      | EmptyString => None
      end
  end.

(** [s.replace(SIMILAR_REGEX, '')]: the regex has no [g] flag, so the
    first match only is removed. *)
Definition similar_remove (s : string) : string :=
  match similar_search s with
  | Some m => before m ++ after m
  | None => s
  end.

(** The longest prefix of [s] that ends with [c]. *)
Fixpoint through_last (c : ascii) (s : string) : option string :=
  match s with
  | EmptyString => None
  | String d rest =>
      match through_last c rest with
      | Some p => Some (String d p)
      | None => if Ascii.eqb d c then Some (String d EmptyString) else None
      end
  end.

(** [str.match(/({[\s\S]*}|\[[\s\S]*])/)], its [match[0]]: from the first
    opening bracket that has a closing one of its kind later on, to the
    last such closing bracket. *)
Fixpoint json_pattern (s : string) : option string :=
  match s with
  | EmptyString => None
  | String c rest =>
      let body :=
        if Ascii.eqb c "{" then through_last "}" rest
        else if Ascii.eqb c "[" then through_last "]" rest
        else None in
      match body with
      | Some b => Some (String c b)
      | None => json_pattern rest
      end
  end.

End Regex.

(* ===================================================================== *)
(** ** The data model *)
(* ===================================================================== *)

Module Types.
Import JsNumber JsValue.

(** Modelled from the spec: the types of [./types], which is not among the
    sources, are taken from section 3 of the specification and from the
    fields the engine reads and writes.

    [TokenUsage] is [{ total, prompt, completion }], integer counters.  On
    an integer [x || 0] is [x]; [counter] below keeps the test. *)
Record TokenUsage := {
  total : Z;
  prompt : Z;
  completion : Z
}.

(** Modelled from the spec: [Assertion] of [./types], with [value] and
    [threshold] optional.  [type] is whatever string the configuration
    holds: the dispatch of [runAssertion] ends with a branch for the strings
    it does not know. *)
Record Assertion := {
  type : string;
  value : option string;
  threshold : option number
}.

(** Modelled from the spec: [GradingResult] of [./types].  [pass] and
    [reason] hold run-time values: a predicate's return value and a judge's
    JSON reach them unchecked. *)
Record GradingResult := {
  pass : jsval;
  reason : jsval;
  tokensUsed : option TokenUsage
}.

(** Modelled from the spec: what [callEmbeddingApi] resolves to,
    [{ embedding?, tokenUsage?, error? }]. *)
Record EmbeddingResult := {
  embedding : option (list number);
  embeddingTokenUsage : option TokenUsage;
  embeddingError : option string
}.

(** Modelled from the spec: what [callApi] resolves to,
    [{ output?, error?, tokenUsage? }]. *)
Record ProviderResponse := {
  output : option string;
  error : option string;
  tokenUsage : option TokenUsage
}.

(** What a [throw] carries and a [catch] receives.  The source types what
    it catches as [Error], but that is a cast and checks nothing: a
    predicate can throw any value.  An [ErrorObject] is an instance of
    [Error] as [new Error(message)], [invariant] and the built-ins make it,
    with its [name] and its [message], both strings; an [OtherValue] is any
    other value ([throw null], [throw 'text'], [throw { code: 1 }]). *)
Inductive JsError : Type :=
| ErrorObject (name message : string)
| OtherValue (v : jsval).

Definition Error (msg : string) : JsError := ErrorObject "Error" msg.
Definition TypeError (msg : string) : JsError := ErrorObject "TypeError" msg.
Definition SyntaxError (msg : string) : JsError := ErrorObject "SyntaxError" msg.

(** [Error.prototype.toString] on an instance with this name and this
    message. *)
Definition errorToString (name message : string) : string :=
  if String.eqb name EmptyString then message
  else if String.eqb message EmptyString then name
  else name ++ ": " ++ message.

(** A string or [undefined] inside a template literal. *)
Definition template (o : option string) : string :=
  match o with
  | Some s => s
  | None => "undefined"
  end.

(** ToBoolean on a string or [undefined]. *)
Definition present (o : option string) : bool :=
  truthy (of_optional_string o).

(** [a === b] with [a] a string or [undefined] and [b] a string. *)
Definition strict_equal (a : option string) (b : string) : bool :=
  match a with
  | Some s => String.eqb s b
  | None => false
  end.

(** [u?.field || 0] *)
Definition counter (field : TokenUsage -> Z) (u : option TokenUsage) : Z :=
  match u with
  | Some t => if field t =? 0 then 0 else field t
  | None => 0
  end.

Definition zero_usage : TokenUsage :=
  {| total := 0; prompt := 0; completion := 0 |}.

(** Field by field. *)
Definition add_usage (a b : TokenUsage) : TokenUsage :=
  {| total := total a + total b;
     prompt := prompt a + prompt b;
     completion := completion a + completion b |}.

(** The usage of one provider call, absent counters being zero. *)
Definition usage_of (u : option TokenUsage) : TokenUsage :=
  {| total := counter total u;
     prompt := counter prompt u;
     completion := counter completion u |}.

Definition quote : string := String "034" EmptyString.
Definition newline : string := String "010" EmptyString.

End Types.

(* ===================================================================== *)
(** ** The engine *)
(* ===================================================================== *)

Module Engine.
Import JsNumber JsString JsValue Types.

(** *** Computations

    An [async] function of the module is a computation over the world
    its collaborators act on: it ends by returning a value or by throwing,
    and what it did to the world stays done either way. *)

Inductive outcome (A : Type) : Type :=
| Returned (a : A)
| Thrown (e : JsError).
Arguments Returned {A} a.
Arguments Thrown {A} e.

Section Computations.
Variable World : Type.

Definition M (A : Type) : Type := World -> outcome A * World.

Definition ret {A} (a : A) : M A := fun w => (Returned a, w).

Definition throw {A} (e : JsError) : M A := fun w => (Thrown e, w).

Definition bind {A B} (m : M A) (k : A -> M B) : M B :=
  fun w =>
    match m w with
    | (Returned a, w') => k a w'
    | (Thrown e, w') => (Thrown e, w')
    end.

(** [try { m } catch (err) { handler err }] *)
Definition try_catch {A} (m : M A) (handler : JsError -> M A) : M A :=
  fun w =>
    match m w with
    | (Returned a, w') => (Returned a, w')
    | (Thrown e, w') => handler e w'
    end.

(** A synchronous call that returns or throws. *)
Definition lift {A} (r : JsError + A) : M A :=
  match r with
  | inr a => ret a
  | inl e => throw e
  end.

(** Modelled from the spec: a provider handle of [./types], an object with
    a [callApi] method. *)
Record ApiProvider := {
  callApi : string -> M ProviderResponse
}.

(** Modelled from the spec: [GradingConfig] of [./types]; [provider] is an
    identifier to resolve, or a handle. *)
Record GradingConfig := {
  provider : option (string + ApiProvider);
  rubricPrompt : option string
}.

(** Modelled from the spec: [AtomicTestCase] of [./types], as far as the
    engine reads it. *)
Record AtomicTestCase := {
  assert : option (list Assertion);
  options : option GradingConfig
}.

(** What the module imports from files that are not among the sources
    ([./providers/openai], [./providers], [./util], [./prompts]) and from
    packages, and the built-ins whose results depend on the host; all are
    parameters of the engine: the embedding provider, the default grading
    provider, the provider loader, the template renderer and the default
    template, [cosineSimilarity], the function constructor with its call,
    the conversion of a Number to a string and the message of JSON.parse's
    SyntaxError. *)
Record Collaborators := {
  callEmbeddingApi : string -> M EmbeddingResult;
  DefaultGradingProvider : ApiProvider;
  loadApiProvider : string -> M ApiProvider;
  renderString : string -> string -> string -> JsError + string;
  DEFAULT_GRADING_PROMPT : string;
  cosineSimilarity : list number -> list number -> JsError + number;
  callFunction : string -> string -> M jsval;
  numberToString : number -> string;
  jsonErrorMessage : string -> string
}.

End Computations.

Arguments ret {World A} a.
Arguments throw {World A} e.
Arguments bind {World A B} m k.
Arguments try_catch {World A} m handler.
Arguments lift {World A} r.
Arguments callApi {World} _ _.
Arguments provider {World} _.
Arguments rubricPrompt {World} _.
Arguments assert {World} _.
Arguments options {World} _.
Arguments Build_AtomicTestCase {World} _ _.
Arguments Build_GradingConfig {World} _ _.
Arguments Build_ApiProvider {World} _.
Arguments callEmbeddingApi {World} _ _.
Arguments DefaultGradingProvider {World} _.
Arguments loadApiProvider {World} _ _.
Arguments renderString {World} _ _ _ _.
Arguments DEFAULT_GRADING_PROMPT {World} _.
Arguments cosineSimilarity {World} _ _ _.
Arguments callFunction {World} _ _ _.
Arguments numberToString {World} _ _.
Arguments jsonErrorMessage {World} _ _.

Declare Scope js_scope.
Delimit Scope js_scope with js.
Notation "x <- m ;; k" := (bind m (fun x => k))
  (at level 61, m at next level, right associativity) : js_scope.
Notation "m ;; k" := (bind m (fun _ => k))
  (at level 61, right associativity) : js_scope.

(** [expected.match(SIMILAR_REGEX)] *)
Definition SIMILAR_REGEX (expected : string) : option Regex.similar_match :=
  Regex.similar_search expected.

Definition DEFAULT_SEMANTIC_SIMILARITY_THRESHOLD : number := lit_0_8.

(** [JSON.parse], throwing its SyntaxError. *)
Definition JSON_parse {World} (rt : Collaborators World) (s : string)
  : JsError + jsval :=
  match Json.parse s with
  | Some v => inr v
  | None => inl (SyntaxError (jsonErrorMessage rt s))
  end.

(** [invariant(condition, message)] of tiny-invariant *)
Definition invariant {World} (condition : bool) (msg : string) : M World unit :=
  if condition then ret tt
  else throw (Error ("Invariant failed: " ++ msg)).

(** [x || d] for an optional string *)
Definition string_or (x : option string) (d : string) : string :=
  match x with
  | Some s => if String.eqb s EmptyString then d else s
  | None => d
  end.

(** [x || d] for an optional Number *)
Definition number_or (x : option number) (d : number) : number :=
  match x with
  | Some n => or_else n d
  | None => d
  end.

Section WithCollaborators.
Context {World : Type}.
Variable rt : Collaborators World.

Local Open Scope js_scope.

(** ToString on a value, as a template literal applies it.  An array is
    joined as [Array.prototype.join] does, its [undefined] and [null]
    elements giving nothing.  An object gives [[object Object]], unless a
    property of its own hides [Object.prototype.toString]: no value here is
    callable, so its conversion to a primitive then fails. *)
Fixpoint toString (v : jsval) : JsError + string :=
  match v with
  | JUndefined => inr "undefined"
  | JNull => inr "null"
  | JBool b => inr (if b then "true" else "false")
  | JNumber n => inr (numberToString rt n)
  | JString s => inr s
  | JArray items =>
      (fix join (l : list jsval) : JsError + string :=
         match l with
         | [] => inr EmptyString
         | x :: rest =>
             match (match x with
                    | JUndefined | JNull => inr EmptyString
                    | _ => toString x
                    end) with
             | inl e => inl e
             | inr first =>
                 match rest with
                 | [] => inr first
                 | _ :: _ =>
                     match join rest with
                     | inl e => inl e
                     | inr others => inr (first ++ "," ++ others)
                     end
                 end
             end
         end) items
  | JObject props =>
      match lookup "toString" props with
      | None => inr "[object Object]"
      | Some _ => inl (TypeError "Cannot convert object to primitive value")
      end
  end.

(** The text of what was caught inside a template literal: the
    conversion of an [Error] instance is [Error.prototype.toString]. *)
Definition thrownToString (err : JsError) : JsError + string :=
  match err with
  | ErrorObject name message => inr (errorToString name message)
  | OtherValue v => toString v
  end.

(** [(err as Error).message] inside a template literal.  Reading a
    property of [null] or of [undefined] throws a TypeError; a value that is
    not an [Error] has the [message] it was given, [undefined] when it has
    none. *)
Definition messageText (err : JsError) : JsError + string :=
  match err with
  | ErrorObject _ message => inr message
  | OtherValue JUndefined =>
      inl (TypeError "Cannot read properties of undefined (reading 'message')")
  | OtherValue JNull =>
      inl (TypeError "Cannot read properties of null (reading 'message')")
  | OtherValue v => toString (get v "message")
  end.

(** [containsJSON] *)
Definition containsJSON (str : string) : bool :=
  match Regex.json_pattern str with
  | None => false
  | Some m =>
      match JSON_parse rt m with
      | inr _ => true
      | inl _ => false
      end
  end.

(** [matchesSimilarity] *)
Definition matchesSimilarity (expected output : string) (threshold : number)
  : M World GradingResult :=
  expectedEmbedding <- callEmbeddingApi rt expected ;;
  outputEmbedding <- callEmbeddingApi rt output ;;
  let tokensUsed := {|
    total := counter total (embeddingTokenUsage expectedEmbedding)
             + counter total (embeddingTokenUsage outputEmbedding);
    prompt := counter prompt (embeddingTokenUsage expectedEmbedding)
              + counter prompt (embeddingTokenUsage outputEmbedding);
    completion := counter completion (embeddingTokenUsage expectedEmbedding)
                  + counter completion (embeddingTokenUsage outputEmbedding)
  |} in
  if (present (embeddingError expectedEmbedding)
      || present (embeddingError outputEmbedding))%bool then
    ret {| pass := JBool false;
           reason := JString
             (string_or (embeddingError expectedEmbedding)
                (string_or (embeddingError outputEmbedding)
                   "Unknown error fetching embeddings"));
           tokensUsed := Some tokensUsed |}
  else
    match embedding expectedEmbedding, embedding outputEmbedding with
    | Some expectedVector, Some outputVector =>
        similarity <- lift (cosineSimilarity rt expectedVector outputVector) ;;
        if lt similarity threshold then
          ret {| pass := JBool false;
                 reason := JString
                   ("Similarity " ++ numberToString rt similarity
                    ++ " is less than threshold " ++ numberToString rt threshold);
                 tokensUsed := Some tokensUsed |}
        else
          ret {| pass := JBool true;
                 reason := JString
                   ("Similarity " ++ numberToString rt similarity
                    ++ " is greater than threshold " ++ numberToString rt threshold);
                 tokensUsed := Some tokensUsed |}
    | _, _ =>
        ret {| pass := JBool false;
               reason := JString "Embedding not found";
               tokensUsed := Some tokensUsed |}
    end.

(** The [GradingResult] a parsed judge verdict is read as, once its
    [tokensUsed] has been overwritten. *)
Definition verdict (parsed : jsval) (usage : TokenUsage) : GradingResult :=
  {| pass := get parsed "pass";
     reason := get parsed "reason";
     tokensUsed := Some usage |}.

(** The provider of a rubric call:
    [let provider = options.provider || DefaultGradingProvider;
     if (typeof provider === 'string') provider = await loadApiProvider(provider);] *)
Definition resolveProvider (options : GradingConfig World) : M World (ApiProvider World) :=
  match provider options with
  | Some (inl id) =>
      if String.eqb id EmptyString then ret (DefaultGradingProvider rt)
      else loadApiProvider rt id
  | Some (inr handle) => ret handle
  | None => ret (DefaultGradingProvider rt)
  end.

(** [matchesLlmRubric].  The module is strict code, so the assignment
    [parsed.tokensUsed = ...] throws a TypeError when [parsed] is not an
    object; the surrounding [catch] receives it like a parse error. *)
Definition matchesLlmRubric (expected output : string)
           (options : option (GradingConfig World)) : M World GradingResult :=
  match options with
  | None =>
      throw (Error "Cannot grade output without grading config. Specify --grader option or grading config.")
  | Some options =>
      prompt <- lift (renderString rt
                        (string_or (rubricPrompt options) (DEFAULT_GRADING_PROMPT rt))
                        output expected) ;;
      provider <- resolveProvider options ;;
      resp <- callApi provider prompt ;;
      if (present (error resp) || negb (present (Types.output resp)))%bool then
        ret {| pass := JBool false;
               reason := JString (string_or (error resp) "No output");
               tokensUsed := Some (usage_of (tokenUsage resp)) |}
      else
        try_catch
          (parsed <- lift (JSON_parse rt (template (Types.output resp))) ;;
           (if is_object parsed then ret tt
            else throw (TypeError "Cannot create property 'tokensUsed'")) ;;
           ret (verdict parsed (usage_of (tokenUsage resp))))
          (fun err =>
             ret {| pass := JBool false;
                    reason := JString
                      ("Output is not valid JSON: " ++ template (Types.output resp));
                    tokensUsed := Some (usage_of (tokenUsage resp)) |})
  end.

(** [runAssertion].  In the [catch] of the [javascript] branch the source
    reads [(err as Error).message]: the cast checks nothing, and the read
    itself throws when what was caught is [null] or [undefined]. *)
Definition runAssertion (assertion : Assertion) (test : AtomicTestCase World)
           (output : string) : M World GradingResult :=
  if String.eqb (type assertion) "equals" then
    let pass := strict_equal (value assertion) output in
    ret {| pass := JBool pass;
           reason := JString
             (if pass then "Assertion passed"
              else "Expected output " ++ quote ++ template (value assertion) ++ quote);
           tokensUsed := None |}
  else if String.eqb (type assertion) "is-json" then
    try_catch
      (lift (JSON_parse rt output) ;;
       ret {| pass := JBool true;
              reason := JString "Assertion passed";
              tokensUsed := None |})
      (fun err =>
         text <- lift (thrownToString err) ;;
         ret {| pass := JBool false;
                reason := JString
                  ("Expected output to be valid JSON, but it isn't." ++ newline
                   ++ "Error: " ++ text);
                tokensUsed := None |})
  else if String.eqb (type assertion) "contains-json" then
    let pass := containsJSON output in
    ret {| pass := JBool pass;
           reason := JString
             (if pass then "Assertion passed"
              else "Expected output to contain valid JSON");
           tokensUsed := None |}
  else if String.eqb (type assertion) "javascript" then
    attempt <-
      try_catch
        (pass <- callFunction rt ("return " ++ template (value assertion)) output ;;
         ret (inr pass))
        (fun err =>
           text <- lift (messageText err) ;;
           ret (inl {| pass := JBool false;
                       reason := JString ("Custom function threw error: " ++ text);
                       tokensUsed := None |})) ;;
    match attempt with
    | inl caught => ret caught
    | inr pass =>
        ret {| pass := pass;
               reason := JString
                 (if truthy pass then "Assertion passed"
                  else "Custom function returned false");
               tokensUsed := None |}
    end
  else if String.eqb (type assertion) "similar" then
    invariant (present (value assertion))
              "Similarity assertion must have a string value" ;;
    matchesSimilarity (template (value assertion)) output
                      (number_or (threshold assertion) lit_0_75)
  else if String.eqb (type assertion) "llm-rubric" then
    invariant (present (value assertion))
              "Similarity assertion must have a string value" ;;
    matchesLlmRubric (template (value assertion)) output (options test)
  else
    throw (Error ("Unknown assertion type: " ++ type assertion)).

(** The [for ... of] loop of [runAssertions], with the running total as
    the loop state. *)
Fixpoint runAssertions_loop (assertions : list Assertion)
         (test : AtomicTestCase World) (output : string)
         (tokensUsed : TokenUsage) : M World GradingResult :=
  match assertions with
  | [] =>
      ret {| pass := JBool true;
             reason := JString "All assertions passed";
             tokensUsed := Some tokensUsed |}
  | assertion :: rest =>
      result <- runAssertion assertion test output ;;
      if negb (truthy (pass result)) then ret result
      else
        runAssertions_loop rest test output
          (match Types.tokensUsed result with
           | Some used => add_usage tokensUsed used
           | None => tokensUsed
           end)
  end.

(** [runAssertions] *)
Definition runAssertions (test : AtomicTestCase World) (output : string)
  : M World GradingResult :=
  let tokensUsed := {| total := 0; prompt := 0; completion := 0 |} in
  match assert test with
  | None =>
      ret {| pass := JBool true;
             reason := JString "No assertions";
             tokensUsed := Some tokensUsed |}
  | Some assertions => runAssertions_loop assertions test output tokensUsed
  end.

End WithCollaborators.

(** [assertionFromString].  [parseFloat(match[1])] converts its argument
    to a string first, so an absent group is read as ["undefined"]. *)
Definition assertionFromString (expected : string) : Assertion :=
  match SIMILAR_REGEX expected with
  | Some m =>
      let threshold :=
        or_else (ParseFloat.parseFloat (template (Regex.group1 m)))
                DEFAULT_SEMANTIC_SIMILARITY_THRESHOLD in
      let rest := trim (Regex.similar_remove expected) in
      {| type := "similar"; value := Some rest; threshold := Some threshold |}
  | None =>
      if (startsWith expected "fn:" || startsWith expected "eval:")%bool then
        let sliceLength :=
          if startsWith expected "fn:" then String.length "fn:"
          else String.length "eval:" in
        let functionBody := slice sliceLength expected in
        {| type := "javascript"; value := Some functionBody; threshold := None |}
      else if startsWith expected "grade:" then
        {| type := "llm-rubric"; value := Some (slice 6 expected); threshold := None |}
      else if (String.eqb expected "is-json"
               || String.eqb expected "contains-json")%bool then
        {| type := expected; value := None; threshold := None |}
      else
        {| type := "equals"; value := Some expected; threshold := None |}
  end.

End Engine.

(* ===================================================================== *)
(** ** The callbacks of the web server *)
(* ===================================================================== *)

(** The first module of [src/web/server.ts] is [init], which wires an HTTP
    server, a socket and a file watcher together.  What its callbacks
    compute is modelled here over the things they act on: the results
    file, the socket and the watchers of the file; the timing of [debounce]
    and the listening server are not. *)
Module Server.
Import JsString JsValue Types Engine.

(** The results file, [None] when it cannot be read, the messages sent
    on the socket, the latest first, and the number of watchers registered
    on the file. *)
Record State := {
  latest : option string;
  emitted : list (string * jsval);
  watchers : nat
}.

(** [fs.readFileSync(latestJsonPath, 'utf8')] *)
Definition readFileSync : M State string :=
  fun st =>
    match latest st with
    | Some data => (Returned data, st)
    | None => (Thrown (Error "ENOENT: no such file or directory"), st)
    end.

(** [socket.emit(event, payload)] *)
Definition emit (event : string) (payload : jsval) : M State unit :=
  fun st =>
    (Returned tt, {| latest := latest st;
                     emitted := (event, payload) :: emitted st;
                     watchers := watchers st |}).

(** [v.k] where [v] may be anything: reading a property of [null] or
    [undefined] throws. *)
Definition member (v : jsval) (k : string) : JsError + jsval :=
  match v with
  | JNull | JUndefined =>
      inl (TypeError ("Cannot read properties of null (reading '" ++ k ++ "')"))
  | _ => inr (get v k)
  end.

Section Callbacks.
(** The message of JSON.parse's SyntaxError depends on the host. *)
Variable syntaxMessage : string -> string.

(** Whether the host refuses one more watcher on the file, and with what
    error (the file is gone, the limit of watchers is reached). *)
Variable watchError : State -> option JsError.

Local Open Scope js_scope.

(** [readLatestJson] *)
Definition readLatestJson : M State jsval :=
  data <- readFileSync ;;
  jsonData <- lift (match Json.parse data with
                    | Some v => inr v
                    | None => inl (SyntaxError (syntaxMessage data))
                    end) ;;
  lift (member jsonData "table").

(** The callback given to [fs.watch], as [debounce] calls it. *)
Definition onWatch (event : string) : M State unit :=
  if String.eqb event "change" then
    table <- readLatestJson ;;
    emit "update" (JObject [("table", table)])
  else ret tt.

(** [fs.watch(latestJsonPath, debounce(onWatch, 250))]: one more watcher
    on the file, or the error of the host. *)
Definition watch : M State unit :=
  fun st =>
    match watchError st with
    | Some err => (Thrown err, st)
    | None =>
        (Returned tt, {| latest := latest st;
                         emitted := emitted st;
                         watchers := S (watchers st) |})
    end.

(** The callback of [io.on('connection', ...)]: the table is sent first,
    the watcher is registered next. *)
Definition onConnection : M State unit :=
  table <- readLatestJson ;;
  emit "init" (JObject [("table", table)]) ;;
  watch.

End Callbacks.

(** [String.prototype.toLowerCase] on the code units below 256: the
    letters [A]-[Z], and the capital letters of Latin-1 ([U+00C0]-[U+00DE]
    but the multiplication sign). *)
Definition lower (c : ascii) : ascii :=
  let n := N_of_ascii c in
  if (((65 <=? n) && (n <=? 90))
      || ((192 <=? n) && (n <=? 222) && negb (n =? 215)))%N%bool
  then ascii_of_N (n + 32)
  else c.

Fixpoint toLowerCase (s : string) : string :=
  match s with
  | String c rest => String (lower c) (toLowerCase rest)
  | EmptyString => EmptyString
  end.

(** The test on the answer to "Do you want to open the browser to the
    URL? (y/N)": [answer.toLowerCase().startsWith('y')]. *)
Definition opensBrowser (answer : string) : bool :=
  startsWith (toLowerCase answer) "y".

End Server.

(* ===================================================================== *)
(** ** The vocabulary of the properties *)
(* ===================================================================== *)

Import JsNumber JsString JsValue Types Engine.

(** What one result contributes to the running total. *)
Definition usage_or_zero (r : GradingResult) : TokenUsage :=
  match tokensUsed r with
  | Some u => u
  | None => zero_usage
  end.

Definition sum_Z (l : list Z) : Z := fold_right Z.add 0 l.

(** The field-wise sum of the usage of a list of results. *)
Definition sum_usage (rs : list GradingResult) : TokenUsage :=
  {| total := sum_Z (map (fun r => total (usage_or_zero r)) rs);
     prompt := sum_Z (map (fun r => prompt (usage_or_zero r)) rs);
     completion := sum_Z (map (fun r => completion (usage_or_zero r)) rs) |}.

(** The running total after the loop has gone through the results [rs]. *)
Definition accumulate (acc : TokenUsage) (rs : list GradingResult) : TokenUsage :=
  fold_left
    (fun acc r =>
       match tokensUsed r with
       | Some used => add_usage acc used
       | None => acc
       end)
    rs acc.

(** A reason that is a non-empty string. *)
Definition populated (r : GradingResult) : bool :=
  match reason r with
  | JString s => negb (String.eqb s EmptyString)
  | _ => false
  end.

(** The usage [matchesSimilarity] attaches: both calls, field by field. *)
Definition both_calls (e o : EmbeddingResult) : TokenUsage :=
  add_usage (usage_of (embeddingTokenUsage e)) (usage_of (embeddingTokenUsage o)).

(** The first error message on offer, the expected side first. *)
Definition first_error (e o : EmbeddingResult) : string :=
  if present (embeddingError e) then template (embeddingError e)
  else template (embeddingError o).

(** The six kinds [runAssertion] knows. *)
Definition known_type (t : string) : bool :=
  (String.eqb t "equals" || String.eqb t "is-json" || String.eqb t "contains-json"
   || String.eqb t "javascript" || String.eqb t "similar"
   || String.eqb t "llm-rubric")%bool.

Definition has_options {World} (test : AtomicTestCase World) : bool :=
  match options test with
  | Some _ => true
  | None => false
  end.

(** An invalid configuration: a kind that is not known, a [similar] or
    [llm-rubric] assertion without a value, or an [llm-rubric] assertion in a
    test that has no grading options. *)
Definition invalid_configuration {World} (a : Assertion) (test : AtomicTestCase World)
  : bool :=
  (negb (known_type (type a))
   || ((String.eqb (type a) "similar" || String.eqb (type a) "llm-rubric")
       && negb (present (value a)))
   || (String.eqb (type a) "llm-rubric" && negb (has_options test)))%bool.

Section Vocabulary.
Context {World : Type}.
Variable rt : Collaborators World.

(** [matchesSimilarity] once its two calls have returned: what is left is a
    pure function of the two responses. *)
Definition similarity_verdict (e o : EmbeddingResult) (threshold : number)
  : JsError + GradingResult :=
  if (present (embeddingError e) || present (embeddingError o))%bool then
    inr {| pass := JBool false;
           reason := JString (first_error e o);
           tokensUsed := Some (both_calls e o) |}
  else
    match embedding e, embedding o with
    | Some v1, Some v2 =>
        match cosineSimilarity rt v1 v2 with
        | inl err => inl err
        | inr similarity =>
            inr {| pass := JBool (negb (lt similarity threshold));
                   reason := JString
                     ("Similarity " ++ numberToString rt similarity
                      ++ (if lt similarity threshold then " is less than threshold "
                          else " is greater than threshold ")
                      ++ numberToString rt threshold);
                   tokensUsed := Some (both_calls e o) |}
        end
    | _, _ =>
        inr {| pass := JBool false;
               reason := JString "Embedding not found";
               tokensUsed := Some (both_calls e o) |}
    end.

(** A computation that returns, whatever the world. *)
Definition returns {A} (m : M World A) : Prop :=
  forall w, exists a w', m w = (Returned a, w').

Definition quiet_provider (p : ApiProvider World) : Prop :=
  forall prompt, returns (callApi p prompt).

(** The collaborators answer every call: none of them throws, and what a
    predicate throws is an [Error].  What they answer is free, a response
    that reports an error included. *)
Record quiet (test : AtomicTestCase World) : Prop := {
  quiet_embedding : forall text, returns (callEmbeddingApi rt text);
  quiet_cosine : forall a b, exists x, cosineSimilarity rt a b = inr x;
  quiet_render : forall t c r, exists s, renderString rt t c r = inr s;
  quiet_default : quiet_provider (DefaultGradingProvider rt);
  quiet_loader : forall id w, exists p w',
      loadApiProvider rt id w = (Returned p, w') /\ quiet_provider p;
  quiet_handle : forall cfg h,
      options test = Some cfg -> provider cfg = Some (inr h) -> quiet_provider h;
  quiet_predicate : forall body output w err w',
      callFunction rt body output w = (Thrown err, w') ->
      exists name message, err = ErrorObject name message
}.

(** [thrown_by_callee a test output w err w']: in the evaluation of [a]
    from the world [w], one of the functions the matchers call threw [err],
    in the world [w']: a call of the embedding provider or
    [cosineSimilarity] for a [similar] assertion; the renderer, the loader
    of the provider or the call of the provider for an [llm-rubric] one. *)
Definition thrown_by_callee (a : Assertion) (test : AtomicTestCase World)
           (output : string) (w : World) (err : JsError) (w' : World) : Prop :=
  (type a = "similar"
   /\ (callEmbeddingApi rt (template (value a)) w = (Thrown err, w')
       \/ (exists e w1,
              callEmbeddingApi rt (template (value a)) w = (Returned e, w1)
              /\ (callEmbeddingApi rt output w1 = (Thrown err, w')
                  \/ (exists o v1 v2,
                         callEmbeddingApi rt output w1 = (Returned o, w')
                         /\ embedding e = Some v1 /\ embedding o = Some v2
                         /\ cosineSimilarity rt v1 v2 = inl err)))))
  \/ (type a = "llm-rubric"
      /\ exists cfg,
           options test = Some cfg
           /\ ((renderString rt (string_or (rubricPrompt cfg) (DEFAULT_GRADING_PROMPT rt))
                             output (template (value a)) = inl err
                /\ w' = w)
               \/ (exists prompt,
                      renderString rt (string_or (rubricPrompt cfg)
                                                 (DEFAULT_GRADING_PROMPT rt))
                                   output (template (value a)) = inr prompt
                      /\ ((exists id,
                             provider cfg = Some (inl id)
                             /\ loadApiProvider rt id w = (Thrown err, w'))
                          \/ (exists p w1,
                                 resolveProvider rt cfg w = (Returned p, w1)
                                 /\ callApi p prompt w1 = (Thrown err, w')))))).

(** The rubric grader once the provider has answered: a pure function of
    the response. *)
Definition rubric_verdict (resp : ProviderResponse) : GradingResult :=
  if (present (error resp) || negb (present (Types.output resp)))%bool then
    {| pass := JBool false;
       reason := JString (string_or (error resp) "No output");
       tokensUsed := Some (usage_of (tokenUsage resp)) |}
  else
    match Json.parse (template (Types.output resp)) with
    | Some parsed =>
        if is_object parsed then verdict parsed (usage_of (tokenUsage resp))
        else {| pass := JBool false;
                reason := JString
                  ("Output is not valid JSON: " ++ template (Types.output resp));
                tokensUsed := Some (usage_of (tokenUsage resp)) |}
    | None =>
        {| pass := JBool false;
           reason := JString
             ("Output is not valid JSON: " ++ template (Types.output resp));
           tokensUsed := Some (usage_of (tokenUsage resp)) |}
    end.

Section Passing.
Variable test : AtomicTestCase World.
Variable output : string.

(** [passing l w rs w']: evaluated one after the other from the world
    [w], in list order, the assertions of [l] all return a result that
    passes; [rs] are these results and [w'] is the world they leave. *)
Inductive passing : list Assertion -> World -> list GradingResult -> World -> Prop :=
| passing_nil : forall w, passing [] w [] w
| passing_cons : forall a l w r w1 rs w2,
    runAssertion rt a test output w = (Returned r, w1) ->
    truthy (pass r) = true ->
    passing l w1 rs w2 ->
    passing (a :: l) w (r :: rs) w2.

End Passing.

End Vocabulary.

(** [judged rt cfg expected output w r w']: started in the world [w], the
    rubric grader rendered its prompt, found its provider and received, in
    the world [w'], an answer without error whose output is the JSON text of
    an object or of an array; [r] is that very value read as a result, with
    the usage of the call. *)
Definition judged {World} (rt : Collaborators World) (cfg : GradingConfig World)
           (expected output : string) (w : World) (r : GradingResult) (w' : World)
  : Prop :=
  exists prompt p w1 resp text parsed,
    renderString rt (string_or (rubricPrompt cfg) (DEFAULT_GRADING_PROMPT rt))
                 output expected = inr prompt
    /\ resolveProvider rt cfg w = (Returned p, w1)
    /\ callApi p prompt w1 = (Returned resp, w')
    /\ present (error resp) = false
    /\ Types.output resp = Some text
    /\ Json.parse text = Some parsed
    /\ is_object parsed = true
    /\ r = verdict parsed (usage_of (tokenUsage resp)).

(** [x <= y] on Numbers. *)
Definition number_le (x y : number) : bool := SFleb x y.

(** A text in which the character [c] does not occur. *)
Fixpoint lacks (c : ascii) (s : string) : bool :=
  match s with
  | String d rest => (negb (Ascii.eqb d c) && lacks c rest)%bool
  | EmptyString => true
  end.

(** A text made of white space only. *)
Fixpoint all_white (s : string) : bool :=
  match s with
  | String c rest => (is_white c && all_white rest)%bool
  | EmptyString => true
  end.

(** The verdict of a run in which every assertion passed. *)
Definition all_passed (usage : TokenUsage) : GradingResult :=
  {| pass := JBool true;
     reason := JString "All assertions passed";
     tokensUsed := Some usage |}.

(** A text that no branch of the shorthand grammar takes: it holds no
    similar form, starts with none of the prefixes and is not the name of a
    JSON check. *)
Definition plain_text (s : string) : bool :=
  match SIMILAR_REGEX s with
  | Some _ => false
  | None =>
      negb (startsWith s "fn:" || startsWith s "eval:" || startsWith s "grade:"
            || String.eqb s "is-json" || String.eqb s "contains-json")
  end.

(** The kinds [runAssertion] checks on the spot. *)
Definition local_check (t : string) : bool :=
  (String.eqb t "equals" || String.eqb t "is-json" || String.eqb t "contains-json")%bool.

(** One of the two pairs of brackets of the pattern of [containsJSON]. *)
Definition brackets (o c : ascii) : Prop :=
  (o = "{"%char /\ c = "}"%char) \/ (o = "["%char /\ c = "]"%char).

(** The same collaborators with another provider loader. *)
Definition with_loader {World} (rt : Collaborators World)
           (load : string -> M World (ApiProvider World)) : Collaborators World :=
  {| callEmbeddingApi := callEmbeddingApi rt;
     DefaultGradingProvider := DefaultGradingProvider rt;
     loadApiProvider := load;
     renderString := renderString rt;
     DEFAULT_GRADING_PROMPT := DEFAULT_GRADING_PROMPT rt;
     cosineSimilarity := cosineSimilarity rt;
     callFunction := callFunction rt;
     numberToString := numberToString rt;
     jsonErrorMessage := jsonErrorMessage rt |}.

(** The same collaborators with another [cosineSimilarity]. *)
Definition with_cosine {World} (rt : Collaborators World)
           (cosine : list number -> list number -> JsError + number)
  : Collaborators World :=
  {| callEmbeddingApi := callEmbeddingApi rt;
     DefaultGradingProvider := DefaultGradingProvider rt;
     loadApiProvider := loadApiProvider rt;
     renderString := renderString rt;
     DEFAULT_GRADING_PROMPT := DEFAULT_GRADING_PROMPT rt;
     cosineSimilarity := cosine;
     callFunction := callFunction rt;
     numberToString := numberToString rt;
     jsonErrorMessage := jsonErrorMessage rt |}.

(** The same collaborators with another evaluator of predicates. *)
Definition with_function {World} (rt : Collaborators World)
           (call : string -> string -> M World jsval) : Collaborators World :=
  {| callEmbeddingApi := callEmbeddingApi rt;
     DefaultGradingProvider := DefaultGradingProvider rt;
     loadApiProvider := loadApiProvider rt;
     renderString := renderString rt;
     DEFAULT_GRADING_PROMPT := DEFAULT_GRADING_PROMPT rt;
     cosineSimilarity := cosineSimilarity rt;
     callFunction := call;
     numberToString := numberToString rt;
     jsonErrorMessage := jsonErrorMessage rt |}.

(** A grading configuration that names a provider to load: its [provider]
    is a string that is not empty. *)
Definition names_provider {World} (cfg : GradingConfig World) : bool :=
  match provider cfg with
  | Some (inl id) => negb (String.eqb id EmptyString)
  | _ => false
  end.

(* ===================================================================== *)
(** ** Fixtures: a world that records every call *)
(* ===================================================================== *)

Module Fixture.

(** The world is the journal of the calls the collaborators received, the
    latest first. *)
Definition Journal : Type := list string.

Definition record {A} (entry : string) (a : A) : M Journal A :=
  fun w => (Returned a, entry :: w).

Definition record_throw {A} (entry : string) (e : JsError) : M Journal A :=
  fun w => (Thrown e, entry :: w).

Definition num (n : Z) : number := of_decimal n 0.

(** The embedding provider: a few words on the plane, and one text for
    which the provider reports an error after having counted its tokens. *)
Definition embed (text : string) : M Journal EmbeddingResult :=
  let usage := Some {| total := 3; prompt := 3; completion := 0 |} in
  let found v :=
    {| embedding := Some v; embeddingTokenUsage := usage; embeddingError := None |} in
  record ("embed " ++ text)
    (if String.eqb text "cat" then found [num 1; num 0]
     else if String.eqb text "kitten" then found [num 4; num 3]
     else if String.eqb text "dog" then found [num 0; num 1]
     else if String.eqb text "boom" then
       {| embedding := None;
          embeddingTokenUsage := Some {| total := 1; prompt := 1; completion := 0 |};
          embeddingError := Some "rate limited" |}
     else {| embedding := None; embeddingTokenUsage := None; embeddingError := None |}).

Definition dot (a b : list number) : number :=
  fold_left (fun acc xy => SFadd prec emax acc (SFmul prec emax (fst xy) (snd xy)))
            (combine a b) pos_zero.

(** Modelled from the spec: [cosineSimilarity] of [./util], which is not
    among the sources: the dot product divided by the product of the
    magnitudes. *)
Definition cosine (a b : list number) : JsError + number :=
  inr (SFdiv prec emax (dot a b)
         (SFmul prec emax (SFsqrt prec emax (dot a a)) (SFsqrt prec emax (dot b b)))).

(** A provider that answers every prompt with the same text. *)
Definition canned (text : string) : ApiProvider Journal :=
  {| callApi := fun prompt =>
       record ("grade " ++ prompt)
         {| output := Some text; error := None;
            tokenUsage := Some {| total := 7; prompt := 5; completion := 2 |} |} |}.

(** A provider whose every answer reports an error. *)
Definition out_of_quota : ApiProvider Journal :=
  {| callApi := fun prompt =>
       record ("grade " ++ prompt)
         {| output := None; error := Some "quota exceeded"; tokenUsage := None |} |}.

(** The predicates the fixture can evaluate. *)
Definition evaluate (body output : string) : M Journal jsval :=
  if String.eqb body "return true" then record ("call " ++ body) (JBool true)
  else if String.eqb body "return false" then record ("call " ++ body) (JBool false)
  else if String.eqb body "return output.length" then
    record ("call " ++ body) (JNumber (num (Z.of_nat (String.length output))))
  else if String.eqb body "return undefined" then record ("call " ++ body) JUndefined
  else if String.eqb body "return output.missing.length" then
    record_throw ("call " ++ body)
      (TypeError "Cannot read properties of undefined (reading 'length')")
  else record_throw ("call " ++ body) (SyntaxError "Unexpected end of input").

Definition print (n : number) : string :=
  if eqb n lit_0_8 then "0.8"
  else if eqb n lit_0_75 then "0.75"
  else if eqb n (num 0) then "0"
  else if eqb n (num 1) then "1"
  else "a number".

(** The verdicts a judge may answer with. *)
Definition verdict_passing : string :=
  "{" ++ quote ++ "pass" ++ quote ++ ": true, "
      ++ quote ++ "reason" ++ quote ++ ": " ++ quote ++ "concise" ++ quote ++ "}".
Definition verdict_without_reason : string :=
  "{" ++ quote ++ "pass" ++ quote ++ ": true}".
Definition verdict_failing_without_reason : string :=
  "{" ++ quote ++ "pass" ++ quote ++ ": false}".

Definition collaborators : Collaborators Journal :=
  {| callEmbeddingApi := embed;
     DefaultGradingProvider := canned verdict_passing;
     loadApiProvider := fun id => record ("load " ++ id) (canned verdict_passing);
     renderString := fun template content rubric =>
       inr (template ++ " / " ++ content ++ " / " ++ rubric);
     DEFAULT_GRADING_PROMPT := "Grade it";
     cosineSimilarity := cosine;
     callFunction := evaluate;
     numberToString := print;
     jsonErrorMessage := fun _ => "Unexpected token" |}.

Definition equals (text : string) : Assertion :=
  {| type := "equals"; value := Some text; threshold := None |}.
Definition javascript (body : string) : Assertion :=
  {| type := "javascript"; value := Some body; threshold := None |}.
Definition similar (text : string) (limit : option number) : Assertion :=
  {| type := "similar"; value := Some text; threshold := limit |}.
Definition rubric (text : string) : Assertion :=
  {| type := "llm-rubric"; value := Some text; threshold := None |}.

Definition no_options (l : list Assertion) : AtomicTestCase Journal :=
  {| assert := Some l; options := None |}.

Definition judged_by (p : ApiProvider Journal) (l : list Assertion)
  : AtomicTestCase Journal :=
  {| assert := Some l;
     options := Some {| provider := Some (inr p); rubricPrompt := None |} |}.

Definition three_passing : list Assertion :=
  [similar "cat" (Some lit_0_8); similar "cat" None; javascript "output.length"].

(** Predicates that throw something that is not an [Error]. *)
Definition throw_null : string := "(() => { throw null })()".
Definition throw_undefined : string := "(() => { throw undefined })()".
Definition throw_text : string := "(() => { throw 'boom' })()".

Definition evaluate_any (body output : string) : M Journal jsval :=
  if String.eqb body ("return " ++ throw_null) then
    record_throw ("call " ++ body) (OtherValue JNull)
  else if String.eqb body ("return " ++ throw_undefined) then
    record_throw ("call " ++ body) (OtherValue JUndefined)
  else if String.eqb body ("return " ++ throw_text) then
    record_throw ("call " ++ body) (OtherValue (JString "boom"))
  else evaluate body output.

(** The collaborators, with the evaluator that knows these predicates. *)
Definition careless : Collaborators Journal :=
  with_function collaborators evaluate_any.

(** A provider that throws instead of answering. *)
Definition unreachable : ApiProvider Journal :=
  {| callApi := fun prompt =>
       record_throw ("grade " ++ prompt) (Error "socket hang up") |}.

(** A kind the evaluator does not know. *)
Definition unknown_kind : Assertion :=
  {| type := "regex"; value := Some "a+"; threshold := None |}.

(** The text [{"a":1}]. *)
Definition small_object : string :=
  "{" ++ quote ++ "a" ++ quote ++ ":1}".

(** A loader that finds no provider. *)
Definition no_loader (id : string) : M Journal (ApiProvider Journal) :=
  record_throw ("load " ++ id) (Error ("Unknown provider: " ++ id)).

(** A results file with a table, and the state of a server that has sent
    nothing yet. *)
Definition results_file : string :=
  "{" ++ quote ++ "table" ++ quote ++ ": [1]}".

Definition fresh (file : option string) : Server.State :=
  {| Server.latest := file; Server.emitted := []; Server.watchers := 0 |}.

(** A host that accepts every watcher, and one on which the limit of
    watchers is reached. *)
Definition always_watching (st : Server.State) : option JsError := None.

Definition out_of_watchers (st : Server.State) : option JsError :=
  Some (Error "ENOSPC: System limit for number of file watchers reached").

End Fixture.

(* ===================================================================== *)
(** ** Properties of JSON.parse: the depth bound is enough *)
(* ===================================================================== *)

Section JsonDepth.
Import Json.
Local Open Scope nat_scope.

Lemma skip_white_length : forall s,
  String.length (skip_white s) <= String.length s.
Proof.
  induction s as [|c s IH]; simpl; [lia|].
  destruct (is_json_white c); simpl; lia.
Qed.

Lemma after_char_length : forall c s rest,
  after_char c s = Some rest -> String.length rest < String.length s.
Proof.
  intros c s rest. unfold after_char.
  pose proof (skip_white_length s) as H.
  destruct (skip_white s) as [|d r]; [discriminate|].
  destruct (Ascii.eqb d c); [|discriminate].
  intros E. injection E as <-. simpl in H. lia.
Qed.

Lemma read_digits_length : forall s acc count v n rest,
  read_digits s acc count = (v, n, rest) ->
  String.length rest + n = String.length s + count.
Proof.
  induction s as [|c s IH]; intros acc count v n rest; simpl.
  - intros E. injection E as <- <- <-. simpl. lia.
  - destruct (is_digit c).
    + intros E. apply IH in E. lia.
    + intros E. injection E as <- <- <-. simpl. lia.
Qed.

Lemma string_body_length : forall n s body after,
  String.length s <= n ->
  string_body s = Some (body, after) ->
  String.length after < String.length s.
Proof.
  induction n as [|n IH]; intros s body after Hn.
  - destruct s; [discriminate|simpl in Hn; lia].
  - destruct s as [|c rest]; [discriminate|]. simpl in Hn. simpl.
    destruct (Ascii.eqb c "034").
    { intros E. injection E as <- <-. lia. }
    destruct (Ascii.eqb c "\").
    { destruct rest as [|e rest1]; [discriminate|]. simpl in Hn.
      destruct (Ascii.eqb e "u").
      - destruct rest1 as [|h1 [|h2 [|h3 [|h4 rest2]]]]; try discriminate.
        simpl in Hn.
        destruct (hex4 h1 h2 h3 h4); [|discriminate].
        destruct (string_body rest2) as [[b a]|] eqn:E; [|discriminate].
        intros H. injection H as <- <-.
        apply IH in E; [simpl; lia|lia].
      - destruct (escape e) as [x|]; [|discriminate].
        destruct (string_body rest1) as [[b a]|] eqn:E; [|discriminate].
        intros H. injection H as <- <-.
        apply IH in E; [simpl; lia|lia]. }
    destruct (N_of_ascii c <? 32)%N; [discriminate|].
    destruct (string_body rest) as [[b a]|] eqn:E; [|discriminate].
    intros H. injection H as <- <-.
    apply IH in E; [lia|lia].
Qed.

Lemma minus_sign_length : forall s neg rest,
  minus_sign s = (neg, rest) -> String.length rest <= String.length s.
Proof.
  intros [|c s] neg rest; simpl.
  - intros E. injection E as <- <-. simpl. lia.
  - destruct (Ascii.eqb c "-"); intros E; injection E as <- <-; simpl; lia.
Qed.

Lemma fraction_length : forall s int_v m n after,
  fraction s int_v = Some (m, n, after) -> String.length after <= String.length s.
Proof.
  intros [|c s] int_v m n after; simpl.
  - intros E. injection E as <- <- <-. simpl. lia.
  - destruct (Ascii.eqb c ".").
    + destruct (read_digits s int_v 0) as [[v k] r] eqn:R.
      destruct k; [discriminate|]. intros E. injection E as <- <- <-.
      apply read_digits_length in R. lia.
    + intros E. injection E as <- <- <-. simpl. lia.
Qed.

Lemma sign_length : forall s neg rest,
  sign s = (neg, rest) -> String.length rest <= String.length s.
Proof.
  intros [|c s] neg rest; simpl.
  - intros E. injection E as <- <-. simpl. lia.
  - destruct (Ascii.eqb c "-"); [|destruct (Ascii.eqb c "+")];
      intros E; injection E as <- <-; simpl; lia.
Qed.

Lemma exponent_length : forall s e after,
  exponent s = Some (e, after) -> String.length after <= String.length s.
Proof.
  intros [|c s] e after; simpl.
  - intros E. injection E as <- <-. simpl. lia.
  - destruct (Ascii.eqb c "e" || Ascii.eqb c "E")%bool.
    + destruct (sign s) as [neg digits] eqn:S. apply sign_length in S.
      destruct (read_digits digits 0%Z 0) as [[v k] r] eqn:R.
      destruct k; [discriminate|]. intros E. injection E as <- <-.
      apply read_digits_length in R. lia.
    + intros E. injection E as <- <-. simpl. lia.
Qed.

Lemma number_literal_length : forall s n after,
  number_literal s = Some (n, after) -> String.length after < String.length s.
Proof.
  intros s n after. unfold number_literal.
  destruct (minus_sign s) as [neg s1] eqn:M.
  destruct (read_digits s1 0%Z 0) as [[int_v int_n] after_int] eqn:R.
  destruct int_n as [|k]; [discriminate|].
  destruct (leading_zero s1 (S k)); [discriminate|].
  destruct (fraction after_int int_v) as [[[m fn] after_frac]|] eqn:F; [|discriminate].
  destruct (exponent after_frac) as [[e after']|] eqn:X; [|discriminate].
  intros E. injection E as _ <-.
  apply minus_sign_length in M. apply read_digits_length in R.
  apply fraction_length in F. apply exponent_length in X. lia.
Qed.

Lemma prefix_slice_length : forall p s,
  startsWith s p = true ->
  String.length (slice (String.length p) s) + String.length p = String.length s.
Proof.
  induction p as [|c p IH]; intros s.
  - intros _. simpl. lia.
  - destruct s as [|d s]; simpl; [discriminate|].
    destruct (Ascii.eqb c d); simpl; [|discriminate].
    intros H. apply IH in H. lia.
Qed.

Lemma scalar_consumes : consumes scalar.
Proof.
  intros s v after. unfold scalar.
  destruct (startsWith s "true") eqn:T.
  { intros E. injection E as _ <-. apply prefix_slice_length in T. simpl in T. lia. }
  destruct (startsWith s "false") eqn:F.
  { intros E. injection E as _ <-. apply prefix_slice_length in F. simpl in F. lia. }
  destruct (startsWith s "null") eqn:N.
  { intros E. injection E as _ <-. apply prefix_slice_length in N. simpl in N. lia. }
  destruct (number_literal s) as [[n a]|] eqn:L; [|discriminate].
  intros E. injection E as _ <-. now apply number_literal_length in L.
Qed.

Lemma value_step_consumes : forall members elements,
  (forall acc, consumes (members acc)) ->
  (forall acc, consumes (elements acc)) ->
  consumes (value_step members elements).
Proof.
  intros members elements Hm He s v after. unfold value_step.
  destruct (after_char "{" s) as [rest|] eqn:A.
  { apply after_char_length in A.
    destruct (after_char "}" rest) as [a|] eqn:B.
    - intros E. injection E as _ <-. apply after_char_length in B. lia.
    - intros E. apply Hm in E. lia. }
  destruct (after_char "[" s) as [rest|] eqn:B.
  { apply after_char_length in B.
    destruct (after_char "]" rest) as [a|] eqn:C.
    - intros E. injection E as _ <-. apply after_char_length in C. lia.
    - intros E. apply He in E. lia. }
  destruct (after_char "034" s) as [rest|] eqn:C.
  { apply after_char_length in C.
    destruct (string_body rest) as [[str a]|] eqn:D; [|discriminate].
    intros E. injection E as _ <-.
    apply (string_body_length _ _ _ _ (le_n _)) in D. lia. }
  intros E. apply scalar_consumes in E.
  pose proof (skip_white_length s). lia.
Qed.

Lemma members_step_consumes : forall value members acc,
  consumes value ->
  (forall acc, consumes (members acc)) ->
  consumes (members_step value members acc).
Proof.
  intros value members acc Hv Hm s v after. unfold members_step.
  destruct (after_char "034" s) as [rest|] eqn:A; [|discriminate].
  destruct (string_body rest) as [[key after_key]|] eqn:B; [|discriminate].
  destruct (after_char ":" after_key) as [after_colon|] eqn:C; [|discriminate].
  destruct (value after_colon) as [[x after_v]|] eqn:D; [|discriminate].
  apply after_char_length in A, C.
  apply (string_body_length _ _ _ _ (le_n _)) in B. apply Hv in D.
  destruct (after_char "," after_v) as [more|] eqn:E.
  - apply after_char_length in E. intros F. apply Hm in F. lia.
  - destruct (after_char "}" after_v) as [a|] eqn:F; [|discriminate].
    apply after_char_length in F. intros G. injection G as _ <-. lia.
Qed.

Lemma elements_step_consumes : forall value elements acc,
  consumes value ->
  (forall acc, consumes (elements acc)) ->
  consumes (elements_step value elements acc).
Proof.
  intros value elements acc Hv He s v after. unfold elements_step.
  destruct (value s) as [[x after_v]|] eqn:D; [|discriminate].
  apply Hv in D.
  destruct (after_char "," after_v) as [more|] eqn:E.
  - apply after_char_length in E. intros F. apply He in F. lia.
  - destruct (after_char "]" after_v) as [a|] eqn:F; [|discriminate].
    apply after_char_length in F. intros G. injection G as _ <-. lia.
Qed.

Lemma parse_consumes : forall d,
  consumes (parse_value d)
  /\ (forall acc, consumes (parse_members d acc))
  /\ (forall acc, consumes (parse_elements d acc)).
Proof.
  induction d as [|d (IHv & IHm & IHe)].
  - repeat split; intros; intros s v after; discriminate.
  - repeat split.
    + now apply value_step_consumes.
    + intros acc. now apply members_step_consumes.
    + intros acc. now apply elements_step_consumes.
Qed.

(** Each step only calls the parsers it is given on shorter texts. *)

Lemma value_step_ext : forall members members' elements elements' s,
  (forall acc r, String.length r < String.length s -> members acc r = members' acc r) ->
  (forall acc r, String.length r < String.length s -> elements acc r = elements' acc r) ->
  value_step members elements s = value_step members' elements' s.
Proof.
  intros members members' elements elements' s Hm He. unfold value_step.
  destruct (after_char "{" s) as [rest|] eqn:A.
  { apply after_char_length in A.
    destruct (after_char "}" rest); [reflexivity|]. now apply Hm. }
  destruct (after_char "[" s) as [rest|] eqn:B; [|reflexivity].
  apply after_char_length in B.
  destruct (after_char "]" rest); [reflexivity|]. now apply He.
Qed.

Lemma members_step_ext : forall value value' members members' acc s,
  consumes value' ->
  (forall r, String.length r < String.length s -> value r = value' r) ->
  (forall acc r, String.length r < String.length s -> members acc r = members' acc r) ->
  members_step value members acc s = members_step value' members' acc s.
Proof.
  intros value value' members members' acc s Hc Hv Hm. unfold members_step.
  destruct (after_char "034" s) as [rest|] eqn:A; [|reflexivity].
  destruct (string_body rest) as [[key after_key]|] eqn:B; [|reflexivity].
  destruct (after_char ":" after_key) as [after_colon|] eqn:C; [|reflexivity].
  apply after_char_length in A, C.
  apply (string_body_length _ _ _ _ (le_n _)) in B.
  rewrite Hv by lia.
  destruct (value' after_colon) as [[x after_v]|] eqn:D; [|reflexivity].
  apply Hc in D.
  destruct (after_char "," after_v) as [more|] eqn:E; [|reflexivity].
  apply after_char_length in E. apply Hm. lia.
Qed.

Lemma elements_step_ext : forall value value' elements elements' acc s,
  consumes value' ->
  value s = value' s ->
  (forall acc r, String.length r + 2 <= String.length s ->
                 elements acc r = elements' acc r) ->
  elements_step value elements acc s = elements_step value' elements' acc s.
Proof.
  intros value value' elements elements' acc s Hc Hv He. unfold elements_step.
  rewrite Hv.
  destruct (value' s) as [[x after_v]|] eqn:D; [|reflexivity].
  apply Hc in D.
  destruct (after_char "," after_v) as [more|] eqn:E; [|reflexivity].
  apply after_char_length in E. apply He. lia.
Qed.

(** One more level of depth changes nothing once the depth is twice the
    length of the text and two more (three more for elements, which call
    for a value before they read anything). *)
Lemma parse_stable : forall d,
  (forall s, 2 * String.length s + 2 <= d -> parse_value (S d) s = parse_value d s)
  /\ (forall acc s, 2 * String.length s + 2 <= d ->
                    parse_members (S d) acc s = parse_members d acc s)
  /\ (forall acc s, 2 * String.length s + 3 <= d ->
                    parse_elements (S d) acc s = parse_elements d acc s).
Proof.
  induction d as [|d (IHv & IHm & IHe)].
  - repeat split; intros; lia.
  - destruct (parse_consumes d) as (Cv & _ & _).
    repeat split.
    + intros s Hs.
      change (value_step (parse_members (S d)) (parse_elements (S d)) s
              = value_step (parse_members d) (parse_elements d) s).
      apply value_step_ext.
      * intros acc r Hr. apply IHm. lia.
      * intros acc r Hr. apply IHe. lia.
    + intros acc s Hs.
      change (members_step (parse_value (S d)) (parse_members (S d)) acc s
              = members_step (parse_value d) (parse_members d) acc s).
      apply members_step_ext.
      * exact Cv.
      * intros r Hr. apply IHv. lia.
      * intros acc' r Hr. apply IHm. lia.
    + intros acc s Hs.
      change (elements_step (parse_value (S d)) (parse_elements (S d)) acc s
              = elements_step (parse_value d) (parse_elements d) acc s).
      apply elements_step_ext.
      * exact Cv.
      * apply IHv. lia.
      * intros acc' r Hr. apply IHe. lia.
Qed.

(** The depth [parse] starts with is enough: with any greater depth the
    parser gives the same answer, so no text is rejected for its depth. *)
Lemma parse_depth_enough : forall s extra,
  parse_value (2 * String.length s + 2 + extra) s
  = parse_value (2 * String.length s + 2) s.
Proof.
  intros s extra. induction extra as [|k IH].
  - now rewrite Nat.add_0_r.
  - rewrite Nat.add_succ_r. rewrite (proj1 (parse_stable _)); [exact IH|lia].
Qed.

End JsonDepth.

(* ===================================================================== *)
(** ** Properties of the matcher of SIMILAR_REGEX *)
(* ===================================================================== *)

Section SimilarRegex.
Import Regex.

Lemma append_assoc : forall a b c : string, (a ++ b) ++ c = a ++ (b ++ c).
Proof.
  induction a as [|x a IH]; intros b c; simpl; [reflexivity|]. now rewrite IH.
Qed.

Lemma expect_app : forall p rest, expect p (p ++ rest) = Some rest.
Proof.
  unfold expect. induction p as [|c p IH]; intros rest; simpl.
  - reflexivity.
  - rewrite Ascii.eqb_refl. simpl. specialize (IH rest).
    destruct (startsWith (p ++ rest) p); [exact IH|discriminate].
Qed.

Lemma expect_some : forall p s rest, expect p s = Some rest -> s = p ++ rest.
Proof.
  unfold expect. induction p as [|c p IH]; intros s rest; simpl.
  - intros E. now injection E as <-.
  - destruct s as [|d s]; [discriminate|].
    destruct (Ascii.eqb c d) eqn:C; simpl; [|discriminate].
    apply Ascii.eqb_eq in C. subst d. specialize (IH s rest).
    destruct (startsWith s p); [|discriminate].
    intros E. now rewrite (IH E).
Qed.

Lemma span_digits_spec : forall s ds rest,
  span_digits s = (ds, rest) ->
  s = ds ++ rest /\ all_digits ds = true /\ starts_with_digit rest = false.
Proof.
  induction s as [|c s IH]; intros ds rest; simpl.
  - intros E. injection E as <- <-. repeat split.
  - destruct (is_digit c) eqn:D.
    + destruct (span_digits s) as [ds' rest'] eqn:S.
      intros E. injection E as <- <-.
      destruct (IH _ _ eq_refl) as (-> & A & R).
      simpl. rewrite D, A. repeat split. exact R.
    + intros E. injection E as <- <-. simpl. now rewrite D.
Qed.

Lemma span_digits_app : forall ds rest,
  all_digits ds = true -> starts_with_digit rest = false ->
  span_digits (ds ++ rest) = (ds, rest).
Proof.
  induction ds as [|c ds IH]; intros rest A R; simpl.
  - destruct rest as [|d rest]; [reflexivity|]. simpl in *. now rewrite R.
  - simpl in A. apply Bool.andb_true_iff in A. destruct A as [D A].
    rewrite D, (IH rest A R). reflexivity.
Qed.

Lemma some_digits_spec : forall s ds rest,
  some_digits s = Some (ds, rest) ->
  s = ds ++ rest /\ digits ds /\ starts_with_digit rest = false.
Proof.
  intros s ds rest. unfold some_digits.
  destruct (span_digits s) as [ds' rest'] eqn:S.
  destruct (String.eqb ds' EmptyString) eqn:E; [discriminate|].
  intros H. injection H as <- <-.
  destruct (span_digits_spec _ _ _ S) as (-> & A & R).
  repeat split; try assumption. now apply String.eqb_neq.
Qed.

Lemma some_digits_app : forall ds rest,
  digits ds -> starts_with_digit rest = false ->
  some_digits (ds ++ rest) = Some (ds, rest).
Proof.
  intros ds rest [N A] R. unfold some_digits.
  rewrite (span_digits_app _ _ A R).
  apply String.eqb_neq in N. now rewrite N.
Qed.

(** Every text of the form the regex describes, whatever follows it, is
    matched whole and with its capture group: the greedy reading of the
    digits loses no match. *)
Lemma similar_at_complete : forall m g rest,
  similar_form m g -> similar_at (m ++ rest) = Some (g, rest).
Proof.
  intros m g rest [|ds D|ds fs D F].
  - reflexivity.
  - unfold similar_at.
    change (("similar(" ++ ds ++ "):") ++ rest)
      with ("similar" ++ "(" ++ ((ds ++ "):") ++ rest)).
    rewrite expect_app. rewrite append_assoc.
    change (expect ":" ("(" ++ ds ++ "):" ++ rest)) with (@None string).
    rewrite expect_app.
    rewrite (some_digits_app ds ("):" ++ rest) D eq_refl).
    now rewrite expect_app.
  - unfold similar_at.
    change (("similar(" ++ ds ++ "." ++ fs ++ "):") ++ rest)
      with ("similar" ++ "(" ++ ((ds ++ "." ++ fs ++ "):") ++ rest)).
    rewrite expect_app. rewrite append_assoc.
    change (expect ":" ("(" ++ ds ++ ("." ++ fs ++ "):") ++ rest))
      with (@None string).
    rewrite expect_app.
    change (("." ++ fs ++ "):") ++ rest) with ("." ++ ((fs ++ "):") ++ rest)).
    rewrite (some_digits_app ds ("." ++ (fs ++ "):") ++ rest) D eq_refl).
    change (expect "):" ("." ++ (fs ++ "):") ++ rest)) with (@None string).
    rewrite expect_app. rewrite append_assoc.
    rewrite (some_digits_app fs ("):" ++ rest) F eq_refl).
    now rewrite expect_app.
Qed.

(** What the matcher takes at the head of a text is of the form the regex
    describes. *)
Lemma similar_at_sound : forall s g rest,
  similar_at s = Some (g, rest) ->
  exists m, s = m ++ rest /\ similar_form m g.
Proof.
  intros s g rest. unfold similar_at.
  destruct (expect "similar" s) as [r|] eqn:E0; [|discriminate].
  apply expect_some in E0. subst s.
  destruct (expect ":" r) as [a|] eqn:E1.
  { intros H. injection H as <- <-. apply expect_some in E1. subst r.
    exists "similar:". split; [reflexivity|constructor]. }
  destruct (expect "(" r) as [r1|] eqn:E2; [|discriminate].
  apply expect_some in E2. subst r.
  destruct (some_digits r1) as [[ds r2]|] eqn:S1; [|discriminate].
  destruct (some_digits_spec _ _ _ S1) as (-> & D & _).
  destruct (expect "):" r2) as [a|] eqn:E3.
  { intros H. injection H as <- <-. apply expect_some in E3. subst r2.
    exists ("similar(" ++ ds ++ "):"). split; [|now constructor].
    simpl. now rewrite !append_assoc. }
  destruct (expect "." r2) as [r3|] eqn:E4; [|discriminate].
  apply expect_some in E4. subst r2.
  destruct (some_digits r3) as [[fs r4]|] eqn:S2; [|discriminate].
  destruct (some_digits_spec _ _ _ S2) as (-> & F & _).
  destruct (expect "):" r4) as [a|] eqn:E5; [|discriminate].
  intros H. injection H as <- <-. apply expect_some in E5. subst r4.
  exists ("similar(" ++ ds ++ "." ++ fs ++ "):"). split; [|now constructor].
  simpl. rewrite !append_assoc. simpl. now rewrite !append_assoc.
Qed.

(** The search returns the leftmost match: the matcher succeeds where the
    text before the match ends, and fails at every position before. *)
Lemma similar_search_leftmost : forall s m,
  similar_search s = Some m ->
  s = before m ++ slice (String.length (before m)) s
  /\ similar_at (slice (String.length (before m)) s) = Some (group1 m, after m)
  /\ forall k, (k < String.length (before m))%nat -> similar_at (slice k s) = None.
Proof.
  induction s as [|c s IH]; intros m.
  - discriminate.
  - simpl similar_search.
    destruct (similar_at (String c s)) as [[g r]|] eqn:A.
    + intros E. injection E as <-. simpl. rewrite A. repeat split.
      intros k Hk. lia.
    + destruct (similar_search s) as [m'|] eqn:S; [|discriminate].
      intros E. injection E as <-. simpl.
      destruct (IH _ eq_refl) as (Hs & Hat & Hbefore).
      repeat split.
      * now rewrite <- Hs.
      * exact Hat.
      * intros [|k] Hk; [exact A|]. simpl. apply Hbefore. lia.
Qed.

(** Without a match, the matcher fails at every position. *)
Lemma similar_search_none : forall s,
  similar_search s = None -> forall k, similar_at (slice k s) = None.
Proof.
  induction s as [|c s IH]; simpl.
  - intros _ [|k]; reflexivity.
  - destruct (similar_at (String c s)) as [[g r]|] eqn:A; [discriminate|].
    destruct (similar_search s) as [m|] eqn:S; [discriminate|].
    intros _ [|k]; [exact A|]. simpl. now apply IH.
Qed.

End SimilarRegex.

(* ===================================================================== *)
(** ** Properties of the runner *)
(* ===================================================================== *)

Section Runner.
Context {World : Type}.
Variable rt : Collaborators World.
Variable test : AtomicTestCase World.
Variable output : string.

Lemma add_usage_zero_r : forall u, add_usage u zero_usage = u.
Proof.
  intros [t p c]. unfold add_usage, zero_usage. simpl.
  now rewrite !Z.add_0_r.
Qed.

Lemma accumulate_sum : forall rs acc,
  accumulate acc rs = add_usage acc (sum_usage rs).
Proof.
  induction rs as [|r rs IH]; intros acc.
  - unfold accumulate, sum_usage. simpl. symmetry. apply add_usage_zero_r.
  - unfold accumulate in *. simpl fold_left. rewrite IH.
    unfold add_usage, sum_usage, usage_or_zero, sum_Z. simpl.
    destruct (tokensUsed r) as [u|]; simpl.
    all: f_equal.
    all: lia.
Qed.

Lemma accumulate_from_zero : forall rs,
  accumulate zero_usage rs = sum_usage rs.
Proof.
  intros rs. rewrite accumulate_sum.
  unfold add_usage, zero_usage, sum_usage. simpl. reflexivity.
Qed.

(** One turn of the loop. *)
Lemma loop_step : forall a l acc w,
  runAssertions_loop rt (a :: l) test output acc w
  = match runAssertion rt a test output w with
    | (Returned r, w') =>
        if negb (truthy (pass r)) then (Returned r, w')
        else runAssertions_loop rt l test output
               (match tokensUsed r with
                | Some used => add_usage acc used
                | None => acc
                end) w'
    | (Thrown e, w') => (Thrown e, w')
    end.
Proof.
  intros a l acc w. simpl. unfold bind.
  destruct (runAssertion rt a test output w) as [[r|e] w']; [|reflexivity].
  now destruct (truthy (pass r)).
Qed.

(** The loop goes through a passing prefix and carries on with the rest,
    from the world and the running total the prefix leaves. *)
Lemma loop_through_passing : forall l w rs w1,
  passing rt test output l w rs w1 ->
  forall rest acc,
    runAssertions_loop rt (l ++ rest) test output acc w
    = runAssertions_loop rt rest test output (accumulate acc rs) w1.
Proof.
  induction 1 as [w | a l w r w1 rs w2 Hrun Hpass Hrest IH]; intros rest acc.
  - reflexivity.
  - rewrite <- app_comm_cons, loop_step, Hrun, Hpass. simpl negb. cbv iota.
    rewrite IH. reflexivity.
Qed.

Lemma loop_stops_at_failure : forall a rest acc w r w1,
  runAssertion rt a test output w = (Returned r, w1) ->
  truthy (pass r) = false ->
  runAssertions_loop rt (a :: rest) test output acc w = (Returned r, w1).
Proof.
  intros a rest acc w r w1 Hrun Hfail.
  rewrite loop_step, Hrun, Hfail. reflexivity.
Qed.

(** What the loop returns, read backwards: the verdict of a run where all
    passed, or the result of the first assertion that failed. *)
Lemma loop_inversion : forall l acc w r w',
  runAssertions_loop rt l test output acc w = (Returned r, w') ->
  (exists rs, passing rt test output l w rs w'
              /\ r = all_passed (accumulate acc rs))
  \/ (exists pre a post rs w1,
         l = (pre ++ a :: post)%list
         /\ passing rt test output pre w rs w1
         /\ runAssertion rt a test output w1 = (Returned r, w')
         /\ truthy (pass r) = false).
Proof.
  induction l as [|a l IH]; intros acc w r w' Hrun.
  - left. exists []. simpl in Hrun. unfold ret in Hrun. injection Hrun as <- <-.
    split; [constructor|reflexivity].
  - rewrite loop_step in Hrun.
    destruct (runAssertion rt a test output w) as [[r0|e] w1] eqn:Ha; [|discriminate].
    destruct (truthy (pass r0)) eqn:P; simpl in Hrun.
    + destruct (IH _ _ _ _ Hrun) as [(rs & Hp & Hr)|(pre & b & post & rs & w2 & Hl & Hp & Hb & Hf)].
      * left. exists (r0 :: rs). split.
        -- now apply passing_cons with (w1 := w1).
        -- exact Hr.
      * right. exists (a :: pre), b, post, (r0 :: rs), w2. repeat split; try assumption.
        -- now rewrite Hl.
        -- now apply passing_cons with (w1 := w1).
    + injection Hrun as <- <-. right. exists [], a, l, [], w.
      repeat split; try assumption. constructor.
Qed.

Lemma first_failure_returned :
  forall pre a post w rs w1 r w2,
    assert test = Some (pre ++ a :: post)%list ->
    passing rt test output pre w rs w1 ->
    runAssertion rt a test output w1 = (Returned r, w2) ->
    truthy (pass r) = false ->
    runAssertions rt test output w = (Returned r, w2).
Proof.
  intros pre a post w rs w1 r w2 Hlist Hpre Hrun Hfail.
  unfold runAssertions. rewrite Hlist.
  rewrite (loop_through_passing _ _ _ _ Hpre).
  now apply loop_stops_at_failure.
Qed.

(** C1.  The assertions are evaluated in list order, and at the first one
    whose result does not pass the runner returns that very result, in the
    world that assertion left: whatever follows it in the list, it has no
    part in the result nor in the world, so none of it was evaluated. *)
Theorem runAssertions_first_failure :
  forall pre a post w rs w1 r w2,
    assert test = Some (pre ++ a :: post)%list ->
    passing rt test output pre w rs w1 ->
    runAssertion rt a test output w1 = (Returned r, w2) ->
    truthy (pass r) = false ->
    runAssertions rt test output w = (Returned r, w2).
Proof.
  intros pre a post w rs w1 r w2 Hlist Hpre Hrun Hfail.
  exact (first_failure_returned pre a post w rs w1 r w2 Hlist Hpre Hrun Hfail).
Qed.

(** C2, as amended.  When every assertion passes, the usage returned is
    the field-wise sum of the usage of all the results, an absent usage
    counting for zero; when an assertion fails, the usage returned is that
    of the failing result alone, as that result has it. *)
Theorem runAssertions_token_usage :
  forall pre w rs w1,
    passing rt test output pre w rs w1 ->
    (assert test = Some pre ->
     runAssertions rt test output w
     = (Returned {| pass := JBool true;
                    reason := JString "All assertions passed";
                    tokensUsed := Some (sum_usage rs) |}, w1))
    /\ (forall a post r w2,
          assert test = Some (pre ++ a :: post)%list ->
          runAssertion rt a test output w1 = (Returned r, w2) ->
          truthy (pass r) = false ->
          exists r', runAssertions rt test output w = (Returned r', w2)
                     /\ tokensUsed r' = tokensUsed r).
Proof.
  intros pre w rs w1 Hpre. split.
  - intros Hlist. unfold runAssertions. rewrite Hlist.
    rewrite <- (app_nil_r pre).
    rewrite (loop_through_passing _ _ _ _ Hpre). simpl.
    unfold ret. fold zero_usage. now rewrite accumulate_from_zero.
  - intros a post r w2 Hlist Hrun Hfail. exists r. split; [|reflexivity].
    eapply first_failure_returned; eauto.
Qed.

End Runner.

(* ===================================================================== *)
(** ** Properties of the two matchers *)
(* ===================================================================== *)

Lemma string_or_present : forall x d,
  present x = true -> string_or x d = template x.
Proof.
  intros [s|] d; simpl; [|discriminate].
  unfold present. simpl. now destruct (String.eqb s EmptyString).
Qed.

Lemma string_or_absent : forall x d,
  present x = false -> string_or x d = d.
Proof.
  intros [s|] d; simpl; [|reflexivity].
  unfold present. simpl. destruct (String.eqb s EmptyString); [reflexivity|discriminate].
Qed.

Lemma string_or_nonempty : forall x d,
  String.eqb d EmptyString = false ->
  String.eqb (string_or x d) EmptyString = false.
Proof.
  intros [s|] d Hd; simpl; [|exact Hd].
  now destruct (String.eqb s EmptyString) eqn:E.
Qed.

Lemma literals_bits :
  lit_0_75 = binary_normalize prec emax 3 (-2) false
  /\ lit_0_8 = S754_finite false 0x1999999999999A (-53)
  /\ ParseFloat.parseFloat "0.8" = lit_0_8
  /\ ParseFloat.parseFloat "0" = pos_zero
  /\ ParseFloat.parseFloat "undefined" = NaN.
Proof. repeat split; vm_compute; reflexivity. Qed.

(** A Number that equals another is not less than it. *)
Lemma eqb_not_lt : forall x y, eqb x y = true -> lt x y = false.
Proof.
  intros x y. unfold eqb, lt, SFeqb, SFltb.
  destruct (SFcompare x y) as [[| |]|]; intros H; (reflexivity || discriminate).
Qed.

Section Matchers.
Context {World : Type}.
Variable rt : Collaborators World.

Lemma matchesSimilarity_after_calls :
  forall expected output threshold w e w1 o w2,
    callEmbeddingApi rt expected w = (Returned e, w1) ->
    callEmbeddingApi rt output w1 = (Returned o, w2) ->
    matchesSimilarity rt expected output threshold w
    = lift (similarity_verdict rt e o threshold) w2.
Proof.
  intros expected output threshold w e w1 o w2 He Ho.
  unfold matchesSimilarity, bind. rewrite He, Ho.
  unfold similarity_verdict, both_calls, add_usage, usage_of, first_error. simpl.
  destruct (present (embeddingError e)) eqn:Pe; simpl.
  - now rewrite (string_or_present _ _ Pe).
  - destruct (present (embeddingError o)) eqn:Po; simpl.
    + rewrite (string_or_absent _ _ Pe). now rewrite (string_or_present _ _ Po).
    + destruct (embedding e) as [v1|]; [|reflexivity].
      destruct (embedding o) as [v2|]; [|reflexivity].
      destruct (cosineSimilarity rt v1 v2) as [err|similarity]; [reflexivity|].
      simpl. unfold ret. now destruct (lt similarity threshold).
Qed.

Lemma similarity_verdict_usage : forall e o threshold r,
  similarity_verdict rt e o threshold = inr r ->
  tokensUsed r = Some (both_calls e o).
Proof.
  intros e o threshold r. unfold similarity_verdict.
  destruct (present (embeddingError e) || present (embeddingError o))%bool.
  - intros H. injection H as <-. reflexivity.
  - destruct (embedding e) as [v1|]; [destruct (embedding o) as [v2|]|].
    + destruct (cosineSimilarity rt v1 v2); [discriminate|].
      intros H. injection H as <-. reflexivity.
    + intros H. injection H as <-. reflexivity.
    + intros H. injection H as <-. reflexivity.
Qed.

(** C6.  Once the two embedding calls have returned, every result of
    [matchesSimilarity] carries the field-wise sum of the usage of both
    calls; there is a result unless [cosineSimilarity] itself throws; and
    when a response carries an error message the result fails with the
    expected side's message if there is one, the output side's otherwise. *)
Theorem matchesSimilarity_usage_and_errors :
  forall expected output threshold w e w1 o w2,
    callEmbeddingApi rt expected w = (Returned e, w1) ->
    callEmbeddingApi rt output w1 = (Returned o, w2) ->
    (forall r w',
        matchesSimilarity rt expected output threshold w = (Returned r, w') ->
        tokensUsed r = Some (both_calls e o))
    /\ ((exists r, matchesSimilarity rt expected output threshold w = (Returned r, w2))
        \/ (exists v1 v2 err,
               embedding e = Some v1 /\ embedding o = Some v2
               /\ cosineSimilarity rt v1 v2 = inl err
               /\ matchesSimilarity rt expected output threshold w = (Thrown err, w2)))
    /\ ((present (embeddingError e) || present (embeddingError o))%bool = true ->
        matchesSimilarity rt expected output threshold w
        = (Returned {| pass := JBool false;
                       reason := JString (first_error e o);
                       tokensUsed := Some (both_calls e o) |}, w2)).
Proof.
  intros expected output threshold w e w1 o w2 He Ho.
  rewrite (matchesSimilarity_after_calls _ _ threshold _ _ _ _ _ He Ho).
  split; [|split].
  - intros r w'. destruct (similarity_verdict rt e o threshold) as [err|r0] eqn:V; simpl.
    + discriminate.
    + unfold ret. intros H. injection H as <- _.
      exact (similarity_verdict_usage _ _ _ _ V).
  - unfold similarity_verdict.
    destruct (present (embeddingError e) || present (embeddingError o))%bool.
    + left. eexists. reflexivity.
    + destruct (embedding e) as [v1|] eqn:Ve;
        [destruct (embedding o) as [v2|] eqn:Vo|].
      * destruct (cosineSimilarity rt v1 v2) as [err|s] eqn:C.
        -- right. exists v1, v2, err. repeat split; (assumption || reflexivity).
        -- left. eexists. reflexivity.
      * left. eexists. reflexivity.
      * left. eexists. reflexivity.
  - intros Herr. unfold similarity_verdict. rewrite Herr. reflexivity.
Qed.

(** With both embeddings there and no error, the result is decided by
    the comparison of the similarity with the threshold, and the reason
    gives both numbers whether it passes or fails. *)
Lemma matchesSimilarity_pass_iff :
  forall expected output threshold w e w1 o w2 v1 v2 similarity,
    callEmbeddingApi rt expected w = (Returned e, w1) ->
    callEmbeddingApi rt output w1 = (Returned o, w2) ->
    present (embeddingError e) = false ->
    present (embeddingError o) = false ->
    embedding e = Some v1 ->
    embedding o = Some v2 ->
    cosineSimilarity rt v1 v2 = inr similarity ->
    exists r,
      matchesSimilarity rt expected output threshold w = (Returned r, w2)
      /\ pass r = JBool (negb (lt similarity threshold))
      /\ (eqb similarity threshold = true -> pass r = JBool true)
      /\ reason r = JString
           ("Similarity " ++ numberToString rt similarity
            ++ (if lt similarity threshold then " is less than threshold "
                else " is greater than threshold ")
            ++ numberToString rt threshold).
Proof.
  intros expected output threshold w e w1 o w2 v1 v2 similarity
         He Ho Ee Eo Ve Vo Hcos.
  rewrite (matchesSimilarity_after_calls _ _ threshold _ _ _ _ _ He Ho).
  unfold similarity_verdict. rewrite Ee, Eo, Ve, Vo, Hcos. simpl.
  eexists. split; [reflexivity|]. simpl. repeat split.
  intros Heq. now rewrite (eqb_not_lt _ _ Heq).
Qed.

End Matchers.

(* ===================================================================== *)
(** ** Properties of the evaluator *)
(* ===================================================================== *)

Section Evaluator.
Context {World : Type}.
Variable rt : Collaborators World.

Lemma matchesLlmRubric_after_call :
  forall expected output cfg prompt w p w1 resp w2,
    renderString rt (string_or (rubricPrompt cfg) (DEFAULT_GRADING_PROMPT rt))
                 output expected = inr prompt ->
    resolveProvider rt cfg w = (Returned p, w1) ->
    callApi p prompt w1 = (Returned resp, w2) ->
    matchesLlmRubric rt expected output (Some cfg) w
    = (Returned (rubric_verdict resp), w2).
Proof.
  intros expected output cfg prompt w p w1 resp w2 Hrender Hprov Hcall.
  unfold matchesLlmRubric, bind. rewrite Hrender. simpl.
  rewrite Hprov, Hcall. unfold rubric_verdict.
  destruct (present (error resp) || negb (present (Types.output resp)))%bool;
    [reflexivity|].
  unfold try_catch, bind, JSON_parse.
  destruct (Json.parse (template (Types.output resp))) as [parsed|]; simpl;
    [|reflexivity].
  now destruct (is_object parsed).
Qed.

Lemma resolveProvider_quiet : forall test cfg w,
  quiet rt test -> options test = Some cfg ->
  exists p w', resolveProvider rt cfg w = (Returned p, w') /\ quiet_provider p.
Proof.
  intros test cfg w Q Hcfg. unfold resolveProvider.
  destruct (provider cfg) as [[id|h]|] eqn:P.
  - destruct (String.eqb id EmptyString).
    + exists (DefaultGradingProvider rt), w. split; [reflexivity|apply (quiet_default rt test Q)].
    + apply (quiet_loader rt test Q).
  - exists h, w. split; [reflexivity|]. exact (quiet_handle rt test Q cfg h Hcfg P).
  - exists (DefaultGradingProvider rt), w. split; [reflexivity|apply (quiet_default rt test Q)].
Qed.

Lemma matchesLlmRubric_returns : forall test cfg expected output w,
  quiet rt test -> options test = Some cfg ->
  exists r w', matchesLlmRubric rt expected output (Some cfg) w = (Returned r, w').
Proof.
  intros test cfg expected output w Q Hcfg.
  destruct (quiet_render rt test Q (string_or (rubricPrompt cfg) (DEFAULT_GRADING_PROMPT rt))
                         output expected) as [prompt Hrender].
  destruct (resolveProvider_quiet test cfg w Q Hcfg) as (p & w1 & Hprov & Qp).
  destruct (Qp prompt w1) as (resp & w2 & Hcall).
  exists (rubric_verdict resp), w2.
  exact (matchesLlmRubric_after_call _ _ _ _ _ _ _ _ _ Hrender Hprov Hcall).
Qed.

Lemma matchesSimilarity_returns : forall test expected output threshold w,
  quiet rt test ->
  exists r w', matchesSimilarity rt expected output threshold w = (Returned r, w').
Proof.
  intros test expected output threshold w Q.
  destruct (quiet_embedding rt test Q expected w) as (e & w1 & He).
  destruct (quiet_embedding rt test Q output w1) as (o & w2 & Ho).
  rewrite (matchesSimilarity_after_calls rt _ _ threshold _ _ _ _ _ He Ho).
  unfold similarity_verdict.
  destruct (present (embeddingError e) || present (embeddingError o))%bool;
    [eexists; eexists; reflexivity|].
  destruct (embedding e) as [v1|]; [|eexists; eexists; reflexivity].
  destruct (embedding o) as [v2|]; [|eexists; eexists; reflexivity].
  destruct (quiet_cosine rt test Q v1 v2) as [x Hx]. rewrite Hx.
  eexists; eexists; reflexivity.
Qed.

(** The dispatch, one kind at a time. *)

Lemma runAssertion_similar : forall a test output,
  type a = "similar" -> present (value a) = true ->
  runAssertion rt a test output
  = matchesSimilarity rt (template (value a)) output (number_or (threshold a) lit_0_75).
Proof.
  intros a test output Ht Hv. unfold runAssertion. rewrite Ht, Hv. reflexivity.
Qed.

Lemma runAssertion_rubric : forall a test output,
  type a = "llm-rubric" -> present (value a) = true ->
  runAssertion rt a test output
  = matchesLlmRubric rt (template (value a)) output (options test).
Proof.
  intros a test output Ht Hv. unfold runAssertion. rewrite Ht, Hv. reflexivity.
Qed.

Lemma runAssertion_javascript_run : forall a test output w,
  type a = "javascript" ->
  runAssertion rt a test output w
  = match callFunction rt ("return " ++ template (value a)) output w with
    | (Returned x, w') =>
        (Returned {| pass := x;
                     reason := JString (if truthy x then "Assertion passed"
                                        else "Custom function returned false");
                     tokensUsed := None |}, w')
    | (Thrown err, w') =>
        match messageText rt err with
        | inr text =>
            (Returned {| pass := JBool false;
                         reason := JString ("Custom function threw error: " ++ text);
                         tokensUsed := None |}, w')
        | inl raised => (Thrown raised, w')
        end
    end.
Proof.
  intros a test output w Ht. unfold runAssertion. rewrite Ht.
  set (body := "return " ++ template (value a)).
  simpl. unfold bind, try_catch.
  destruct (callFunction rt body output w) as [[x|err] w']; [reflexivity|].
  now destruct (messageText rt err).
Qed.

Lemma runAssertion_unknown : forall a test output w,
  known_type (type a) = false ->
  runAssertion rt a test output w
  = (Thrown (Error ("Unknown assertion type: " ++ type a)), w).
Proof.
  intros a test output w. unfold known_type, runAssertion.
  destruct (String.eqb (type a) "equals"); [discriminate|].
  destruct (String.eqb (type a) "is-json"); [discriminate|].
  destruct (String.eqb (type a) "contains-json"); [discriminate|].
  destruct (String.eqb (type a) "javascript"); [discriminate|].
  destruct (String.eqb (type a) "similar"); [discriminate|].
  destruct (String.eqb (type a) "llm-rubric"); [discriminate|].
  reflexivity.
Qed.

Lemma runAssertion_missing_value : forall a test output w,
  (String.eqb (type a) "similar" || String.eqb (type a) "llm-rubric")%bool = true ->
  present (value a) = false ->
  runAssertion rt a test output w
  = (Thrown (Error "Invariant failed: Similarity assertion must have a string value"), w).
Proof.
  intros a test output w Ht Hv. unfold runAssertion.
  destruct (String.eqb (type a) "similar") eqn:S.
  - apply String.eqb_eq in S. rewrite S, Hv. reflexivity.
  - simpl in Ht. apply String.eqb_eq in Ht. rewrite Ht, Hv. reflexivity.
Qed.

Lemma matchesLlmRubric_no_options : forall expected output w,
  matchesLlmRubric rt expected output None w
  = (Thrown (Error "Cannot grade output without grading config. Specify --grader option or grading config."), w).
Proof. reflexivity. Qed.

Lemma runAssertion_valid_returns : forall a test output w,
  quiet rt test ->
  invalid_configuration a test = false ->
  exists r w', runAssertion rt a test output w = (Returned r, w').
Proof.
  intros a test output w Q. unfold invalid_configuration, known_type, has_options.
  destruct (String.eqb (type a) "equals") eqn:T1.
  { intros _. unfold runAssertion. rewrite T1. eexists; eexists; reflexivity. }
  destruct (String.eqb (type a) "is-json") eqn:T2.
  { intros _. unfold runAssertion. rewrite T1, T2.
    unfold try_catch, bind, JSON_parse.
    destruct (Json.parse output); eexists; eexists; reflexivity. }
  destruct (String.eqb (type a) "contains-json") eqn:T3.
  { intros _. unfold runAssertion. rewrite T1, T2, T3. eexists; eexists; reflexivity. }
  destruct (String.eqb (type a) "javascript") eqn:T4.
  { intros _. apply String.eqb_eq in T4.
    rewrite (runAssertion_javascript_run a test output w T4).
    destruct (callFunction rt ("return " ++ template (value a)) output w)
      as [[x|err] w'] eqn:C; [eexists; eexists; reflexivity|].
    destruct (quiet_predicate rt test Q _ _ _ _ _ C) as (n & m & ->).
    eexists; eexists; reflexivity. }
  destruct (String.eqb (type a) "similar") eqn:T5.
  { simpl. destruct (present (value a)) eqn:V; simpl; [intros _|discriminate].
    apply String.eqb_eq in T5. rewrite (runAssertion_similar a test output T5 V).
    now apply (matchesSimilarity_returns test). }
  destruct (String.eqb (type a) "llm-rubric") eqn:T6; [|discriminate].
  simpl. destruct (present (value a)) eqn:V; simpl; [|discriminate].
  destruct (options test) as [cfg|] eqn:O; simpl; [intros _|discriminate].
  apply String.eqb_eq in T6. rewrite (runAssertion_rubric a test output T6 V), O.
  now apply (matchesLlmRubric_returns test).
Qed.

(** Under a valid configuration nothing is thrown by [runAssertion]
    itself outside its [javascript] branch: what leaves it was thrown by a
    function the matchers call. *)
Lemma runAssertion_throw_origin : forall a test output w err w',
  invalid_configuration a test = false ->
  runAssertion rt a test output w = (Thrown err, w') ->
  type a = "javascript" \/ thrown_by_callee rt a test output w err w'.
Proof.
  intros a test output w err w'. unfold invalid_configuration, known_type, has_options.
  destruct (String.eqb (type a) "equals") eqn:T1.
  { intros _. unfold runAssertion. rewrite T1. discriminate. }
  destruct (String.eqb (type a) "is-json") eqn:T2.
  { intros _. unfold runAssertion. rewrite T1, T2.
    unfold try_catch, bind, JSON_parse. destruct (Json.parse output); discriminate. }
  destruct (String.eqb (type a) "contains-json") eqn:T3.
  { intros _. unfold runAssertion. rewrite T1, T2, T3. discriminate. }
  destruct (String.eqb (type a) "javascript") eqn:T4.
  { intros _ _. left. now apply String.eqb_eq. }
  destruct (String.eqb (type a) "similar") eqn:T5.
  { simpl. destruct (present (value a)) eqn:V; simpl; [intros _|discriminate].
    apply String.eqb_eq in T5. rewrite (runAssertion_similar a test output T5 V).
    intros Hthrow. right. left. split; [exact T5|].
    destruct (callEmbeddingApi rt (template (value a)) w) as [[e|err0] w1] eqn:He.
    2:{ unfold matchesSimilarity, bind in Hthrow. rewrite He in Hthrow.
        injection Hthrow as <- <-. now left. }
    right. exists e, w1. split; [reflexivity|].
    destruct (callEmbeddingApi rt output w1) as [[o|err1] w2] eqn:Ho.
    2:{ unfold matchesSimilarity, bind in Hthrow. rewrite He, Ho in Hthrow.
        injection Hthrow as <- <-. now left. }
    rewrite (matchesSimilarity_after_calls rt _ _ _ _ _ _ _ _ He Ho) in Hthrow.
    unfold similarity_verdict in Hthrow.
    destruct (present (embeddingError e) || present (embeddingError o))%bool;
      [discriminate|].
    destruct (embedding e) as [v1|] eqn:Ve; [|discriminate].
    destruct (embedding o) as [v2|] eqn:Vo; [|discriminate].
    destruct (cosineSimilarity rt v1 v2) as [err2|x] eqn:C; [|discriminate].
    injection Hthrow as <- <-. right. exists o, v1, v2. repeat split; assumption. }
  destruct (String.eqb (type a) "llm-rubric") eqn:T6; [|discriminate].
  simpl. destruct (present (value a)) eqn:V; simpl; [|discriminate].
  destruct (options test) as [cfg|] eqn:O; simpl; [intros _|discriminate].
  apply String.eqb_eq in T6. rewrite (runAssertion_rubric a test output T6 V), O.
  intros Hthrow. right. right. split; [exact T6|]. exists cfg. split; [exact O|].
  destruct (renderString rt (string_or (rubricPrompt cfg) (DEFAULT_GRADING_PROMPT rt))
                         output (template (value a))) as [err0|prompt] eqn:Hrender.
  { unfold matchesLlmRubric, bind in Hthrow. rewrite Hrender in Hthrow.
    injection Hthrow as <- <-. now left. }
  right. exists prompt. split; [reflexivity|].
  destruct (resolveProvider rt cfg w) as [[p|err1] w1] eqn:Hprov.
  2:{ unfold matchesLlmRubric, bind in Hthrow. rewrite Hrender in Hthrow.
      simpl in Hthrow. rewrite Hprov in Hthrow. injection Hthrow as <- <-.
      left. revert Hprov. unfold resolveProvider.
      destruct (provider cfg) as [[id|h]|]; try discriminate.
      destruct (String.eqb id EmptyString); [discriminate|].
      intros L. now exists id. }
  right. exists p, w1. split; [reflexivity|].
  destruct (callApi p prompt w1) as [[resp|err2] w2] eqn:Hcall.
  - rewrite (matchesLlmRubric_after_call _ _ _ _ _ _ _ _ _ Hrender Hprov Hcall) in Hthrow.
    discriminate.
  - unfold matchesLlmRubric, bind in Hthrow. rewrite Hrender in Hthrow.
    simpl in Hthrow. rewrite Hprov, Hcall in Hthrow. now injection Hthrow as <- <-.
Qed.

Lemma runAssertion_invalid_throws : forall a test output w,
  invalid_configuration a test = true ->
  exists err, runAssertion rt a test output w = (Thrown err, w).
Proof.
  intros a test output w. unfold invalid_configuration.
  destruct (known_type (type a)) eqn:K; simpl.
  2:{ intros _. eexists. now apply runAssertion_unknown. }
  destruct (String.eqb (type a) "similar" || String.eqb (type a) "llm-rubric")%bool eqn:T;
    simpl.
  - destruct (present (value a)) eqn:V; simpl.
    + destruct (String.eqb (type a) "llm-rubric") eqn:R; simpl; [|discriminate].
      unfold has_options. destruct (options test) eqn:O; [discriminate|]. intros _.
      apply String.eqb_eq in R. rewrite (runAssertion_rubric a test output R V), O.
      eexists. apply matchesLlmRubric_no_options.
    + intros _. eexists. now apply runAssertion_missing_value.
  - apply Bool.orb_false_iff in T. destruct T as [_ R]. rewrite R. discriminate.
Qed.

End Evaluator.

Section Verdicts.
Context {World : Type}.
Variable rt : Collaborators World.

(** C3, as amended.  A test case without an assertion list passes at once
    with the reason "No assertions" and zero usage; one whose list is there
    and empty passes too with zero usage, and its reason is the one of a run
    where all assertions passed.  Neither throws nor touches the world. *)
Theorem runAssertions_without_assertions :
  forall (opts : option (GradingConfig World)) output w,
    runAssertions rt {| assert := None; options := opts |} output w
    = (Returned {| pass := JBool true;
                   reason := JString "No assertions";
                   tokensUsed := Some zero_usage |}, w)
    /\ runAssertions rt {| assert := Some []; options := opts |} output w
       = (Returned {| pass := JBool true;
                      reason := JString "All assertions passed";
                      tokensUsed := Some zero_usage |}, w).
Proof. intros opts output w. split; reflexivity. Qed.

(** C4, as amended.  [runAssertion] throws, before anything else
    happened, whenever the configuration is invalid: an unknown kind, a
    [similar] or [llm-rubric] assertion without a value, an [llm-rubric]
    assertion in a test without options; [matchesLlmRubric] throws when it
    is given no options.  Under a valid configuration, and outside the
    [javascript] branch, what leaves [runAssertion] was thrown by a function
    the matchers call; so with collaborators that answer every call, and
    predicates that throw nothing but [Error]s, it throws in no other case:
    a valid configuration gives a result.  A response that reports an error,
    from the embedding provider or from the grading provider, never makes it
    throw: the result of [runAssertion] fails, with the reported error as its
    reason and the usage of the calls. *)
Theorem runAssertion_throws_iff_invalid :
  forall (test : AtomicTestCase World) a output w,
    (invalid_configuration a test = true ->
     exists err, runAssertion rt a test output w = (Thrown err, w))
    /\ (known_type (type a) = false ->
        runAssertion rt a test output w
        = (Thrown (Error ("Unknown assertion type: " ++ type a)), w))
    /\ ((String.eqb (type a) "similar" || String.eqb (type a) "llm-rubric")%bool = true ->
        present (value a) = false ->
        runAssertion rt a test output w
        = (Thrown (Error "Invariant failed: Similarity assertion must have a string value"), w))
    /\ (type a = "llm-rubric" -> present (value a) = true -> options test = None ->
        runAssertion rt a test output w
        = (Thrown (Error "Cannot grade output without grading config. Specify --grader option or grading config."), w))
    /\ (forall expected,
          matchesLlmRubric rt expected output None w
          = (Thrown (Error "Cannot grade output without grading config. Specify --grader option or grading config."), w))
    /\ (forall err w',
          invalid_configuration a test = false ->
          runAssertion rt a test output w = (Thrown err, w') ->
          type a = "javascript" \/ thrown_by_callee rt a test output w err w')
    /\ (quiet rt test ->
        ((exists err w', runAssertion rt a test output w = (Thrown err, w'))
         <-> invalid_configuration a test = true)
        /\ (invalid_configuration a test = false ->
            exists r w', runAssertion rt a test output w = (Returned r, w')))
    /\ (forall e w1 o w2,
          type a = "similar" -> present (value a) = true ->
          callEmbeddingApi rt (template (value a)) w = (Returned e, w1) ->
          callEmbeddingApi rt output w1 = (Returned o, w2) ->
          (present (embeddingError e) || present (embeddingError o))%bool = true ->
          runAssertion rt a test output w
          = (Returned {| pass := JBool false;
                         reason := JString (first_error e o);
                         tokensUsed := Some (both_calls e o) |}, w2))
    /\ (forall cfg prompt p w1 resp w2,
          type a = "llm-rubric" -> present (value a) = true ->
          options test = Some cfg ->
          renderString rt (string_or (rubricPrompt cfg) (DEFAULT_GRADING_PROMPT rt))
                       output (template (value a)) = inr prompt ->
          resolveProvider rt cfg w = (Returned p, w1) ->
          callApi p prompt w1 = (Returned resp, w2) ->
          present (error resp) = true ->
          runAssertion rt a test output w
          = (Returned {| pass := JBool false;
                         reason := JString (template (error resp));
                         tokensUsed := Some (usage_of (tokenUsage resp)) |}, w2)).
Proof.
  intros test a output w.
  split; [apply runAssertion_invalid_throws|].
  split; [apply runAssertion_unknown|].
  split; [apply runAssertion_missing_value|].
  split.
  { intros Ht Hv Ho. rewrite (runAssertion_rubric rt a test output Ht Hv), Ho.
    apply matchesLlmRubric_no_options. }
  split; [intros expected; apply matchesLlmRubric_no_options|].
  split; [intros err w'; apply runAssertion_throw_origin|].
  split.
  { intros Q. split; [split|].
    - intros (err & w' & Hthrow).
      destruct (invalid_configuration a test) eqn:I; [reflexivity|].
      destruct (runAssertion_valid_returns rt a test output w Q I) as (r & w'' & Hret).
      rewrite Hret in Hthrow. discriminate.
    - intros I. destruct (runAssertion_invalid_throws rt a test output w I) as [err H].
      now exists err, w.
    - now apply runAssertion_valid_returns. }
  split.
  - intros e w1 o w2 Ht Hv He Ho Herr.
    rewrite (runAssertion_similar rt a test output Ht Hv).
    rewrite (matchesSimilarity_after_calls rt _ _ _ _ _ _ _ _ He Ho).
    unfold similarity_verdict. now rewrite Herr.
  - intros cfg prompt p w1 resp w2 Ht Hv Hcfg Hrender Hprov Hcall Herr.
    rewrite (runAssertion_rubric rt a test output Ht Hv), Hcfg.
    rewrite (matchesLlmRubric_after_call rt _ _ _ _ _ _ _ _ _ Hrender Hprov Hcall).
    unfold rubric_verdict. rewrite Herr. simpl.
    now rewrite (string_or_present _ _ Herr).
Qed.

(** C7.  With both embeddings there and no error, [matchesSimilarity]
    passes exactly when the similarity is not less than the threshold,
    equality included, and its reason gives the similarity and the
    threshold either way; a [similar] assertion without a threshold is
    handed to the matcher with the threshold 0.75. *)
Theorem similar_threshold_semantics :
  forall expected output threshold w e w1 o w2 v1 v2 similarity,
    callEmbeddingApi rt expected w = (Returned e, w1) ->
    callEmbeddingApi rt output w1 = (Returned o, w2) ->
    present (embeddingError e) = false ->
    present (embeddingError o) = false ->
    embedding e = Some v1 ->
    embedding o = Some v2 ->
    cosineSimilarity rt v1 v2 = inr similarity ->
    (exists r,
        matchesSimilarity rt expected output threshold w = (Returned r, w2)
        /\ (pass r = JBool true <-> lt similarity threshold = false)
        /\ (pass r = JBool false <-> lt similarity threshold = true)
        /\ (eqb similarity threshold = true -> pass r = JBool true)
        /\ reason r = JString
             ("Similarity " ++ numberToString rt similarity
              ++ (if lt similarity threshold then " is less than threshold "
                  else " is greater than threshold ")
              ++ numberToString rt threshold))
    /\ (forall (test : AtomicTestCase World) text,
          present (Some text) = true ->
          runAssertion rt {| type := "similar"; value := Some text; threshold := None |}
                       test output
          = matchesSimilarity rt text output lit_0_75)
    /\ lit_0_75 = ParseFloat.parseFloat "0.75".
Proof.
  intros expected output threshold w e w1 o w2 v1 v2 similarity
         He Ho Ee Eo Ve Vo Hcos.
  split; [|split].
  - destruct (matchesSimilarity_pass_iff rt _ _ threshold _ _ _ _ _ _ _ _
                He Ho Ee Eo Ve Vo Hcos) as (r & Hrun & Hpass & Heq & Hreason).
    exists r. rewrite Hpass in *. repeat split; try assumption.
    + destruct (lt similarity threshold); [discriminate|reflexivity].
    + intros ->. reflexivity.
    + destruct (lt similarity threshold); [reflexivity|discriminate].
    + intros ->. reflexivity.
  - intros test text Hpresent.
    exact (runAssertion_similar rt
             {| type := "similar"; value := Some text; threshold := None |}
             test output eq_refl Hpresent).
  - vm_compute. reflexivity.
Qed.

(** What a [similar] assertion hands to the matcher is never zero. *)
Lemma number_or_truthy : forall x d,
  JsNumber.truthy d = true -> JsNumber.truthy (number_or x d) = true.
Proof.
  intros [n|] d Hd; simpl; [|exact Hd].
  unfold or_else. now destruct (JsNumber.truthy n) eqn:T.
Qed.

End Verdicts.

(* ===================================================================== *)
(** ** The reason of a result *)
(* ===================================================================== *)

Lemma present_template_nonempty : forall x,
  present x = true -> String.eqb (template x) EmptyString = false.
Proof.
  intros [s|]; unfold present; simpl; [|discriminate].
  now destruct (String.eqb s EmptyString).
Qed.

Section Reasons.
Context {World : Type}.
Variable rt : Collaborators World.

Lemma similarity_verdict_populated : forall e o threshold r,
  similarity_verdict rt e o threshold = inr r -> populated r = true.
Proof.
  intros e o threshold r. unfold similarity_verdict.
  destruct (present (embeddingError e) || present (embeddingError o))%bool eqn:Herr.
  - intros H. injection H as <-. unfold populated, first_error. simpl.
    destruct (present (embeddingError e)) eqn:Pe.
    + now rewrite (present_template_nonempty _ Pe).
    + simpl in Herr. now rewrite (present_template_nonempty _ Herr).
  - destruct (embedding e) as [v1|]; [destruct (embedding o) as [v2|]|].
    + destruct (cosineSimilarity rt v1 v2); [discriminate|].
      intros H. injection H as <-. reflexivity.
    + intros H. injection H as <-. reflexivity.
    + intros H. injection H as <-. reflexivity.
Qed.

(** After the call, the result has its reason, or it is the value the
    answer holds, read as a result. *)
Lemma rubric_verdict_reason : forall resp,
  populated (rubric_verdict resp) = true
  \/ (present (error resp) = false
      /\ exists text parsed,
           Types.output resp = Some text
           /\ Json.parse text = Some parsed
           /\ is_object parsed = true
           /\ rubric_verdict resp = verdict parsed (usage_of (tokenUsage resp))).
Proof.
  intros resp. unfold rubric_verdict.
  destruct (present (error resp)) eqn:E; simpl.
  { left. unfold populated. simpl.
    now rewrite (string_or_nonempty (error resp) "No output" eq_refl). }
  destruct (Types.output resp) as [text|] eqn:O.
  2:{ left. unfold populated. simpl.
      now rewrite (string_or_nonempty (error resp) "No output" eq_refl). }
  destruct (present (Some text)); simpl.
  2:{ left. unfold populated. simpl.
      now rewrite (string_or_nonempty (error resp) "No output" eq_refl). }
  destruct (Json.parse text) as [parsed|] eqn:P; [|left; reflexivity].
  destruct (is_object parsed) eqn:I; [|left; reflexivity].
  right. split; [reflexivity|]. exists text, parsed. repeat split; assumption.
Qed.

Lemma matchesSimilarity_populated : forall expected output threshold w r w',
  matchesSimilarity rt expected output threshold w = (Returned r, w') ->
  populated r = true.
Proof.
  intros expected output threshold w r w' Hrun.
  destruct (callEmbeddingApi rt expected w) as [[e|err] w1] eqn:He.
  2:{ unfold matchesSimilarity, bind in Hrun. rewrite He in Hrun. discriminate. }
  destruct (callEmbeddingApi rt output w1) as [[o|err] w2] eqn:Ho.
  2:{ unfold matchesSimilarity, bind in Hrun. rewrite He, Ho in Hrun. discriminate. }
  rewrite (matchesSimilarity_after_calls rt _ _ threshold _ _ _ _ _ He Ho) in Hrun.
  destruct (similarity_verdict rt e o threshold) as [err|r0] eqn:V; simpl in Hrun.
  - discriminate.
  - unfold ret in Hrun. injection Hrun as <- _.
    exact (similarity_verdict_populated _ _ _ _ V).
Qed.

Lemma matchesLlmRubric_reason : forall expected output opts w r w',
  matchesLlmRubric rt expected output opts w = (Returned r, w') ->
  populated r = true
  \/ (exists cfg, opts = Some cfg /\ judged rt cfg expected output w r w').
Proof.
  intros expected output [cfg|] w r w' Hrun; [|discriminate].
  destruct (renderString rt (string_or (rubricPrompt cfg) (DEFAULT_GRADING_PROMPT rt))
                         output expected) as [err|prompt] eqn:Hrender.
  { unfold matchesLlmRubric, bind in Hrun. rewrite Hrender in Hrun. discriminate. }
  destruct (resolveProvider rt cfg w) as [[p|err] w1] eqn:Hprov.
  2:{ unfold matchesLlmRubric, bind in Hrun. rewrite Hrender in Hrun. simpl in Hrun.
      rewrite Hprov in Hrun. discriminate. }
  destruct (callApi p prompt w1) as [[resp|err] w2] eqn:Hcall.
  2:{ unfold matchesLlmRubric, bind in Hrun. rewrite Hrender in Hrun. simpl in Hrun.
      rewrite Hprov, Hcall in Hrun. discriminate. }
  rewrite (matchesLlmRubric_after_call rt _ _ _ _ _ _ _ _ _ Hrender Hprov Hcall) in Hrun.
  injection Hrun as <- <-.
  destruct (rubric_verdict_reason resp) as [P|(E & text & parsed & O & J & I & V)];
    [now left|].
  right. exists cfg. split; [reflexivity|].
  exists prompt, p, w1, resp, text, parsed. repeat split; assumption.
Qed.

Lemma runAssertion_reason : forall a (test : AtomicTestCase World) output w r w',
  runAssertion rt a test output w = (Returned r, w') ->
  populated r = true
  \/ (type a = "llm-rubric"
      /\ exists cfg, options test = Some cfg
                     /\ judged rt cfg (template (value a)) output w r w').
Proof.
  intros a test output w r w'.
  destruct (known_type (type a)) eqn:K.
  2:{ rewrite (runAssertion_unknown rt a test output w K). discriminate. }
  unfold known_type in K.
  destruct (String.eqb (type a) "equals") eqn:T1.
  { unfold runAssertion. rewrite T1. unfold ret. intros H. injection H as <- _.
    left. unfold populated. simpl.
    now destruct (strict_equal (value a) output). }
  destruct (String.eqb (type a) "is-json") eqn:T2.
  { unfold runAssertion. rewrite T1, T2. unfold try_catch, bind, JSON_parse.
    destruct (Json.parse output); simpl; unfold ret; intros H; injection H as <- _;
      left; reflexivity. }
  destruct (String.eqb (type a) "contains-json") eqn:T3.
  { unfold runAssertion. rewrite T1, T2, T3. unfold ret. intros H. injection H as <- _.
    left. unfold populated. simpl. now destruct (containsJSON rt output). }
  destruct (String.eqb (type a) "javascript") eqn:T4.
  { apply String.eqb_eq in T4. rewrite (runAssertion_javascript_run rt a test output w T4).
    destruct (callFunction rt ("return " ++ template (value a)) output w) as [[x|err] w''].
    - intros H; injection H as <- _; left; unfold populated; simpl.
      now destruct (truthy x).
    - destruct (messageText rt err) as [raised|text]; [discriminate|].
      intros H; injection H as <- _; left; reflexivity. }
  destruct (present (value a)) eqn:V.
  2:{ rewrite (runAssertion_missing_value rt a test output w); [discriminate| |exact V].
      simpl in K. exact K. }
  destruct (String.eqb (type a) "similar") eqn:T5.
  { apply String.eqb_eq in T5. rewrite (runAssertion_similar rt a test output T5 V).
    intros H. left. exact (matchesSimilarity_populated _ _ _ _ _ _ H). }
  simpl in K. apply String.eqb_eq in K.
  rewrite (runAssertion_rubric rt a test output K V). intros H.
  destruct (matchesLlmRubric_reason _ _ _ _ _ _ H) as [P|(cfg & Hcfg & J)]; [now left|].
  right. split; [exact K|]. now exists cfg.
Qed.

Lemma runAssertions_reason : forall (test : AtomicTestCase World) output w r w',
  runAssertions rt test output w = (Returned r, w') ->
  populated r = true
  \/ (exists pre a post rs w1 cfg,
         assert test = Some (pre ++ a :: post)%list
         /\ passing rt test output pre w rs w1
         /\ type a = "llm-rubric"
         /\ options test = Some cfg
         /\ judged rt cfg (template (value a)) output w1 r w'
         /\ truthy (pass r) = false).
Proof.
  intros test output w r w'. unfold runAssertions.
  destruct (assert test) as [l|] eqn:L.
  2:{ unfold ret. intros H. injection H as <- _. now left. }
  intros Hrun.
  destruct (loop_inversion rt _ _ _ _ _ _ _ Hrun)
    as [(rs & _ & ->)|(pre & a & post & rs & w1 & -> & Hp & Ha & Hf)]; [now left|].
  destruct (runAssertion_reason _ _ _ _ _ _ Ha) as [P|(Ht & cfg & Hcfg & J)]; [now left|].
  right. exists pre, a, post, rs, w1, cfg. repeat split; assumption.
Qed.

(** C9, as amended.  Every result of [matchesSimilarity] has a non-empty
    string as its reason, and so has every result of [runAssertion] for an
    assertion that is not an [llm-rubric] one.  A result of
    [matchesLlmRubric] has one too unless it is the verdict read off the
    judge's JSON: the answer of the provider called in this run reports no
    error, its output is the JSON text of an object, and the result is that
    object with the usage of the call, so that its reason is whatever that
    JSON gives.  [runAssertions] returns a result without such a reason only
    when it is the verdict of this kind of an [llm-rubric] assertion that
    failed, the assertions before it having passed. *)
Theorem reason_populated_unless_judged :
  (forall expected output threshold w r w',
      matchesSimilarity rt expected output threshold w = (Returned r, w') ->
      populated r = true)
  /\ (forall expected output opts w r w',
         matchesLlmRubric rt expected output opts w = (Returned r, w') ->
         populated r = true
         \/ (exists cfg, opts = Some cfg /\ judged rt cfg expected output w r w'))
  /\ (forall a (test : AtomicTestCase World) output w r w',
         runAssertion rt a test output w = (Returned r, w') ->
         populated r = true
         \/ (type a = "llm-rubric"
             /\ exists cfg, options test = Some cfg
                            /\ judged rt cfg (template (value a)) output w r w'))
  /\ (forall (test : AtomicTestCase World) output w r w',
         runAssertions rt test output w = (Returned r, w') ->
         populated r = true
         \/ (exists pre a post rs w1 cfg,
                assert test = Some (pre ++ a :: post)%list
                /\ passing rt test output pre w rs w1
                /\ type a = "llm-rubric"
                /\ options test = Some cfg
                /\ judged rt cfg (template (value a)) output w1 r w'
                /\ truthy (pass r) = false)).
Proof.
  split; [exact matchesSimilarity_populated|].
  split; [exact matchesLlmRubric_reason|].
  split; [exact runAssertion_reason|].
  exact runAssertions_reason.
Qed.

End Reasons.

(* ===================================================================== *)
(** ** Properties of the parser *)
(* ===================================================================== *)

(** The examples of the shorthand grammar, one per branch. *)
Lemma assertionFromString_examples :
  assertionFromString "similar(0.9): foo"
  = {| type := "similar"; value := Some "foo"; threshold := Some (of_decimal 9 (-1)) |}
  /\ assertionFromString "fn: x.length > 0"
     = {| type := "javascript"; value := Some " x.length > 0"; threshold := None |}
  /\ assertionFromString "eval: x.length > 0"
     = {| type := "javascript"; value := Some " x.length > 0"; threshold := None |}
  /\ assertionFromString "grade: be concise"
     = {| type := "llm-rubric"; value := Some " be concise"; threshold := None |}
  /\ assertionFromString "is-json"
     = {| type := "is-json"; value := None; threshold := None |}
  /\ assertionFromString "contains-json"
     = {| type := "contains-json"; value := None; threshold := None |}
  /\ assertionFromString "hello"
     = {| type := "equals"; value := Some "hello"; threshold := None |}
  /\ assertionFromString "similar: foo"
     = {| type := "similar"; value := Some "foo"; threshold := Some lit_0_8 |}.
Proof. repeat split; vm_compute; reflexivity. Qed.

(** The order in which the branches are tried. *)
Lemma assertionFromString_precedence : forall expected,
  match SIMILAR_REGEX expected with
  | Some m =>
      type (assertionFromString expected) = "similar"
      /\ value (assertionFromString expected)
         = Some (trim (Regex.before m ++ Regex.after m))
  | None =>
      if (startsWith expected "fn:" || startsWith expected "eval:")%bool then
        type (assertionFromString expected) = "javascript"
      else if startsWith expected "grade:" then
        assertionFromString expected
        = {| type := "llm-rubric"; value := Some (slice 6 expected); threshold := None |}
      else if (String.eqb expected "is-json" || String.eqb expected "contains-json")%bool then
        assertionFromString expected
        = {| type := expected; value := None; threshold := None |}
      else
        assertionFromString expected
        = {| type := "equals"; value := Some expected; threshold := None |}
  end.
Proof.
  intros expected. unfold assertionFromString, SIMILAR_REGEX, Regex.similar_remove.
  destruct (Regex.similar_search expected) as [m|].
  - split; reflexivity.
  - destruct (startsWith expected "fn:" || startsWith expected "eval:")%bool;
      [reflexivity|].
    destruct (startsWith expected "grade:"); [reflexivity|].
    now destruct (String.eqb expected "is-json" || String.eqb expected "contains-json")%bool.
Qed.

(** The search at a text that is not empty: the head first, then the rest. *)
Lemma similar_search_cons : forall c s,
  Regex.similar_search (String c s)
  = match Regex.similar_at (String c s) with
    | Some (g, r) =>
        Some {| Regex.before := EmptyString; Regex.group1 := g; Regex.after := r |}
    | None =>
        match Regex.similar_search s with
        | Some m =>
            Some {| Regex.before := String c (Regex.before m);
                    Regex.group1 := Regex.group1 m;
                    Regex.after := Regex.after m |}
        | None => None
        end
    end.
Proof. reflexivity. Qed.

(** A similar form is found wherever it stands in the text. *)
Lemma similar_search_finds : forall pre s g rest,
  Regex.similar_at s = Some (g, rest) ->
  Regex.similar_search (pre ++ s) <> None.
Proof.
  induction pre as [|c pre IH]; intros s g rest A.
  - destruct s as [|d s]; [discriminate|].
    change (EmptyString ++ String d s) with (String d s).
    rewrite similar_search_cons, A. discriminate.
  - change (String c pre ++ s) with (String c (pre ++ s)).
    rewrite similar_search_cons.
    destruct (Regex.similar_at (String c (pre ++ s))) as [[g' r']|]; [discriminate|].
    specialize (IH s g rest A).
    destruct (Regex.similar_search (pre ++ s)); [discriminate|contradiction].
Qed.

Lemma similar_form_anywhere : forall pre m g rest,
  Regex.similar_form m g ->
  type (assertionFromString (pre ++ m ++ rest)) = "similar".
Proof.
  intros pre m g rest F.
  pose proof (similar_search_finds pre (m ++ rest) g rest
                (similar_at_complete m g rest F)) as H.
  unfold assertionFromString, SIMILAR_REGEX.
  destruct (Regex.similar_search (pre ++ m ++ rest)); [reflexivity|contradiction].
Qed.

(** C5, at the input where the code leaves the claim: the regular
    expression is tried at every position, so a string that merely contains
    the similar form, after other text, is read as a [similar] assertion,
    and its value is what is left around the match. *)
Theorem similar_form_found_inside :
  assertionFromString "foo similar: bar"
  = {| type := "similar"; value := Some "foo  bar"; threshold := Some lit_0_8 |}
  /\ startsWith "foo similar: bar" "similar" = false.
Proof. split; vm_compute; reflexivity. Qed.

(** A threshold that the parser sets is never zero. *)
Lemma assertionFromString_threshold_truthy : forall expected t,
  threshold (assertionFromString expected) = Some t -> JsNumber.truthy t = true.
Proof.
  intros expected t. unfold assertionFromString, SIMILAR_REGEX.
  destruct (Regex.similar_search expected) as [m|].
  - simpl. intros H. injection H as <-. unfold or_else.
    now destruct (JsNumber.truthy (ParseFloat.parseFloat (template (Regex.group1 m)))) eqn:T.
  - destruct (startsWith expected "fn:" || startsWith expected "eval:")%bool;
      [discriminate|].
    destruct (startsWith expected "grade:"); [discriminate|].
    destruct (String.eqb expected "is-json" || String.eqb expected "contains-json")%bool;
      discriminate.
Qed.

(** C10.  A threshold of zero, of either sign, is treated as no threshold:
    [runAssertion] does with it what it does without one, which is to call
    the matcher with 0.75; the shorthand [similar(0):] gives what [similar:]
    gives, the threshold 0.8.  No [similar] assertion reaches the matcher
    with a zero threshold, and the parser never sets one. *)
Theorem zero_threshold_is_no_threshold :
  forall World (rt : Collaborators World) (test : AtomicTestCase World)
         (sign : bool) (text : option string) (c : ascii) (more rest output : string),
    runAssertion rt {| type := "similar"; value := text;
                       threshold := Some (S754_zero sign) |} test output
    = runAssertion rt {| type := "similar"; value := text; threshold := None |}
                   test output
    /\ runAssertion rt {| type := "similar"; value := Some (String c more);
                          threshold := Some (S754_zero sign) |} test output
       = matchesSimilarity rt (String c more) output lit_0_75
    /\ assertionFromString ("similar(0):" ++ rest)
       = {| type := "similar"; value := Some (trim rest); threshold := Some lit_0_8 |}
    /\ assertionFromString ("similar(0):" ++ rest)
       = assertionFromString ("similar:" ++ rest)
    /\ (forall a, JsNumber.truthy (number_or (threshold a) lit_0_75) = true)
    /\ (forall expected t,
          threshold (assertionFromString expected) = Some t ->
          JsNumber.truthy t = true).
Proof.
  intros World rt test sign text c more rest output.
  split; [reflexivity|].
  split.
  { exact (runAssertion_similar rt
             {| type := "similar"; value := Some (String c more);
                threshold := Some (S754_zero sign) |} test output eq_refl eq_refl). }
  split; [reflexivity|].
  split; [reflexivity|].
  split.
  - intros a. now apply number_or_truthy.
  - exact assertionFromString_threshold_truthy.
Qed.

(* ===================================================================== *)
(** ** Concrete runs *)
(* ===================================================================== *)

Section Runs.
Import Fixture.

Lemma canned_quiet : forall text, quiet_provider (canned text).
Proof. intros text prompt w. eexists. eexists. reflexivity. Qed.

Lemma out_of_quota_quiet : quiet_provider out_of_quota.
Proof. intros prompt w. eexists. eexists. reflexivity. Qed.

Lemma fixture_quiet : forall p l,
  quiet_provider p -> quiet collaborators (judged_by p l).
Proof.
  intros p l Qp. constructor.
  - intros text w. eexists. eexists. reflexivity.
  - intros a b. eexists. reflexivity.
  - intros t c r. eexists. reflexivity.
  - apply canned_quiet.
  - intros id w. eexists. eexists. split; [reflexivity|apply canned_quiet].
  - intros cfg h Hcfg Hh. simpl in Hcfg. injection Hcfg as <-.
    simpl in Hh. injection Hh as <-. exact Qp.
  - intros body output w err w'. simpl. unfold evaluate, record, record_throw.
    repeat match goal with
           | |- context [String.eqb body ?t] => destruct (String.eqb body t)
           end;
      intros H; try discriminate; injection H as <- _; eexists; eexists; reflexivity.
Qed.

(** A run that stops at its second assertion: the journal holds the call
    of the failing predicate and nothing of the predicate after it. *)
Lemma stops_at_failing_predicate :
  runAssertions collaborators
    (no_options [equals "hi"; javascript "false"; javascript "true"]) "hi" []
  = (Returned {| pass := JBool false;
                 reason := JString "Custom function returned false";
                 tokensUsed := None |},
     ["call return false"]).
Proof.
  apply (runAssertions_first_failure collaborators
           (no_options [equals "hi"; javascript "false"; javascript "true"]) "hi"
           [equals "hi"] (javascript "false") [javascript "true"]
           []
           [{| pass := JBool true; reason := JString "Assertion passed";
               tokensUsed := None |}]
           []).
  - reflexivity.
  - apply passing_cons with (w1 := []).
    + reflexivity.
    + reflexivity.
    + apply passing_nil.
  - reflexivity.
  - reflexivity.
Defined.

Lemma three_passing_run :
  passing collaborators (no_options three_passing) "kitten" three_passing []
    [ {| pass := JBool true;
         reason := JString "Similarity 0.8 is greater than threshold 0.8";
         tokensUsed := Some {| total := 6; prompt := 6; completion := 0 |} |};
      {| pass := JBool true;
         reason := JString "Similarity 0.8 is greater than threshold 0.75";
         tokensUsed := Some {| total := 6; prompt := 6; completion := 0 |} |};
      {| pass := JNumber (num 6);
         reason := JString "Assertion passed";
         tokensUsed := None |} ]
    ["call return output.length"; "embed kitten"; "embed cat"; "embed kitten"; "embed cat"].
Proof.
  apply passing_cons with (w1 := ["embed kitten"; "embed cat"]).
  - vm_compute. reflexivity.
  - reflexivity.
  - apply passing_cons with (w1 := ["embed kitten"; "embed cat"; "embed kitten"; "embed cat"]).
    + vm_compute. reflexivity.
    + reflexivity.
    + apply passing_cons
        with (w1 := ["call return output.length"; "embed kitten"; "embed cat";
                     "embed kitten"; "embed cat"]).
      * vm_compute. reflexivity.
      * reflexivity.
      * apply passing_nil.
Defined.

(** A run where all pass: the usage of the three results, summed. *)
Lemma all_passing_usage :
  runAssertions collaborators (no_options three_passing) "kitten" []
  = (Returned {| pass := JBool true;
                 reason := JString "All assertions passed";
                 tokensUsed := Some {| total := 12; prompt := 12; completion := 0 |} |},
     ["call return output.length"; "embed kitten"; "embed cat"; "embed kitten"; "embed cat"]).
Proof.
  apply (proj1 (runAssertions_token_usage collaborators (no_options three_passing)
                  "kitten" _ _ _ _ three_passing_run)).
  reflexivity.
Defined.

(** C2 as stated fails on this run: the first assertion passes having used
    six tokens, the second fails having used none, and the result returned
    carries no usage at all, where the sum over both is six. *)
Lemma failing_run_loses_earlier_usage :
  let test := no_options [similar "cat" (Some lit_0_8); equals "dog"] in
  let first := {| pass := JBool true;
                  reason := JString "Similarity 0.8 is greater than threshold 0.8";
                  tokensUsed := Some {| total := 6; prompt := 6; completion := 0 |} |} in
  let second := {| pass := JBool false;
                   reason := JString ("Expected output " ++ quote ++ "dog" ++ quote);
                   tokensUsed := None |} in
  runAssertion collaborators (similar "cat" (Some lit_0_8)) test "kitten" []
  = (Returned first, ["embed kitten"; "embed cat"])
  /\ runAssertion collaborators (equals "dog") test "kitten" ["embed kitten"; "embed cat"]
     = (Returned second, ["embed kitten"; "embed cat"])
  /\ runAssertions collaborators test "kitten" []
     = (Returned second, ["embed kitten"; "embed cat"])
  /\ sum_usage [first; second] = {| total := 6; prompt := 6; completion := 0 |}
  /\ tokensUsed second <> Some (sum_usage [first; second]).
Proof.
  repeat split; try (vm_compute; reflexivity).
  vm_compute. discriminate.
Qed.

(** C3 as stated fails on an empty list: the run passes with no usage, and
    its reason is not "No assertions". *)
Lemma empty_list_reason :
  runAssertions collaborators (no_options []) "anything" []
  = (Returned {| pass := JBool true;
                 reason := JString "All assertions passed";
                 tokensUsed := Some zero_usage |}, [])
  /\ JString "All assertions passed" <> JString "No assertions".
Proof. split; [reflexivity|discriminate]. Qed.

(** An unknown kind throws; a provider that reports an error makes the
    rubric fail, with the reported error as the reason, and nothing is
    thrown; and on the fixture, whose collaborators answer every call, an
    assertion with a valid configuration returns. *)
Lemma throws_on_unknown_kind :
  runAssertion collaborators unknown_kind (judged_by out_of_quota []) "aaa" []
  = (Thrown (Error "Unknown assertion type: regex"), [])
  /\ runAssertion collaborators (rubric "be concise") (judged_by out_of_quota []) "aaa" []
     = (Returned {| pass := JBool false;
                    reason := JString "quota exceeded";
                    tokensUsed := Some zero_usage |},
        ["grade Grade it / aaa / be concise"])
  /\ (exists r w',
         runAssertion collaborators (similar "boom" None) (judged_by out_of_quota [])
                      "kitten" []
         = (Returned r, w')).
Proof.
  split; [|split].
  - apply (proj1 (proj2 (runAssertion_throws_iff_invalid collaborators
                           (judged_by out_of_quota []) unknown_kind "aaa" []))).
    reflexivity.
  - destruct (runAssertion_throws_iff_invalid collaborators (judged_by out_of_quota [])
                (rubric "be concise") "aaa" [])
      as (_ & _ & _ & _ & _ & _ & _ & _ & Hreported).
    apply (Hreported {| provider := Some (inr out_of_quota); rubricPrompt := None |}
                     "Grade it / aaa / be concise" out_of_quota []
                     {| output := None; error := Some "quota exceeded"; tokenUsage := None |});
      reflexivity.
  - destruct (runAssertion_throws_iff_invalid collaborators (judged_by out_of_quota [])
                (similar "boom" None) "kitten" [])
      as (_ & _ & _ & _ & _ & _ & Hquiet & _).
    apply (proj2 (Hquiet (fixture_quiet out_of_quota [] out_of_quota_quiet))).
    reflexivity.
Defined.

(** C4 as stated fails on a valid configuration under which something
    called by [runAssertion] throws.  A provider handle given in the options
    of the test throws instead of answering: the error leaves
    [runAssertion], which catches nothing around the call.  A predicate
    throws [undefined]: the [catch] of the [javascript] branch throws in its
    turn. *)
Lemma valid_configuration_throws :
  invalid_configuration (rubric "be concise")
    (judged_by unreachable [rubric "be concise"]) = false
  /\ runAssertion collaborators (rubric "be concise")
       (judged_by unreachable [rubric "be concise"]) "short" []
     = (Thrown (Error "socket hang up"), ["grade Grade it / short / be concise"])
  /\ invalid_configuration (javascript throw_undefined)
       (no_options [javascript throw_undefined]) = false
  /\ runAssertion careless (javascript throw_undefined)
       (no_options [javascript throw_undefined]) "short" []
     = (Thrown (TypeError "Cannot read properties of undefined (reading 'message')"),
        ["call return (() => { throw undefined })()"]).
Proof. repeat split; vm_compute; reflexivity. Qed.

(** C8.  The claim fails on a predicate that throws [null]: the [catch] of
    the [javascript] branch reads the [message] of what it caught, the read
    throws a TypeError, and that error leaves [runAssertion].  On a predicate
    that throws a string there is a result, and its reason does not carry
    what was thrown. *)
Theorem javascript_catch_throws_on_null :
  throw_null = "(() => { throw null })()"
  /\ runAssertion careless (javascript throw_null) (no_options []) "short" []
     = (Thrown (TypeError "Cannot read properties of null (reading 'message')"),
        ["call return (() => { throw null })()"])
  /\ runAssertion careless (javascript throw_text) (no_options []) "short" []
     = (Returned {| pass := JBool false;
                    reason := JString "Custom function threw error: undefined";
                    tokensUsed := None |},
        ["call return (() => { throw 'boom' })()"]).
Proof. repeat split; vm_compute; reflexivity. Qed.

(** The embedding provider reports an error for the expected text: the
    result fails with that message and the usage of both calls. *)
Lemma embedding_error_is_graded :
  matchesSimilarity collaborators "boom" "kitten" lit_0_75 []
  = (Returned {| pass := JBool false;
                 reason := JString "rate limited";
                 tokensUsed := Some {| total := 4; prompt := 4; completion := 0 |} |},
     ["embed kitten"; "embed boom"]).
Proof.
  apply (proj2 (proj2 (matchesSimilarity_usage_and_errors collaborators
                         "boom" "kitten" lit_0_75 [] _ ["embed boom"] _
                         ["embed kitten"; "embed boom"] eq_refl eq_refl))).
  reflexivity.
Defined.

(** A similarity that equals the threshold passes. *)
Lemma equal_similarity_passes :
  exists r,
    matchesSimilarity collaborators "cat" "kitten" lit_0_8 []
    = (Returned r, ["embed kitten"; "embed cat"])
    /\ pass r = JBool true
    /\ reason r = JString "Similarity 0.8 is greater than threshold 0.8".
Proof.
  destruct (similar_threshold_semantics collaborators "cat" "kitten" lit_0_8 []
              _ ["embed cat"] _ ["embed kitten"; "embed cat"]
              [num 1; num 0] [num 4; num 3] lit_0_8
              eq_refl eq_refl eq_refl eq_refl eq_refl eq_refl eq_refl)
    as [(r & Hrun & _ & _ & Hequal & Hreason) _].
  exists r. split; [exact Hrun|]. split; [apply Hequal; reflexivity|exact Hreason].
Defined.

(** C9 as stated fails on a judge whose JSON has no reason: the verdict
    passes and its reason is undefined; and when such a verdict fails, it
    is what [runAssertions] returns. *)
Lemma judged_result_without_reason :
  let judged := {| pass := JBool true; reason := JUndefined;
                   tokensUsed := Some {| total := 7; prompt := 5; completion := 2 |} |} in
  let failed := {| pass := JBool false; reason := JUndefined;
                   tokensUsed := Some {| total := 7; prompt := 5; completion := 2 |} |} in
  verdict_without_reason = "{" ++ quote ++ "pass" ++ quote ++ ": true}"
  /\ matchesLlmRubric collaborators "be concise" "short"
       (Some {| provider := Some (inr (canned verdict_without_reason));
                rubricPrompt := None |}) []
     = (Returned judged, ["grade Grade it / short / be concise"])
  /\ populated judged = false
  /\ runAssertions collaborators
       (judged_by (canned verdict_failing_without_reason) [rubric "be concise"])
       "short" []
     = (Returned failed, ["grade Grade it / short / be concise"])
  /\ populated failed = false.
Proof. repeat split; vm_compute; reflexivity. Qed.

(** The result of the similarity matcher on a text for which the provider
    reports an error has its reason. *)
Lemma similarity_reason_populated :
  exists r w',
    matchesSimilarity collaborators "boom" "kitten" lit_0_75 [] = (Returned r, w')
    /\ populated r = true.
Proof.
  exists {| pass := JBool false;
            reason := JString "rate limited";
            tokensUsed := Some {| total := 4; prompt := 4; completion := 0 |} |},
         ["embed kitten"; "embed boom"].
  split; [vm_compute; reflexivity|].
  apply (proj1 (reason_populated_unless_judged collaborators)
               "boom" "kitten" lit_0_75 [] _ ["embed kitten"; "embed boom"]).
  vm_compute. reflexivity.
Defined.

(** The local checks on the examples of the specification. *)
Lemma local_checks_examples :
  let json := "{" ++ quote ++ "a" ++ quote ++ ":1}" in
  let ok := {| pass := JBool true; reason := JString "Assertion passed";
               tokensUsed := None |} in
  let kind t := {| type := t; value := None; threshold := None |} in
  Json.parse json = Some (JObject [("a", JNumber (num 1))])
  /\ Json.parse "not json" = None
  /\ Json.parse "[[[[[[[[1]]]]]]]]"
     = Some (JArray [JArray [JArray [JArray [JArray [JArray [JArray [JArray
               [JNumber (num 1)]]]]]]]])
  /\ Regex.json_pattern ("prefix " ++ json ++ " suffix") = Some json
  /\ runAssertion collaborators (equals "X") (no_options []) "X" [] = (Returned ok, [])
  /\ runAssertion collaborators (equals "X") (no_options []) "Y" []
     = (Returned {| pass := JBool false;
                    reason := JString ("Expected output " ++ quote ++ "X" ++ quote);
                    tokensUsed := None |}, [])
  /\ runAssertion collaborators (kind "is-json") (no_options []) json [] = (Returned ok, [])
  /\ runAssertion collaborators (kind "is-json") (no_options []) "not json" []
     = (Returned {| pass := JBool false;
                    reason := JString
                      ("Expected output to be valid JSON, but it isn't." ++ newline
                       ++ "Error: SyntaxError: Unexpected token");
                    tokensUsed := None |}, [])
  /\ runAssertion collaborators (kind "contains-json") (no_options [])
       ("prefix " ++ json ++ " suffix") [] = (Returned ok, [])
  /\ runAssertion collaborators (kind "contains-json") (no_options [])
       "no braces here" []
     = (Returned {| pass := JBool false;
                    reason := JString "Expected output to contain valid JSON";
                    tokensUsed := None |}, []).
Proof. repeat split; vm_compute; reflexivity. Qed.

End Runs.

(* ===================================================================== *)
(** ** Further properties of the runner *)
(* ===================================================================== *)

Section RunnerFurther.
Context {World : Type}.
Variable rt : Collaborators World.

Lemma add_usage_zero_l : forall u, add_usage zero_usage u = u.
Proof. intros [t p c]. reflexivity. Qed.

(** [runAssertion] reads nothing of the test case but its options. *)
Lemma runAssertion_options_only : forall a (test test' : AtomicTestCase World) output,
  options test' = options test ->
  runAssertion rt a test' output = runAssertion rt a test output.
Proof.
  intros a test test' output H. unfold runAssertion. now rewrite H.
Qed.

Lemma passing_options_only : forall (test test' : AtomicTestCase World) output l w rs w',
  options test' = options test ->
  passing rt test output l w rs w' -> passing rt test' output l w rs w'.
Proof.
  intros test test' output l w rs w' H P.
  induction P as [w | a l w r w1 rs w2 Hrun Hpass Hrest IH].
  - constructor.
  - apply passing_cons with (w1 := w1); try assumption.
    now rewrite (runAssertion_options_only a test test' output H).
Qed.

Lemma loop_options_only : forall (test test' : AtomicTestCase World) output l acc w,
  options test' = options test ->
  runAssertions_loop rt l test' output acc w = runAssertions_loop rt l test output acc w.
Proof.
  intros test test' output l. induction l as [|a l IH]; intros acc w H.
  - reflexivity.
  - rewrite !loop_step, (runAssertion_options_only a test test' output H).
    destruct (runAssertion rt a test output w) as [[r|e] w1]; [|reflexivity].
    destruct (negb (truthy (pass r))); [reflexivity|]. now apply IH.
Qed.

(** X1.  When an assertion throws after the assertions before it have
    passed, [runAssertions] throws the same error, in the world that
    assertion left, whatever follows it in the list. *)
Theorem runAssertions_throw_propagates :
  forall (test : AtomicTestCase World) output pre a post w rs w1 err w2,
    assert test = Some (pre ++ a :: post)%list ->
    passing rt test output pre w rs w1 ->
    runAssertion rt a test output w1 = (Thrown err, w2) ->
    runAssertions rt test output w = (Thrown err, w2).
Proof.
  intros test output pre a post w rs w1 err w2 Hlist Hpre Hthrow.
  unfold runAssertions. rewrite Hlist.
  rewrite (loop_through_passing rt test output _ _ _ _ Hpre).
  now rewrite loop_step, Hthrow.
Qed.

(** X2.  Every result [runAssertions] returns for a test case with a list
    of assertions is either the verdict "All assertions passed", all the
    assertions having passed in order and their usage summed, or the result
    of the first assertion that did not pass. *)
Theorem runAssertions_result_inversion :
  forall (test : AtomicTestCase World) output l w r w',
    assert test = Some l ->
    runAssertions rt test output w = (Returned r, w') ->
    (exists rs, passing rt test output l w rs w'
                /\ r = all_passed (sum_usage rs))
    \/ (exists pre a post rs w1,
           l = (pre ++ a :: post)%list
           /\ passing rt test output pre w rs w1
           /\ runAssertion rt a test output w1 = (Returned r, w')
           /\ truthy (pass r) = false).
Proof.
  intros test output l w r w' Hlist Hrun.
  unfold runAssertions in Hrun. rewrite Hlist in Hrun.
  destruct (loop_inversion rt _ _ _ _ _ _ _ Hrun) as [(rs & Hp & Hr)|H].
  - left. exists rs. split; [exact Hp|].
    rewrite Hr. fold zero_usage. now rewrite accumulate_from_zero.
  - right. exact H.
Qed.

(** X3.  A run over [l1 ++ l2] whose first part passes is the run over
    [l2] from the world the first part left: it throws what that run
    throws, returns the failing result that run returns, and when that run
    passes it passes with the usage of the first part added. *)
Theorem runAssertions_append :
  forall (test rest : AtomicTestCase World) output l1 l2 w rs w1,
    assert test = Some (l1 ++ l2)%list ->
    assert rest = Some l2 ->
    options rest = options test ->
    passing rt test output l1 w rs w1 ->
    match runAssertions rt rest output w1 with
    | (Thrown err, w2) => runAssertions rt test output w = (Thrown err, w2)
    | (Returned r, w2) =>
        if truthy (pass r) then
          runAssertions rt test output w
          = (Returned (all_passed (add_usage (sum_usage rs) (usage_or_zero r))), w2)
        else runAssertions rt test output w = (Returned r, w2)
    end.
Proof.
  intros test rest output l1 l2 w rs w1 Htest Hrest Hopt Hpass.
  assert (Hloop : forall acc,
             runAssertions_loop rt l2 rest output acc w1
             = runAssertions_loop rt l2 test output acc w1)
    by (intros acc; now apply loop_options_only).
  unfold runAssertions. rewrite Htest, Hrest.
  rewrite (loop_through_passing rt test output _ _ _ _ Hpass).
  fold zero_usage. rewrite accumulate_from_zero, Hloop.
  destruct (runAssertions_loop rt l2 test output zero_usage w1) as [[r|err] w2] eqn:R2.
  - destruct (loop_inversion rt _ _ _ _ _ _ _ R2)
      as [(rs2 & Hp2 & Hr2)|(pre & a & post & rs2 & w3 & Hl & Hp2 & Ha & Hf)].
    + subst r. simpl.
      rewrite <- (app_nil_r l2).
      rewrite (loop_through_passing rt test output _ _ _ _ Hp2). simpl.
      unfold ret, all_passed, usage_or_zero. simpl.
      now rewrite !accumulate_sum, add_usage_zero_l.
    + rewrite Hf. subst l2.
      rewrite (loop_through_passing rt test output _ _ _ _ Hp2).
      now rewrite loop_step, Ha, Hf.
  - assert (Hthrow : forall acc,
               runAssertions_loop rt l2 test output acc w1 = (Thrown err, w2)).
    { clear - R2. revert R2. generalize zero_usage. revert w1.
      induction l2 as [|a l IH]; intros w1 acc0 R2 acc.
      - discriminate.
      - rewrite loop_step in *.
        destruct (runAssertion rt a test output w1) as [[r|e] w3]; [|exact R2].
        destruct (negb (truthy (pass r))); [discriminate|].
        eapply IH. exact R2. }
    apply Hthrow.
Qed.

End RunnerFurther.

(* ===================================================================== *)
(** ** Further properties of the evaluator *)
(* ===================================================================== *)

Section ContainsJson.
Import Regex.

Lemma through_last_lacking : forall c s, lacks c s = true -> through_last c s = None.
Proof.
  induction s as [|d s IH]; simpl; [reflexivity|].
  destruct (Ascii.eqb d c); simpl; [discriminate|].
  intros H. now rewrite (IH H).
Qed.

Lemma through_last_closing : forall c body suffix,
  lacks c suffix = true ->
  through_last c (body ++ String c suffix) = Some (body ++ String c EmptyString).
Proof.
  induction body as [|d body IH]; intros suffix H; simpl.
  - now rewrite (through_last_lacking _ _ H), Ascii.eqb_refl.
  - now rewrite (IH suffix H).
Qed.

Lemma json_pattern_skips : forall prefix s,
  lacks "{" prefix = true -> lacks "[" prefix = true ->
  json_pattern (prefix ++ s) = json_pattern s.
Proof.
  induction prefix as [|d prefix IH]; intros s H1 H2; simpl; [reflexivity|].
  simpl in H1, H2.
  destruct (Ascii.eqb d "{"); [discriminate|].
  destruct (Ascii.eqb d "["); [discriminate|].
  simpl in H1, H2. now apply IH.
Qed.

Lemma json_pattern_bracketed : forall o c prefix body suffix,
  brackets o c ->
  lacks "{" prefix = true -> lacks "[" prefix = true ->
  lacks c suffix = true ->
  json_pattern (prefix ++ String o (body ++ String c suffix))
  = Some (String o (body ++ String c EmptyString)).
Proof.
  intros o c prefix body suffix B H1 H2 H3.
  rewrite (json_pattern_skips _ _ H1 H2).
  destruct B as [[-> ->]|[-> ->]]; simpl;
    now rewrite (through_last_closing _ body suffix H3).
Qed.

Lemma json_pattern_without_brackets : forall s,
  lacks "{" s = true -> lacks "[" s = true -> json_pattern s = None.
Proof.
  intros s H1 H2. rewrite <- (json_pattern_skips s EmptyString H1 H2) at 1.
  assert (E : s ++ EmptyString = s)
    by (clear; induction s as [|d s IH]; simpl; [reflexivity|now rewrite IH]).
  now rewrite E in *.
Qed.

End ContainsJson.

Section EvaluatorFurther.
Context {World : Type}.
Variable rt : Collaborators World.

(** X4.  A text in braces or in square brackets that JSON.parse accepts is
    found by [containsJSON] inside any output that has no opening bracket
    before it and no closing bracket of its kind after it: the pattern
    takes it whole, from its opening bracket to its closing one. *)
Theorem containsJSON_finds_embedded :
  forall o c prefix body suffix v,
    brackets o c ->
    lacks "{" prefix = true -> lacks "[" prefix = true ->
    lacks c suffix = true ->
    Json.parse (String o (body ++ String c EmptyString)) = Some v ->
    containsJSON rt (prefix ++ String o (body ++ String c suffix)) = true.
Proof.
  intros o c prefix body suffix v B H1 H2 H3 Hparse.
  unfold containsJSON, JSON_parse.
  now rewrite (json_pattern_bracketed o c prefix body suffix B H1 H2 H3), Hparse.
Qed.

(** X5.  An output without an opening brace or bracket never contains
    JSON for [containsJSON], even one that is JSON text itself (a number, a
    string, [true], [null]): the [contains-json] check fails on it with its
    fixed reason, and touches nothing. *)
Theorem contains_json_needs_a_bracket :
  forall (test : AtomicTestCase World) text limit output w,
    lacks "{" output = true -> lacks "[" output = true ->
    containsJSON rt output = false
    /\ runAssertion rt {| type := "contains-json"; value := text; threshold := limit |}
                    test output w
       = (Returned {| pass := JBool false;
                      reason := JString "Expected output to contain valid JSON";
                      tokensUsed := None |}, w).
Proof.
  intros test text limit output w H1 H2.
  assert (E : containsJSON rt output = false)
    by (unfold containsJSON; now rewrite (json_pattern_without_brackets _ H1 H2)).
  split; [exact E|]. unfold runAssertion. simpl. now rewrite E.
Qed.

End EvaluatorFurther.

(** X6.  The three checks made on the spot ([equals], [is-json],
    [contains-json]) call no collaborator: they return in the world they
    were started in, without usage, and with the same result under any
    collaborators and any test case (the message of a JSON syntax error
    apart, which the host gives). *)
Theorem local_checks_call_nothing :
  forall World World' (rt : Collaborators World) (rt' : Collaborators World')
         (test : AtomicTestCase World) (test' : AtomicTestCase World')
         a output w w',
    local_check (type a) = true ->
    (forall s, jsonErrorMessage rt s = jsonErrorMessage rt' s) ->
    exists r,
      runAssertion rt a test output w = (Returned r, w)
      /\ runAssertion rt' a test' output w' = (Returned r, w')
      /\ tokensUsed r = None.
Proof.
  intros World World' rt rt' test test' a output w w' L M.
  unfold local_check in L. unfold runAssertion.
  destruct (String.eqb (type a) "equals").
  { eexists. repeat split. }
  destruct (String.eqb (type a) "is-json").
  { unfold try_catch, bind, JSON_parse. rewrite <- (M output).
    destruct (Json.parse output); eexists; repeat split. }
  destruct (String.eqb (type a) "contains-json"); [|discriminate].
  assert (E : containsJSON rt' output = containsJSON rt output).
  { unfold containsJSON, JSON_parse. destruct (Regex.json_pattern output) as [m|];
      [|reflexivity]. now destruct (Json.parse m). }
  rewrite E. eexists. repeat split.
Qed.

(* ===================================================================== *)
(** ** Further properties of the two matchers *)
(* ===================================================================== *)

(** On Numbers, [x < y] and [y <= z] give [x < z]. *)
Lemma lt_le_trans : forall x y z,
  lt x y = true -> number_le y z = true -> lt x z = true.
Proof.
  intros x y z. unfold lt, number_le, SFltb, SFleb, SFcompare.
  destruct x as [sx|sx| |sx mx ex], y as [sy|sy| |sy my ey], z as [sz|sz| |sz mz ez];
    try discriminate; try reflexivity;
    try destruct sx; try destruct sy; try destruct sz;
    try discriminate; try reflexivity.
  all: repeat match goal with
       | |- context [Z.compare ?a ?b] => destruct (Z.compare_spec a b)
       | |- context [Pos.compare_cont Eq ?a ?b] =>
           change (Pos.compare_cont Eq a b) with (Pos.compare a b);
           destruct (Pos.compare_spec a b)
       end; simpl; try discriminate; try reflexivity; intros; try lia.
Qed.

Section MatchersFurther.
Context {World : Type}.
Variable rt : Collaborators World.

(** X7.  With no error reported and an embedding missing on either side,
    [matchesSimilarity] fails with the reason "Embedding not found" and the
    usage of both calls, and [cosineSimilarity] has no part in it. *)
Theorem matchesSimilarity_embedding_not_found :
  forall expected output threshold w e w1 o w2 cosine,
    callEmbeddingApi rt expected w = (Returned e, w1) ->
    callEmbeddingApi rt output w1 = (Returned o, w2) ->
    present (embeddingError e) = false ->
    present (embeddingError o) = false ->
    embedding e = None \/ embedding o = None ->
    matchesSimilarity (with_cosine rt cosine) expected output threshold w
    = (Returned {| pass := JBool false;
                   reason := JString "Embedding not found";
                   tokensUsed := Some (both_calls e o) |}, w2).
Proof.
  intros expected output threshold w e w1 o w2 cosine He Ho Ee Eo Hmissing.
  rewrite (matchesSimilarity_after_calls (with_cosine rt cosine)
             expected output threshold w e w1 o w2 He Ho).
  unfold similarity_verdict. rewrite Ee, Eo. simpl.
  destruct Hmissing as [-> | ->]; [reflexivity|].
  now destruct (embedding e).
Qed.

(** X8.  For the same two responses, lowering the threshold keeps a pass
    and raising it keeps a failure. *)
Theorem matchesSimilarity_threshold_monotone :
  forall expected output low high w e w1 o w2 r,
    callEmbeddingApi rt expected w = (Returned e, w1) ->
    callEmbeddingApi rt output w1 = (Returned o, w2) ->
    number_le low high = true ->
    (matchesSimilarity rt expected output high w = (Returned r, w2) ->
     pass r = JBool true ->
     exists r', matchesSimilarity rt expected output low w = (Returned r', w2)
                /\ pass r' = JBool true)
    /\ (matchesSimilarity rt expected output low w = (Returned r, w2) ->
        pass r = JBool false ->
        exists r', matchesSimilarity rt expected output high w = (Returned r', w2)
                   /\ pass r' = JBool false).
Proof.
  intros expected output low high w e w1 o w2 r He Ho Hle.
  rewrite !(matchesSimilarity_after_calls rt expected output _ w e w1 o w2 He Ho).
  unfold similarity_verdict.
  destruct (present (embeddingError e) || present (embeddingError o))%bool.
  { split; intros H; injection H as <-; simpl; intros P;
      [discriminate|eexists; split; reflexivity]. }
  destruct (embedding e) as [v1|]; [destruct (embedding o) as [v2|]|].
  - destruct (cosineSimilarity rt v1 v2) as [err|s]; [split; discriminate|].
    simpl. unfold ret. split; intros H; injection H as <-; simpl; intros P.
    + destruct (lt s low) eqn:L.
      * rewrite (lt_le_trans _ _ _ L Hle) in P. discriminate.
      * eexists. split; reflexivity.
    + destruct (lt s low) eqn:L; [|discriminate].
      rewrite (lt_le_trans _ _ _ L Hle). eexists. split; reflexivity.
  - split; intros H; injection H as <-; simpl; intros P;
      [discriminate|eexists; split; reflexivity].
  - split; intros H; injection H as <-; simpl; intros P;
      [discriminate|eexists; split; reflexivity].
Qed.

(** X9.  Once the grading provider has answered, [matchesLlmRubric]
    returns a result whatever the answer is, and the usage of that result
    is the usage of this one call, the counters it lacks being zero:
    whatever usage the judge's JSON declares is overwritten. *)
Theorem matchesLlmRubric_usage_of_the_call :
  forall expected output cfg prompt w p w1 resp w2,
    renderString rt (string_or (rubricPrompt cfg) (DEFAULT_GRADING_PROMPT rt))
                 output expected = inr prompt ->
    resolveProvider rt cfg w = (Returned p, w1) ->
    callApi p prompt w1 = (Returned resp, w2) ->
    exists r,
      matchesLlmRubric rt expected output (Some cfg) w = (Returned r, w2)
      /\ tokensUsed r = Some (usage_of (tokenUsage resp)).
Proof.
  intros expected output cfg prompt w p w1 resp w2 Hrender Hprov Hcall.
  exists (rubric_verdict resp). split.
  - exact (matchesLlmRubric_after_call rt _ _ _ _ _ _ _ _ _ Hrender Hprov Hcall).
  - unfold rubric_verdict.
    destruct (present (error resp) || negb (present (Types.output resp)))%bool;
      [reflexivity|].
    destruct (Json.parse (template (Types.output resp))) as [parsed|]; [|reflexivity].
    now destruct (is_object parsed).
Qed.

(** X10.  An answer without error whose output is not JSON, or is JSON
    for something that is not an object or an array ([null], a number, a
    string, a boolean), gives a failure whose reason quotes the output. *)
Theorem matchesLlmRubric_rejects_non_objects :
  forall expected output cfg prompt w p w1 resp w2 text,
    renderString rt (string_or (rubricPrompt cfg) (DEFAULT_GRADING_PROMPT rt))
                 output expected = inr prompt ->
    resolveProvider rt cfg w = (Returned p, w1) ->
    callApi p prompt w1 = (Returned resp, w2) ->
    present (error resp) = false ->
    Types.output resp = Some text ->
    text <> EmptyString ->
    match Json.parse text with
    | Some parsed => is_object parsed = false
    | None => True
    end ->
    matchesLlmRubric rt expected output (Some cfg) w
    = (Returned {| pass := JBool false;
                   reason := JString ("Output is not valid JSON: " ++ text);
                   tokensUsed := Some (usage_of (tokenUsage resp)) |}, w2).
Proof.
  intros expected output cfg prompt w p w1 resp w2 text
         Hrender Hprov Hcall Herr Hout Hne Hparse.
  rewrite (matchesLlmRubric_after_call rt _ _ _ _ _ _ _ _ _ Hrender Hprov Hcall).
  unfold rubric_verdict. rewrite Herr, Hout. unfold present. simpl.
  apply String.eqb_neq in Hne. rewrite Hne. simpl.
  destruct (Json.parse text) as [parsed|]; [|reflexivity].
  now rewrite Hparse.
Qed.

(** X11.  [loadApiProvider] is called only for a provider given by a
    name: with a handle, with no provider or with an empty name, the outcome
    of [matchesLlmRubric] and the world it leaves are the same whatever the
    loader is. *)
Theorem matchesLlmRubric_loads_only_named :
  forall expected output cfg load w,
    names_provider cfg = false ->
    matchesLlmRubric (with_loader rt load) expected output (Some cfg) w
    = matchesLlmRubric rt expected output (Some cfg) w.
Proof.
  intros expected output cfg load w Hname.
  assert (Hres : resolveProvider (with_loader rt load) cfg = resolveProvider rt cfg).
  { unfold resolveProvider, names_provider in *. simpl.
    destruct (provider cfg) as [[id|h]|]; try reflexivity.
    destruct (String.eqb id EmptyString); [reflexivity|discriminate]. }
  unfold matchesLlmRubric. rewrite Hres. reflexivity.
Qed.

End MatchersFurther.

(* ===================================================================== *)
(** ** Further properties of the parser *)
(* ===================================================================== *)

Section ParserFurther.
Import Regex.

Lemma similar_search_head : forall s g rest,
  similar_at s = Some (g, rest) ->
  similar_search s
  = Some {| before := EmptyString; group1 := g; after := rest |}.
Proof.
  intros [|c s] g rest A; [discriminate|].
  now rewrite similar_search_cons, A.
Qed.

Lemma trimStart_all_white : forall s, all_white s = true -> trimStart s = EmptyString.
Proof.
  induction s as [|c s IH]; simpl; [reflexivity|].
  destruct (is_white c); [exact IH|discriminate].
Qed.

Lemma trim_all_white : forall s, all_white s = true -> trim s = EmptyString.
Proof.
  intros s H. unfold trim. now rewrite (trimStart_all_white s H).
Qed.

(** X12.  Whatever the string, the assertion [assertionFromString] makes
    of it has one of the six kinds [runAssertion] knows. *)
Theorem assertionFromString_known_kind : forall expected,
  known_type (type (assertionFromString expected)) = true.
Proof.
  intros expected. unfold assertionFromString.
  destruct (SIMILAR_REGEX expected); [reflexivity|].
  destruct (startsWith expected "fn:" || startsWith expected "eval:")%bool;
    [reflexivity|].
  destruct (startsWith expected "grade:"); [reflexivity|].
  destruct (String.eqb expected "is-json") eqn:J.
  { apply String.eqb_eq in J. now subst expected. }
  destruct (String.eqb expected "contains-json") eqn:C; [|reflexivity].
  apply String.eqb_eq in C. now subst expected.
Qed.

Lemma assertionFromString_similar_form_eq : forall m g rest,
  similar_form m g ->
  assertionFromString (m ++ rest)
  = {| type := "similar";
       value := Some (trim rest);
       threshold := Some (or_else (ParseFloat.parseFloat (template g)) lit_0_8) |}.
Proof.
  intros m g rest F.
  pose proof (similar_search_head _ _ _ (similar_at_complete m g rest F)) as S.
  unfold assertionFromString, SIMILAR_REGEX, similar_remove. now rewrite S.
Qed.

(** X13.  A text that starts with a similar form is read as a [similar]
    assertion on the rest of the text, trimmed, with the threshold its
    number gives; a form without a number, or with a number that is zero,
    gives the threshold 0.8. *)
Theorem assertionFromString_similar_form : forall m g rest,
  similar_form m g ->
  assertionFromString (m ++ rest)
  = {| type := "similar";
       value := Some (trim rest);
       threshold := Some (or_else (ParseFloat.parseFloat (template g)) lit_0_8) |}.
Proof.
  intros m g rest F. exact (assertionFromString_similar_form_eq m g rest F).
Qed.

(** X14.  [fn:] and the legacy [eval:] are the same shorthand: before a
    body that holds no similar form, both give the [javascript] assertion
    whose value is the body, as it stands. *)
Theorem assertionFromString_fn_eval : forall body,
  SIMILAR_REGEX body = None ->
  assertionFromString ("fn:" ++ body)
  = {| type := "javascript"; value := Some body; threshold := None |}
  /\ assertionFromString ("eval:" ++ body)
     = {| type := "javascript"; value := Some body; threshold := None |}.
Proof.
  intros body H. unfold SIMILAR_REGEX in H.
  assert (Hfn : similar_search ("fn:" ++ body) = None).
  { change ("fn:" ++ body) with (String "f" (String "n" (String ":" body))).
    rewrite !similar_search_cons, H. reflexivity. }
  assert (Heval : similar_search ("eval:" ++ body) = None).
  { change ("eval:" ++ body)
      with (String "e" (String "v" (String "a" (String "l" (String ":" body))))).
    rewrite !similar_search_cons, H. reflexivity. }
  unfold assertionFromString, SIMILAR_REGEX. rewrite Hfn, Heval.
  split; reflexivity.
Qed.

End ParserFurther.

Section ParsedAssertions.
Context {World : Type}.
Variable rt : Collaborators World.

(** X15.  A plain text, one that no branch of the shorthand grammar
    takes, is read as an equality check on itself: evaluated, the assertion
    passes on the output that is this very text and on no other, calls
    nothing and names the text when it fails. *)
Theorem plain_text_is_an_equality_check :
  forall (test : AtomicTestCase World) expected output w,
    plain_text expected = true ->
    runAssertion rt (assertionFromString expected) test output w
    = (Returned {| pass := JBool (String.eqb expected output);
                   reason := JString
                     (if String.eqb expected output then "Assertion passed"
                      else "Expected output " ++ quote ++ expected ++ quote);
                   tokensUsed := None |}, w).
Proof.
  intros test expected output w. unfold plain_text, assertionFromString.
  destruct (SIMILAR_REGEX expected); [discriminate|].
  destruct (startsWith expected "fn:"); [discriminate|].
  destruct (startsWith expected "eval:"); [discriminate|].
  destruct (startsWith expected "grade:"); [discriminate|].
  destruct (String.eqb expected "is-json"); [discriminate|].
  destruct (String.eqb expected "contains-json"); [discriminate|].
  intros _. reflexivity.
Qed.

(** X16.  The parser accepts shorthands that the evaluator then refuses:
    a similar form followed by nothing but white space, and [grade:] alone,
    give an assertion with an empty value, and evaluating it throws the
    invariant's error before anything is called. *)
Theorem empty_shorthand_throws :
  forall (test : AtomicTestCase World) m g rest output w,
    Regex.similar_form m g ->
    all_white rest = true ->
    runAssertion rt (assertionFromString (m ++ rest)) test output w
    = (Thrown (Error "Invariant failed: Similarity assertion must have a string value"), w)
    /\ runAssertion rt (assertionFromString "grade:") test output w
       = (Thrown (Error "Invariant failed: Similarity assertion must have a string value"), w).
Proof.
  intros test m g rest output w F W. split; [|reflexivity].
  rewrite (assertionFromString_similar_form_eq m g rest F), (trim_all_white rest W).
  reflexivity.
Qed.

End ParsedAssertions.

(* ===================================================================== *)
(** ** Properties of the callbacks of the web server *)
(* ===================================================================== *)

Section ServerCallbacks.
Import Server.
Variable syntaxMessage : string -> string.
Variable watchError : State -> option JsError.

(** Reading the table leaves the file and the socket as they are. *)
Lemma readLatestJson_keeps_state : forall st o st',
  readLatestJson syntaxMessage st = (o, st') -> st' = st.
Proof.
  intros st o st'. unfold readLatestJson, bind, readFileSync.
  destruct (latest st) as [data|]; [|intros E; now injection E as _ <-].
  destruct (Json.parse data) as [v|]; simpl; [|intros E; now injection E as _ <-].
  destruct (member v "table"); simpl; intros E; now injection E as _ <-.
Qed.

(** When the table is read, the file holds JSON for a value that is not
    [null], and the table is the [table] member of that value. *)
Lemma readLatestJson_returned : forall st table st',
  readLatestJson syntaxMessage st = (Returned table, st') ->
  exists data v,
    latest st = Some data /\ Json.parse data = Some v /\ v <> JNull
    /\ table = get v "table".
Proof.
  intros st table st'. unfold readLatestJson, bind, readFileSync.
  destruct (latest st) as [data|]; [|discriminate].
  destruct (Json.parse data) as [v|] eqn:P; simpl; [|discriminate].
  destruct v; simpl; try discriminate; unfold ret; intros E; injection E as <- _;
    exists data; eexists; (split; [reflexivity|]); (split; [exact P|]);
    (split; [discriminate|reflexivity]).
Qed.

(** X17.  The watcher's callback sends something only for a [change]
    event: any other event leaves the file unread and the socket untouched,
    and cannot throw.  For a [change] event it sends exactly one [update]
    message, carrying the [table] member of the JSON value the results file
    holds, or it throws without sending anything. *)
Theorem onWatch_sends_only_on_change : forall event st,
  (event <> "change" -> onWatch syntaxMessage event st = (Returned tt, st))
  /\ (event = "change" ->
      match onWatch syntaxMessage event st with
      | (Returned _, st') =>
          exists data v,
            latest st = Some data /\ Json.parse data = Some v
            /\ st' = {| latest := latest st;
                        emitted := ("update", JObject [("table", get v "table")])
                                   :: emitted st;
                        watchers := watchers st |}
      | (Thrown _, st') => st' = st
      end).
Proof.
  intros event st. unfold onWatch.
  destruct (String.eqb event "change") eqn:E.
  - apply String.eqb_eq in E. split; [intros N; contradiction|]. intros _.
    unfold bind, emit.
    destruct (readLatestJson syntaxMessage st) as [[table|err] st1] eqn:R;
      pose proof (readLatestJson_keeps_state _ _ _ R) as ->; [|reflexivity].
    destruct (readLatestJson_returned _ _ _ R) as (data & v & L & P & _ & ->).
    exists data, v. repeat split; assumption.
  - apply String.eqb_neq in E. split; [reflexivity|]. intros C. contradiction.
Qed.

(** JSON.parse never gives [undefined]. *)
Lemma parse_value_defined : forall d,
  (forall s v r, Json.parse_value d s = Some (v, r) -> v <> JUndefined)
  /\ (forall acc s v r, Json.parse_members d acc s = Some (v, r) -> v <> JUndefined)
  /\ (forall acc s v r, Json.parse_elements d acc s = Some (v, r) -> v <> JUndefined).
Proof.
  induction d as [|d (IHv & IHm & IHe)].
  - repeat split; discriminate.
  - repeat split.
    + intros s v r. simpl. unfold Json.value_step.
      destruct (Json.after_char "{" s) as [rest|].
      { destruct (Json.after_char "}" rest); [|apply IHm].
        intros E. injection E as <- _. discriminate. }
      destruct (Json.after_char "[" s) as [rest|].
      { destruct (Json.after_char "]" rest); [|apply IHe].
        intros E. injection E as <- _. discriminate. }
      destruct (Json.after_char "034" s) as [rest|].
      { destruct (Json.string_body rest) as [[str a]|]; [|discriminate].
        intros E. injection E as <- _. discriminate. }
      unfold Json.scalar.
      destruct (startsWith (Json.skip_white s) "true");
        [intros E; injection E as <- _; discriminate|].
      destruct (startsWith (Json.skip_white s) "false");
        [intros E; injection E as <- _; discriminate|].
      destruct (startsWith (Json.skip_white s) "null");
        [intros E; injection E as <- _; discriminate|].
      destruct (Json.number_literal (Json.skip_white s)) as [[n a]|]; [|discriminate].
      intros E. injection E as <- _. discriminate.
    + intros acc s v r. simpl. unfold Json.members_step.
      destruct (Json.after_char "034" s) as [rest|]; [|discriminate].
      destruct (Json.string_body rest) as [[key ak]|]; [|discriminate].
      destruct (Json.after_char ":" ak) as [ac|]; [|discriminate].
      destruct (Json.parse_value d ac) as [[x av]|]; [|discriminate].
      destruct (Json.after_char "," av); [apply IHm|].
      destruct (Json.after_char "}" av); [|discriminate].
      intros E. injection E as <- _. discriminate.
    + intros acc s v r. simpl. unfold Json.elements_step.
      destruct (Json.parse_value d s) as [[x av]|]; [|discriminate].
      destruct (Json.after_char "," av); [apply IHe|].
      destruct (Json.after_char "]" av); [|discriminate].
      intros E. injection E as <- _. discriminate.
Qed.

Lemma parse_defined : forall s v, Json.parse s = Some v -> v <> JUndefined.
Proof.
  intros s v. unfold Json.parse.
  destruct (Json.parse_value (2 * String.length s + 2) s) as [[x r]|] eqn:P;
    [|discriminate].
  destruct (Json.skip_white r); [|discriminate].
  intros E. injection E as <-.
  exact (proj1 (parse_value_defined _) _ _ _ P).
Qed.

(** X18.  On a connection the table is sent first and the watcher is
    registered next.  A connection that is answered has received one [init]
    message, carrying the same table a [change] event would send from the
    same file, and the file has one more watcher.  The callback throws
    either before anything was sent, as a [change] event does, when the
    file cannot be read, is not JSON or holds [null]; or with the [init]
    message already sent, when the host refuses the watcher. *)
Theorem onConnection_sends_the_table : forall st,
  match onConnection syntaxMessage watchError st with
  | (Returned _, st') =>
      exists table,
        readLatestJson syntaxMessage st = (Returned table, st)
        /\ st' = {| latest := latest st;
                    emitted := ("init", JObject [("table", table)]) :: emitted st;
                    watchers := S (watchers st) |}
        /\ onWatch syntaxMessage "change" st
           = (Returned tt,
              {| latest := latest st;
                 emitted := ("update", JObject [("table", table)]) :: emitted st;
                 watchers := watchers st |})
  | (Thrown err, st') =>
      (st' = st
       /\ readLatestJson syntaxMessage st = (Thrown err, st)
       /\ onWatch syntaxMessage "change" st = (Thrown err, st)
       /\ match latest st with
          | None => True
          | Some data =>
              Json.parse data = None \/ Json.parse data = Some JNull
          end)
      \/ (exists table,
             readLatestJson syntaxMessage st = (Returned table, st)
             /\ st' = {| latest := latest st;
                         emitted := ("init", JObject [("table", table)]) :: emitted st;
                         watchers := watchers st |}
             /\ watchError st' = Some err)
  end.
Proof.
  intros st. unfold onConnection, onWatch. simpl. unfold bind, emit, watch.
  destruct (readLatestJson syntaxMessage st) as [[table|err] st1] eqn:R;
    pose proof (readLatestJson_keeps_state _ _ _ R) as ->.
  - simpl.
    destruct (watchError {| latest := latest st;
                            emitted := ("init", JObject [("table", table)]) :: emitted st;
                            watchers := watchers st |}) as [err|] eqn:W.
    + right. exists table. repeat split. exact W.
    + exists table. repeat split.
  - left. repeat split. revert R. unfold readLatestJson, bind, readFileSync.
    destruct (latest st) as [data|]; [|intros _; exact I].
    destruct (Json.parse data) as [v|] eqn:P; [|intros _; now left].
    apply parse_defined in P.
    destruct v; simpl; try discriminate; [contradiction|]. intros _. now right.
Qed.

Lemma lower_is_y : forall c,
  Ascii.eqb "y" (lower c) = (Ascii.eqb c "y" || Ascii.eqb c "Y")%bool.
Proof.
  intros c. destruct c as [[] [] [] [] [] [] [] []]; reflexivity.
Qed.

(** X19.  The browser is opened exactly for the answers whose first
    character is [y] or [Y], whatever follows it; an empty answer keeps it
    closed. *)
Theorem opensBrowser_iff_starts_with_y : forall answer,
  opensBrowser answer = true
  <-> exists rest, answer = String "y" rest \/ answer = String "Y" rest.
Proof.
  intros [|c rest]; unfold opensBrowser.
  - split; [discriminate|]. intros [r [H|H]]; discriminate.
  - change (startsWith (toLowerCase (String c rest)) "y")
      with (Ascii.eqb "y" (lower c) && true)%bool.
    rewrite lower_is_y, Bool.andb_true_r. split.
    + intros H. exists rest. apply Bool.orb_true_iff in H.
      destruct H as [H|H]; apply Ascii.eqb_eq in H; subst c; [now left|now right].
    + intros [r [H|H]]; injection H as -> _; reflexivity.
Qed.

End ServerCallbacks.

(* ===================================================================== *)
(** ** From the shorthand to the checks *)
(* ===================================================================== *)

Section Shorthand.
Context {World : Type}.
Variable rt : Collaborators World.

Lemma grade_has_no_similar_form : forall body,
  SIMILAR_REGEX body = None -> SIMILAR_REGEX ("grade:" ++ body) = None.
Proof.
  intros body H. unfold SIMILAR_REGEX in *.
  change ("grade:" ++ body)
    with (String "g" (String "r" (String "a" (String "d" (String "e" (String ":" body)))))).
  rewrite !similar_search_cons, H. reflexivity.
Qed.

(** X20.  Evaluating what the parser makes of a shorthand is calling the
    check the shorthand names: a similar form before a text that is not
    blank runs [matchesSimilarity] on the trimmed text with the threshold of
    the form, 0.8 when it has none (not the 0.75 of an assertion without
    threshold); [grade:] before a text that is not empty and holds no
    similar form runs [matchesLlmRubric] on that text, as it stands, with the
    options of the test case. *)
Theorem shorthand_runs_the_named_check :
  forall (test : AtomicTestCase World) output,
    (forall m g rest,
        Regex.similar_form m g ->
        trim rest <> EmptyString ->
        runAssertion rt (assertionFromString (m ++ rest)) test output
        = matchesSimilarity rt (trim rest) output
            (or_else (ParseFloat.parseFloat (template g)) lit_0_8))
    /\ (forall body,
          SIMILAR_REGEX body = None ->
          body <> EmptyString ->
          runAssertion rt (assertionFromString ("grade:" ++ body)) test output
          = matchesLlmRubric rt body output (options test)).
Proof.
  intros test output. split.
  - intros m g rest F N.
    assert (P : present (Some (trim rest)) = true)
      by (unfold present; simpl; apply String.eqb_neq in N; now rewrite N).
    rewrite (assertionFromString_similar_form_eq m g rest F).
    rewrite (runAssertion_similar rt
               {| type := "similar"; value := Some (trim rest);
                  threshold := Some (or_else (ParseFloat.parseFloat (template g))
                                             lit_0_8) |}
               test output eq_refl P).
    simpl. unfold or_else.
    destruct (JsNumber.truthy (ParseFloat.parseFloat (template g))) eqn:T.
    + now rewrite T.
    + reflexivity.
  - intros body H N.
    assert (P : present (Some body) = true)
      by (unfold present; simpl; apply String.eqb_neq in N; now rewrite N).
    assert (E : assertionFromString ("grade:" ++ body)
                = {| type := "llm-rubric"; value := Some body; threshold := None |}).
    { unfold assertionFromString. now rewrite (grade_has_no_similar_form body H). }
    rewrite E.
    exact (runAssertion_rubric rt
             {| type := "llm-rubric"; value := Some body; threshold := None |}
             test output eq_refl P).
Qed.

(** X21.  What a missing value does, kind by kind: an [equals] assertion
    without a value fails on every output and names [undefined] as what was
    expected; the two JSON checks do not read the value; a [javascript]
    assertion without a value evaluates [return undefined], as one whose
    value is the text [undefined] does; [similar] and [llm-rubric] throw
    before anything is called. *)
Theorem missing_value_by_kind :
  forall (test : AtomicTestCase World) text limit output w,
    runAssertion rt {| type := "equals"; value := None; threshold := limit |}
                 test output w
    = (Returned {| pass := JBool false;
                   reason := JString ("Expected output " ++ quote ++ "undefined" ++ quote);
                   tokensUsed := None |}, w)
    /\ runAssertion rt {| type := "is-json"; value := None; threshold := limit |}
                    test output w
       = runAssertion rt {| type := "is-json"; value := text; threshold := limit |}
                      test output w
    /\ runAssertion rt {| type := "contains-json"; value := None; threshold := limit |}
                    test output w
       = runAssertion rt {| type := "contains-json"; value := text; threshold := limit |}
                      test output w
    /\ runAssertion rt {| type := "javascript"; value := None; threshold := limit |}
                    test output w
       = runAssertion rt {| type := "javascript"; value := Some "undefined";
                            threshold := limit |} test output w
    /\ runAssertion rt {| type := "similar"; value := None; threshold := limit |}
                    test output w
       = (Thrown (Error "Invariant failed: Similarity assertion must have a string value"), w)
    /\ runAssertion rt {| type := "llm-rubric"; value := None; threshold := limit |}
                    test output w
       = (Thrown (Error "Invariant failed: Similarity assertion must have a string value"), w).
Proof. intros test text limit output w. repeat split. Qed.

End Shorthand.

(* ===================================================================== *)
(** ** What the javascript branch makes of a predicate *)
(* ===================================================================== *)

Section JavascriptBranch.
Context {World : Type}.
Variable rt : Collaborators World.

(** X22.  A [javascript] assertion whose predicate returns gives a
    result, in the world the predicate left, whose [pass] is the value
    returned as it is: the result passes exactly when that value is truthy,
    with the reason "Assertion passed", and fails otherwise with the reason
    "Custom function returned false".  When the evaluation throws an
    [Error], the result fails and its reason ends with the message of the
    error. *)
Theorem javascript_result_of_predicate :
  forall (test : AtomicTestCase World) predicate limit output w w',
    let a := {| type := "javascript"; value := predicate; threshold := limit |} in
    (forall x,
        callFunction rt ("return " ++ template predicate) output w = (Returned x, w') ->
        runAssertion rt a test output w
        = (Returned {| pass := x;
                       reason := JString (if truthy x then "Assertion passed"
                                          else "Custom function returned false");
                       tokensUsed := None |}, w'))
    /\ (forall name message,
          callFunction rt ("return " ++ template predicate) output w
          = (Thrown (ErrorObject name message), w') ->
          runAssertion rt a test output w
          = (Returned {| pass := JBool false;
                         reason := JString ("Custom function threw error: " ++ message);
                         tokensUsed := None |}, w')).
Proof.
  intros test predicate limit output w w' a.
  split; [intros x H|intros name message H];
    rewrite (runAssertion_javascript_run rt a test output w eq_refl);
    unfold a; simpl value; now rewrite H.
Qed.

(** X23.  What the [javascript] branch makes of a thrown value that is
    not an [Error].  On [null] and on [undefined] its [catch] throws a
    TypeError in its turn, which leaves [runAssertion] in the world the
    predicate left.  On a string, a number, a boolean or an array there is a
    result, and its reason ends with [undefined] whatever was thrown.  On
    an object with a [message] that is a string, the reason ends with that
    string. *)
Theorem javascript_catch_on_other_values :
  forall (test : AtomicTestCase World) predicate limit output w v w',
    let a := {| type := "javascript"; value := predicate; threshold := limit |} in
    callFunction rt ("return " ++ template predicate) output w
    = (Thrown (OtherValue v), w') ->
    match v with
    | JNull =>
        runAssertion rt a test output w
        = (Thrown (TypeError "Cannot read properties of null (reading 'message')"), w')
    | JUndefined =>
        runAssertion rt a test output w
        = (Thrown (TypeError "Cannot read properties of undefined (reading 'message')"), w')
    | JBool _ | JNumber _ | JString _ | JArray _ =>
        runAssertion rt a test output w
        = (Returned {| pass := JBool false;
                       reason := JString "Custom function threw error: undefined";
                       tokensUsed := None |}, w')
    | JObject props =>
        forall text,
          lookup "message" props = Some (JString text) ->
          runAssertion rt a test output w
          = (Returned {| pass := JBool false;
                         reason := JString ("Custom function threw error: " ++ text);
                         tokensUsed := None |}, w')
    end.
Proof.
  intros test predicate limit output w v w' a H.
  rewrite (runAssertion_javascript_run rt a test output w eq_refl).
  unfold a. simpl value. rewrite H.
  destruct v; try reflexivity.
  intros text L. unfold messageText, get. now rewrite L.
Qed.

End JavascriptBranch.

(* ===================================================================== *)
(** ** Further concrete runs *)
(* ===================================================================== *)

Section FurtherRuns.
Import Fixture.

(** An unknown kind in second place: the run throws, and the predicate
    after it is not called. *)
Lemma run_throws_at_unknown_kind :
  runAssertions collaborators
    (no_options [equals "hi"; unknown_kind; javascript "true"]) "hi" []
  = (Thrown (Error "Unknown assertion type: regex"), []).
Proof.
  apply (runAssertions_throw_propagates collaborators
           (no_options [equals "hi"; unknown_kind; javascript "true"]) "hi"
           [equals "hi"] unknown_kind [javascript "true"]
           []
           [{| pass := JBool true; reason := JString "Assertion passed";
               tokensUsed := None |}]
           []).
  - reflexivity.
  - apply passing_cons with (w1 := []); [reflexivity|reflexivity|apply passing_nil].
  - reflexivity.
Defined.

(** The result of the run that stops at its second assertion, read
    backwards. *)
Lemma stopped_run_read_backwards :
  let test := no_options [equals "hi"; javascript "false"; javascript "true"] in
  let r := {| pass := JBool false;
              reason := JString "Custom function returned false";
              tokensUsed := None |} in
  (exists rs,
      passing collaborators test "hi"
        [equals "hi"; javascript "false"; javascript "true"] [] rs ["call return false"]
      /\ r = all_passed (sum_usage rs))
  \/ (exists pre a post rs w1,
         [equals "hi"; javascript "false"; javascript "true"] = (pre ++ a :: post)%list
         /\ passing collaborators test "hi" pre [] rs w1
         /\ runAssertion collaborators a test "hi" w1 = (Returned r, ["call return false"])
         /\ truthy (pass r) = false).
Proof.
  apply (runAssertions_result_inversion collaborators
           (no_options [equals "hi"; javascript "false"; javascript "true"]) "hi"
           [equals "hi"; javascript "false"; javascript "true"] []).
  - reflexivity.
  - reflexivity.
Defined.

(** The three passing assertions, as one and then two. *)
Lemma run_in_two_parts :
  match runAssertions collaborators
          (no_options [similar "cat" None; javascript "output.length"]) "kitten"
          ["embed kitten"; "embed cat"] with
  | (Thrown err, w2) =>
      runAssertions collaborators (no_options three_passing) "kitten" []
      = (Thrown err, w2)
  | (Returned r, w2) =>
      if truthy (pass r) then
        runAssertions collaborators (no_options three_passing) "kitten" []
        = (Returned
             (all_passed
                (add_usage
                   (sum_usage
                      [{| pass := JBool true;
                          reason := JString "Similarity 0.8 is greater than threshold 0.8";
                          tokensUsed := Some {| total := 6; prompt := 6; completion := 0 |} |}])
                   (usage_or_zero r))), w2)
      else
        runAssertions collaborators (no_options three_passing) "kitten" []
        = (Returned r, w2)
  end.
Proof.
  apply (runAssertions_append collaborators
           (no_options three_passing)
           (no_options [similar "cat" None; javascript "output.length"]) "kitten"
           [similar "cat" (Some lit_0_8)]
           [similar "cat" None; javascript "output.length"]
           []).
  - reflexivity.
  - reflexivity.
  - reflexivity.
  - apply passing_cons with (w1 := ["embed kitten"; "embed cat"]).
    + vm_compute. reflexivity.
    + reflexivity.
    + apply passing_nil.
Defined.

(** The object of the specification's example, between two texts. *)
Lemma object_found_in_text :
  containsJSON collaborators
    ("prefix " ++ String "{" ((quote ++ "a" ++ quote ++ ":1") ++ String "}" " suffix"))
  = true.
Proof.
  apply (containsJSON_finds_embedded collaborators "{"%char "}"%char "prefix "
           (quote ++ "a" ++ quote ++ ":1") " suffix"
           (JObject [("a", JNumber (num 1))])).
  - left. split; reflexivity.
  - reflexivity.
  - reflexivity.
  - reflexivity.
  - vm_compute. reflexivity.
Defined.

(** A number is JSON, and contains none. *)
Lemma number_contains_no_json :
  Json.parse "42" = Some (JNumber (num 42))
  /\ containsJSON collaborators "42" = false
  /\ runAssertion collaborators
       {| type := "contains-json"; value := None; threshold := None |}
       (no_options []) "42" []
     = (Returned {| pass := JBool false;
                    reason := JString "Expected output to contain valid JSON";
                    tokensUsed := None |}, []).
Proof.
  split; [vm_compute; reflexivity|].
  apply (contains_json_needs_a_bracket collaborators (no_options []) None None "42" []);
    reflexivity.
Defined.

(** An equality check gives the same result with other collaborators and
    another test case. *)
Lemma equality_check_calls_nothing :
  exists r,
    runAssertion collaborators (equals "x") (no_options []) "y" [] = (Returned r, [])
    /\ runAssertion (with_loader collaborators no_loader) (equals "x")
         (judged_by out_of_quota []) "y" ["embed cat"]
       = (Returned r, ["embed cat"])
    /\ tokensUsed r = None.
Proof.
  apply (local_checks_call_nothing Journal Journal collaborators
           (with_loader collaborators no_loader)
           (no_options []) (judged_by out_of_quota []) (equals "x") "y" []
           ["embed cat"]).
  - reflexivity.
  - intros s. reflexivity.
Defined.

(** A text the embedding provider knows nothing of. *)
Lemma unknown_text_has_no_embedding :
  matchesSimilarity
    (with_cosine collaborators (fun _ _ => inl (Error "not reached")))
    "cat" "unheard of" lit_0_75 []
  = (Returned {| pass := JBool false;
                 reason := JString "Embedding not found";
                 tokensUsed := Some {| total := 3; prompt := 3; completion := 0 |} |},
     ["embed unheard of"; "embed cat"]).
Proof.
  apply (matchesSimilarity_embedding_not_found collaborators
           "cat" "unheard of" lit_0_75 [] _ ["embed cat"] _
           ["embed unheard of"; "embed cat"]
           (fun _ _ => inl (Error "not reached")) eq_refl eq_refl eq_refl eq_refl).
  right. reflexivity.
Defined.

(** What passes at 0.8 passes at 0.75. *)
Lemma lower_threshold_still_passes :
  exists r',
    matchesSimilarity collaborators "cat" "kitten" lit_0_75 []
    = (Returned r', ["embed kitten"; "embed cat"])
    /\ pass r' = JBool true.
Proof.
  apply (proj1 (matchesSimilarity_threshold_monotone collaborators
                  "cat" "kitten" lit_0_75 lit_0_8 [] _ ["embed cat"] _
                  ["embed kitten"; "embed cat"]
                  {| pass := JBool true;
                     reason := JString "Similarity 0.8 is greater than threshold 0.8";
                     tokensUsed := Some {| total := 6; prompt := 6; completion := 0 |} |}
                  eq_refl eq_refl eq_refl)).
  - vm_compute. reflexivity.
  - reflexivity.
Defined.

(** The usage of a judged result is the usage of the grading call. *)
Lemma judged_usage_is_of_the_call :
  exists r,
    matchesLlmRubric collaborators "be concise" "short"
      (Some {| provider := Some (inr (canned verdict_passing)); rubricPrompt := None |}) []
    = (Returned r, ["grade Grade it / short / be concise"])
    /\ tokensUsed r = Some {| total := 7; prompt := 5; completion := 2 |}.
Proof.
  apply (matchesLlmRubric_usage_of_the_call collaborators "be concise" "short"
           {| provider := Some (inr (canned verdict_passing)); rubricPrompt := None |}
           "Grade it / short / be concise" [] (canned verdict_passing) []
           {| output := Some verdict_passing; error := None;
              tokenUsage := Some {| total := 7; prompt := 5; completion := 2 |} |}
           ["grade Grade it / short / be concise"]);
    reflexivity.
Defined.

(** A judge that answers [null]. *)
Lemma null_verdict_is_rejected :
  matchesLlmRubric collaborators "be concise" "short"
    (Some {| provider := Some (inr (canned "null")); rubricPrompt := None |}) []
  = (Returned {| pass := JBool false;
                 reason := JString "Output is not valid JSON: null";
                 tokensUsed := Some {| total := 7; prompt := 5; completion := 2 |} |},
     ["grade Grade it / short / be concise"]).
Proof.
  apply (matchesLlmRubric_rejects_non_objects collaborators "be concise" "short"
           {| provider := Some (inr (canned "null")); rubricPrompt := None |}
           "Grade it / short / be concise" [] (canned "null") []
           {| output := Some "null"; error := None;
              tokenUsage := Some {| total := 7; prompt := 5; completion := 2 |} |}
           ["grade Grade it / short / be concise"] "null");
    try reflexivity.
  discriminate.
Defined.

(** With a handle, a loader that finds nothing does no harm. *)
Lemma handle_needs_no_loader :
  matchesLlmRubric (with_loader collaborators no_loader) "be concise" "short"
    (Some {| provider := Some (inr (canned verdict_passing)); rubricPrompt := None |}) []
  = matchesLlmRubric collaborators "be concise" "short"
      (Some {| provider := Some (inr (canned verdict_passing)); rubricPrompt := None |}) [].
Proof.
  apply (matchesLlmRubric_loads_only_named collaborators "be concise" "short"
           {| provider := Some (inr (canned verdict_passing)); rubricPrompt := None |}
           no_loader []).
  reflexivity.
Defined.

Lemma digits_0 : Regex.digits "0".
Proof. split; [discriminate|reflexivity]. Defined.

Lemma digits_9 : Regex.digits "9".
Proof. split; [discriminate|reflexivity]. Defined.

(** The example of the specification, from the general form. *)
Lemma similar_0_9_foo :
  assertionFromString ("similar(0.9):" ++ " foo")
  = {| type := "similar";
       value := Some (trim " foo");
       threshold := Some (or_else (ParseFloat.parseFloat (template (Some "0.9")))
                                  lit_0_8) |}.
Proof.
  apply (assertionFromString_similar_form ("similar(" ++ "0" ++ "." ++ "9" ++ "):")
           (Some ("0" ++ "." ++ "9")) " foo").
  apply (Regex.form_decimal "0" "9" digits_0 digits_9).
Defined.

Lemma fn_and_eval_agree :
  assertionFromString ("fn:" ++ " x.length > 0")
  = {| type := "javascript"; value := Some " x.length > 0"; threshold := None |}
  /\ assertionFromString ("eval:" ++ " x.length > 0")
     = {| type := "javascript"; value := Some " x.length > 0"; threshold := None |}.
Proof.
  apply (assertionFromString_fn_eval " x.length > 0"). reflexivity.
Defined.

Lemma hello_checks_equality :
  runAssertion collaborators (assertionFromString "hello") (no_options []) "hello" []
  = (Returned {| pass := JBool (String.eqb "hello" "hello");
                 reason := JString
                   (if String.eqb "hello" "hello" then "Assertion passed"
                    else "Expected output " ++ quote ++ "hello" ++ quote);
                 tokensUsed := None |}, []).
Proof.
  apply (plain_text_is_an_equality_check collaborators (no_options []) "hello" "hello" []).
  reflexivity.
Defined.

Lemma blank_similar_throws :
  runAssertion collaborators (assertionFromString ("similar:" ++ "   "))
               (no_options []) "kitten" []
  = (Thrown (Error "Invariant failed: Similarity assertion must have a string value"), []).
Proof.
  apply (proj1 (empty_shorthand_throws collaborators (no_options [])
                  "similar:" None "   " "kitten" [] Regex.form_plain eq_refl)).
Defined.

(** A [rename] event on a file that cannot be read: nothing happens. *)
Lemma rename_event_is_ignored :
  Server.onWatch (fun _ => "Unexpected token") "rename" (fresh None)
  = (Returned tt, fresh None).
Proof.
  apply (proj1 (onWatch_sends_only_on_change (fun _ => "Unexpected token")
                  "rename" (fresh None))).
  discriminate.
Defined.

(** [similar: cat] runs the matcher with the threshold 0.8. *)
Lemma similar_shorthand_runs_the_matcher :
  runAssertion collaborators (assertionFromString ("similar:" ++ " cat"))
               (no_options []) "kitten"
  = matchesSimilarity collaborators (trim " cat") "kitten"
      (or_else (ParseFloat.parseFloat (template None)) lit_0_8).
Proof.
  apply (proj1 (shorthand_runs_the_named_check collaborators (no_options []) "kitten")
               "similar:" None " cat" Regex.form_plain).
  vm_compute. discriminate.
Defined.

(** A predicate that reads a property of [undefined]: the TypeError it
    throws is turned into a result. *)
Lemma type_error_is_graded :
  runAssertion collaborators (javascript "output.missing.length") (no_options [])
               "short" []
  = (Returned {| pass := JBool false;
                 reason := JString
                   "Custom function threw error: Cannot read properties of undefined (reading 'length')";
                 tokensUsed := None |},
     ["call return output.missing.length"]).
Proof.
  apply (proj2 (javascript_result_of_predicate collaborators (no_options [])
                  (Some "output.missing.length") None "short" []
                  ["call return output.missing.length"])
               "TypeError" "Cannot read properties of undefined (reading 'length')").
  reflexivity.
Defined.

(** A predicate that throws a string: the reason does not carry it. *)
Lemma thrown_text_is_lost :
  runAssertion careless (javascript throw_text) (no_options []) "short" []
  = (Returned {| pass := JBool false;
                 reason := JString "Custom function threw error: undefined";
                 tokensUsed := None |},
     ["call return (() => { throw 'boom' })()"]).
Proof.
  apply (javascript_catch_on_other_values careless (no_options [])
           (Some throw_text) None "short" [] (JString "boom")
           ["call return (() => { throw 'boom' })()"]).
  reflexivity.
Defined.

(** The callbacks on a results file with a table, on a file that holds
    [null], and on a host that refuses the watcher. *)
Lemma server_examples :
  Server.onConnection (fun _ => "Unexpected token") always_watching
    (fresh (Some results_file))
  = (Returned tt,
     {| Server.latest := Some results_file;
        Server.emitted := [("init", JObject [("table", JArray [JNumber (num 1)])])];
        Server.watchers := 1 |})
  /\ Server.onConnection (fun _ => "Unexpected token") out_of_watchers
       (fresh (Some results_file))
     = (Thrown (Error "ENOSPC: System limit for number of file watchers reached"),
        {| Server.latest := Some results_file;
           Server.emitted := [("init", JObject [("table", JArray [JNumber (num 1)])])];
           Server.watchers := 0 |})
  /\ Server.onWatch (fun _ => "Unexpected token") "change" (fresh (Some "null"))
     = (Thrown (TypeError "Cannot read properties of null (reading 'table')"),
        fresh (Some "null"))
  /\ Server.opensBrowser "Yes please" = true
  /\ Server.opensBrowser EmptyString = false
  /\ Server.opensBrowser "no" = false.
Proof. repeat split; vm_compute; reflexivity. Qed.

End FurtherRuns.
